(** * Water-source reporting page: report store, ingestion and derived views

    A shallow embedding of [pages/3_Water_Help.py].  The page keeps its
    reports in [st.session_state.reports], a Python list of dicts, and derives
    every view from it through pandas.  The embedding follows that split:

    - Python scalars and dicts ([value], [pydict]);
    - the pandas frame operations the page calls ([DataFrame] and friends);
    - the library routines whose behaviour the page does not determine
      (the CSV reader, the date parser, the default sort routine, the OpenAI
      client), collected in the class [Collaborators] with the part of their
      documented contract that the page relies on;
    - the file system and the image widget, as far as the page calls them
      (the class [Platform]);
    - the page itself: [report_tab_upload], [report_tab_submit],
      [gallery_tab], [gallery_render], [table_tab], [trends_tab],
      [ai_analysis_tab], [run_page];
    - an object heap for the aliasing question around [load_data]. *)

From Stdlib Require Import ZArith String Ascii List Sorted Permutation Lia
  OrderedTypeEx.
From stdpp Require Import base option list gmap strings pretty.
Import ListNotations.

Local Open Scope string_scope.
Local Open Scope Z_scope.
Local Open Scope list_scope.

(** ** Python values *)

(** The scalars that occur as dict values and frame cells.  [VTimestamp]
    carries nanoseconds since 1970-01-01 00:00, as [pandas.Timestamp.value]
    does; [VNaN] is the float [nan] pandas uses for a missing cell and
    [VNaT] the missing date-time.  Floats other than [nan] do not occur in
    what the page itself stores and are left out. *)
Inductive value : Type :=
  | VStr (s : string)
  | VInt (n : Z)
  | VBool (b : bool)
  | VNone
  | VNaN
  | VTimestamp (ns : Z)
  | VNaT.

#[global] Instance value_eq_dec : EqDecision value.
Proof. solve_decision. Defined.

(** [pandas.isna] on a scalar. *)
Definition isna (v : value) : bool :=
  match v with
  | VNone | VNaN | VNaT => true
  | _ => false
  end.

(** Exceptions the page can meet. *)
Inductive exn : Type :=
  | KeyError (key : string)
  | ValueError (msg : string)
  | TypeError (msg : string)
  | OSError (msg : string)
  | OpenAIError (msg : string)
  | LibraryError (msg : string).

(** Computations that may raise. *)
Inductive result (A : Type) : Type :=
  | Ok (a : A)
  | Raise (e : exn).
Arguments Ok {A} a.
Arguments Raise {A} e.

Definition rbind {A B} (m : result A) (k : A -> result B) : result B :=
  match m with
  | Ok a => k a
  | Raise e => Raise e
  end.

Declare Scope py_scope.
Delimit Scope py_scope with py.
Notation "'do' x <- m ; k" := (rbind m (fun x => k))
  (at level 10, x name, m at level 100, k at level 200) : py_scope.
Local Open Scope py_scope.

(** A Python dict: insertion-ordered, keys unique. *)
Definition pydict : Type := list (string * value).

Fixpoint dict_get (d : pydict) (k : string) : option value :=
  match d with
  | [] => None
  | (k', v) :: d' => if String.eqb k k' then Some v else dict_get d' k
  end.

(** [d[k] = v]: overwrite in place, or add at the end. *)
Fixpoint dict_set (d : pydict) (k : string) (v : value) : pydict :=
  match d with
  | [] => [(k, v)]
  | (k', v') :: d' =>
      if String.eqb k k' then (k', v) :: d' else (k', v') :: dict_set d' k v
  end.

Definition keys (d : pydict) : list string := map fst d.

(** The cell of a row under a label; a row without the label reads as
    [nan]. *)
Definition field (c : string) (d : pydict) : value :=
  default VNaN (dict_get d c).

Definition mem (k : string) (l : list string) : bool :=
  existsb (String.eqb k) l.

(** ** Frames *)

(** A [pandas.DataFrame] with the default integer index: the column labels
    and the rows, each row holding one cell per column, keyed by label. *)
Record DataFrame : Type := mkDataFrame {
  columns : list string;
  rows : list pydict
}.

Definition wf_frame (df : DataFrame) : Prop :=
  NoDup (columns df) /\ Forall (fun r => keys r = columns df) (rows df).

(** Labels of [pd.DataFrame(list_of_dicts)]: the keys in order of first
    appearance. *)
Definition add_key (seen : list string) (k : string) : list string :=
  if mem k seen then seen else seen ++ [k].

Definition union_keys (ds : list pydict) : list string :=
  fold_left (fun seen d => fold_left add_key (keys d) seen) ds [].

(** [pd.DataFrame(records)]: a missing key becomes [nan]. *)
Definition DataFrame_of_records (records : list pydict) : DataFrame :=
  let cols := union_keys records in
  {| columns := cols;
     rows := map (fun d => map (fun c => (c, field c d)) cols) records |}.

(** [df.empty]: some axis has length zero. *)
Definition empty (df : DataFrame) : bool :=
  match columns df, rows df with
  | [], _ | _, [] => true
  | _, _ => false
  end.

(** [df[col]]. *)
Definition getitem (df : DataFrame) (col : string) : result (list value) :=
  if mem col (columns df)
  then Ok (map (field col) (rows df))
  else Raise (KeyError col).

Fixpoint zip_set (col : string) (rs : list pydict) (vs : list value)
  : list pydict :=
  match rs, vs with
  | r :: rs', v :: vs' => dict_set r col v :: zip_set col rs' vs'
  | _, _ => rs
  end.

(** [df[col] = series], for a series aligned with the frame's index. *)
Definition setitem (df : DataFrame) (col : string) (vs : list value)
  : DataFrame :=
  {| columns := if mem col (columns df) then columns df
                else columns df ++ [col];
     rows := zip_set col (rows df) vs |}.

(** [df.drop(columns=cols, errors="ignore")]. *)
Definition drop_columns (df : DataFrame) (cols : list string) : DataFrame :=
  {| columns := List.filter (fun c => negb (mem c cols)) (columns df);
     rows := map (List.filter (fun kv => negb (mem (fst kv) cols))) (rows df) |}.

(** [df.to_dict(orient="records")]. *)
Definition to_dict_records (df : DataFrame) : list pydict := rows df.

(** [df[mask]] for a boolean series [mask]. *)
Fixpoint select {A} (mask : list bool) (l : list A) : list A :=
  match mask, l with
  | b :: mask', x :: l' => if b then x :: select mask' l' else select mask' l'
  | _, _ => []
  end.

Definition boolean_index (df : DataFrame) (mask : list bool) : DataFrame :=
  {| columns := columns df; rows := select mask (rows df) |}.

(** [df.tail(n)]. *)
Definition tail (n : nat) (df : DataFrame) : DataFrame :=
  {| columns := columns df;
     rows := skipn (length (rows df) - n) (rows df) |}.

(** ** Text and dates *)

Definition quote_char : ascii := ascii_of_nat 34.
Definition apostrophe : ascii := ascii_of_nat 39.
Definition backslash : ascii := ascii_of_nat 92.
Definition newline : ascii := ascii_of_nat 10.
Definition carriage_return : ascii := ascii_of_nat 13.
Definition tab_char : ascii := ascii_of_nat 9.

Definition str1 (c : ascii) : string := String c EmptyString.

Fixpoint join (sep : string) (l : list string) : string :=
  match l with
  | [] => ""
  | [x] => x
  | x :: l' => x +:+ sep +:+ join sep l'
  end.

Definition digit (n : Z) : ascii := ascii_of_nat (48 + Z.to_nat (n mod 10)).

(** Zero-padded decimal of fixed width, as [%02d] and [%04d] print it for
    numbers that fit. *)
Fixpoint zero_pad (width : nat) (n : Z) : string :=
  match width with
  | O => ""
  | S w => zero_pad w (n / 10) +:+ str1 (digit n)
  end.

(** A naive (zone-less) calendar date-time, the shape of [datetime.now()]. *)
Record datetime : Type := mkDatetime {
  year : Z; month : Z; day : Z; hour : Z; minute : Z; second : Z
}.

(** The fields of a [datetime] are in their calendar ranges, with a year
    of four digits: the C library prints an earlier year without leading
    zeros. *)
Definition valid_datetime (now : datetime) : Prop :=
  1000 <= year now <= 9999 /\ 1 <= month now <= 12 /\ 1 <= day now <= 31
  /\ 0 <= hour now <= 23 /\ 0 <= minute now <= 59 /\ 0 <= second now <= 59.

(** [now.strftime("%Y-%m-%d %H:%M")]. *)
Definition strftime_minute (now : datetime) : string :=
  zero_pad 4 (year now) +:+ "-" +:+ zero_pad 2 (month now) +:+ "-" +:+
  zero_pad 2 (day now) +:+ " " +:+ zero_pad 2 (hour now) +:+ ":" +:+
  zero_pad 2 (minute now).

(** [now.strftime("%Y%m%d_%H%M%S")]. *)
Definition strftime_compact (now : datetime) : string :=
  zero_pad 4 (year now) +:+ zero_pad 2 (month now) +:+ zero_pad 2 (day now) +:+
  "_" +:+ zero_pad 2 (hour now) +:+ zero_pad 2 (minute now) +:+
  zero_pad 2 (second now).

(** Proleptic Gregorian date of a day number counted from 1970-01-01. *)
Definition civil_from_days (z : Z) : Z * Z * Z :=
  let z := z + 719468 in
  let era := z / 146097 in
  let doe := z - era * 146097 in
  let yoe := (doe - doe / 1460 + doe / 36524 - doe / 146096) / 365 in
  let y := yoe + era * 400 in
  let doy := doe - (365 * yoe + yoe / 4 - yoe / 100) in
  let mp := (5 * doy + 2) / 153 in
  let d := doy - (153 * mp + 2) / 5 + 1 in
  let m := if mp <? 10 then mp + 3 else mp - 9 in
  (if m <=? 2 then y + 1 else y, m, d).

(** Day number of a proleptic Gregorian date. *)
Definition days_from_civil (y m d : Z) : Z :=
  let y := if m <=? 2 then y - 1 else y in
  let era := y / 400 in
  let yoe := y - era * 400 in
  let doy := (153 * (if 2 <? m then m - 3 else m + 9) + 2) / 5 + d - 1 in
  let doe := yoe * 365 + yoe / 4 - yoe / 100 + doy in
  era * 146097 + doe - 719468.

Definition format_date (days : Z) : string :=
  let '(y, m, d) := civil_from_days days in
  zero_pad 4 y +:+ "-" +:+ zero_pad 2 m +:+ "-" +:+ zero_pad 2 d.

Definition ns_per_second : Z := 1000000000.
Definition ns_per_day : Z := 86400 * ns_per_second.

Definition day_of (ns : Z) : Z := ns / ns_per_day.

(** [str(pd.Timestamp)]: ISO date and time separated by a blank, with the
    fraction printed only when it is not zero. *)
Definition format_timestamp (ns : Z) : string :=
  let in_day := ns mod ns_per_day in
  let secs := in_day / ns_per_second in
  let frac := in_day mod ns_per_second in
  format_date (day_of ns) +:+ " " +:+ zero_pad 2 (secs / 3600) +:+ ":" +:+
  zero_pad 2 (secs / 60 mod 60) +:+ ":" +:+ zero_pad 2 (secs mod 60) +:+
  (if frac =? 0 then ""
   else if frac mod 1000 =? 0 then "." +:+ zero_pad 6 (frac / 1000)
   else "." +:+ zero_pad 9 frac).

(** First day (a Monday) of the Monday-to-Sunday week that holds the
    instant; day 0 was a Thursday. *)
Definition week_start (ns : Z) : Z :=
  let d := day_of ns in d - (d + 3) mod 7.

(** [str(ts.to_period("W"))]: the week as [start/end], Monday to Sunday. *)
Definition week_label (ns : Z) : string :=
  format_date (week_start ns) +:+ "/" +:+ format_date (week_start ns + 6).

(** [str(v)]; also what [Series.astype(str)] puts in each cell. *)
Definition py_str (v : value) : string :=
  match v with
  | VStr s => s
  | VInt n => pretty n
  | VBool true => "True"
  | VBool false => "False"
  | VNone => "None"
  | VNaN => "nan"
  | VTimestamp ns => format_timestamp ns
  | VNaT => "NaT"
  end.

Fixpoint contains (c : ascii) (s : string) : bool :=
  match s with
  | EmptyString => false
  | String c' s' => Ascii.eqb c c' || contains c s'
  end.

Definition hex_digit (n : nat) : ascii :=
  if (n <? 10)%nat then ascii_of_nat (48 + n) else ascii_of_nat (87 + n).

(** One character inside [repr(str)] delimited by [q]. *)
Definition repr_char (q c : ascii) : string :=
  let n := nat_of_ascii c in
  if Ascii.eqb c backslash then str1 backslash +:+ str1 backslash
  else if Ascii.eqb c q then str1 backslash +:+ str1 q
  else if Ascii.eqb c newline then str1 backslash +:+ "n"
  else if Ascii.eqb c carriage_return then str1 backslash +:+ "r"
  else if Ascii.eqb c tab_char then str1 backslash +:+ "t"
  else if ((n <? 32) || (n =? 127))%nat
       then str1 backslash +:+ "x" +:+ str1 (hex_digit (n / 16)) +:+
            str1 (hex_digit (n mod 16))
  else str1 c.

Fixpoint repr_chars (q : ascii) (s : string) : string :=
  match s with
  | EmptyString => ""
  | String c s' => repr_char q c +:+ repr_chars q s'
  end.

(** [repr] of a [str]: apostrophes around it, unless it holds an apostrophe
    and no double quote.  Bytes above 127 are kept as they are. *)
Definition repr_str (s : string) : string :=
  let q := if contains apostrophe s && negb (contains quote_char s)
           then quote_char else apostrophe in
  str1 q +:+ repr_chars q s +:+ str1 q.

(** [repr(v)]. *)
Definition py_repr (v : value) : string :=
  match v with
  | VStr s => repr_str s
  | VTimestamp ns => "Timestamp(" +:+ repr_str (format_timestamp ns) +:+ ")"
  | _ => py_str v
  end.

(** [repr] of a dict, and of a list of dicts. *)
Definition repr_dict (d : pydict) : string :=
  "{" +:+ join ", " (map (fun kv => repr_str (fst kv) +:+ ": " +:+
                                     py_repr (snd kv)) d) +:+ "}".

Definition repr_records (ds : list pydict) : string :=
  "[" +:+ join ", " (map repr_dict ds) +:+ "]".

(** ** Grouping *)

(** Order of group labels.  pandas sorts the labels of each key; where a key
    column mixes numbers and text it puts the numbers first.  The page's keys
    are text (typed zip codes, week labels) or integers (zip codes read from
    a CSV file). *)
Definition rank (v : value) : Z :=
  match v with
  | VBool _ => 0
  | VInt _ => 1
  | VTimestamp _ => 2
  | VStr _ => 3
  | VNone => 4
  | VNaN => 5
  | VNaT => 6
  end.

Definition value_compare (a b : value) : comparison :=
  match a, b with
  | VStr s, VStr t => String.compare s t
  | VInt m, VInt n => Z.compare m n
  | VTimestamp m, VTimestamp n => Z.compare m n
  | VBool x, VBool y => Bool.compare x y
  | _, _ => Z.compare (rank a) (rank b)
  end.

(** Lexicographic order on the tuple of key cells. *)
Fixpoint key_compare (k l : list value) : comparison :=
  match k, l with
  | [], [] => Eq
  | [], _ :: _ => Lt
  | _ :: _, [] => Gt
  | a :: k', b :: l' =>
      match value_compare a b with
      | Eq => key_compare k' l'
      | c => c
      end
  end.

(** Count one more row under label [k] in a label-sorted tally. *)
Fixpoint tally (k : list value) (groups : list (list value * nat))
  : list (list value * nat) :=
  match groups with
  | [] => [(k, 1%nat)]
  | (k', n) :: rest =>
      match key_compare k k' with
      | Lt => (k, 1%nat) :: groups
      | Eq => (k', S n) :: rest
      | Gt => (k', n) :: tally k rest
      end
  end.

Definition row_key (by_ : list string) (r : pydict) : list value :=
  map (fun c => field c r) by_.

(** Group labels with their sizes: rows with a missing key cell are left
    out ([dropna=True]), labels come out sorted ([sort=True]). *)
Definition group_sizes (by_ : list string) (rs : list pydict)
  : list (list value * nat) :=
  fold_right tally []
    (List.filter (fun k => negb (existsb isna k)) (map (row_key by_) rs)).

Definition group_row (by_ : list string) (name : string)
    (g : list value * nat) : pydict :=
  combine by_ (fst g) ++ [(name, VInt (Z.of_nat (snd g)))].

(** [df.groupby(by).size().reset_index(name=name)]. *)
Definition groupby_size (df : DataFrame) (by_ : list string) (name : string)
  : result DataFrame :=
  match List.filter (fun c => negb (mem c (columns df))) by_ with
  | c :: _ => Raise (KeyError c)
  | [] =>
      Ok {| columns := by_ ++ [name];
            rows := map (group_row by_ name) (group_sizes by_ (rows df)) |}
  end.

(** ** Sorting *)

(** Fancy indexing [items[idx]]. *)
Definition gather {A} (d : A) (items : list A) (idx : list nat) : list A :=
  map (fun i => nth i items d) idx.

Definition is_None (k : option Z) : bool :=
  match k with
  | None => true
  | Some _ => false
  end.

(** The keys that are not missing, in order. *)
Fixpoint present (items : list (option Z)) : list Z :=
  match items with
  | [] => []
  | Some k :: items' => k :: present items'
  | None :: items' => present items'
  end.

(** [pandas.core.sorting.nargsort] with [na_position="last"]: missing keys
    are set aside, the others are handed to the sort routine (reversed before
    and after for a descending sort), the missing ones are put at the end. *)
Definition nargsort (argsort : list Z -> list nat) (items : list (option Z))
    (ascending : bool) : list nat :=
  let idx := seq 0 (length items) in
  let mask := map is_None items in
  let non_nans := present items in
  let non_nan_idx := select (map negb mask) idx in
  let nan_idx := select mask idx in
  let non_nans := if ascending then non_nans else rev non_nans in
  let non_nan_idx := if ascending then non_nan_idx else rev non_nan_idx in
  let indexer := gather O non_nan_idx (argsort non_nans) in
  let indexer := if ascending then indexer else rev indexer in
  indexer ++ nan_idx.

(** Sort key of a cell in a [datetime64] column. *)
Definition datetime_key (v : value) : option Z :=
  match v with
  | VTimestamp ns => Some ns
  | _ => None
  end.

(** [df.sort_values(by=col, ascending=...)] on a [datetime64] column, with
    the default [kind] and [na_position]. *)
Definition sort_values (argsort : list Z -> list nat) (df : DataFrame)
    (col : string) (ascending : bool) : result DataFrame :=
  do vs <- getitem df col;
  Ok {| columns := columns df;
        rows := gather [] (rows df)
                  (nargsort argsort (map datetime_key vs) ascending) |}.

(** ** Delimited text *)

(** A cell as [to_csv] prints it: missing cells print as nothing.  A time
    stamp prints in full, as in a column of mixed cells; the shortening of
    a column that holds only midnights is not modelled. *)
Definition csv_cell (v : value) : string :=
  if isna v then "" else py_str v.

(** Minimal quoting of the [csv] writer: a field is quoted when it holds the
    delimiter, the quote character or a line break, and the quote character
    inside it is doubled. *)
Definition needs_quotes (s : string) : bool :=
  contains "," s || contains quote_char s || contains newline s
  || contains carriage_return s.

Fixpoint double_quotes (s : string) : string :=
  match s with
  | EmptyString => ""
  | String c s' =>
      (if Ascii.eqb c quote_char then str1 c +:+ str1 c else str1 c)
      +:+ double_quotes s'
  end.

Definition csv_field (s : string) : string :=
  if needs_quotes s
  then str1 quote_char +:+ double_quotes s +:+ str1 quote_char
  else s.

Definition csv_line (fields : list string) : string :=
  join "," (map csv_field fields) +:+ str1 newline.

(** [df.to_csv(index=False)]. *)
Definition to_csv (df : DataFrame) : string :=
  String.concat ""
    (csv_line (columns df)
     :: map (fun r => csv_line (map (fun c => csv_cell (field c r))
                                    (columns df)))
            (rows df)).

(** [a == b] on cells, as in [df[col] == x]: a missing cell equals nothing. *)
Definition py_eq (a b : value) : bool :=
  negb (isna a) && negb (isna b) && bool_decide (a = b).

(** First line of a text, without its line break. *)
Fixpoint first_line (s : string) : string :=
  match s with
  | EmptyString => ""
  | String c s' => if Ascii.eqb c newline then "" else String c (first_line s')
  end.

(** The fields of a line that holds no quoted field. *)
Fixpoint split_commas (s : string) : list string :=
  match s with
  | EmptyString => [""]
  | String c s' =>
      if Ascii.eqb c ","
      then "" :: split_commas s'
      else match split_commas s' with
           | f :: fs => String c f :: fs
           | [] => [str1 c]
           end
  end.

(** Every character is printable ASCII. *)
Fixpoint printable (s : string) : bool :=
  match s with
  | EmptyString => true
  | String c s' =>
      (32 <=? nat_of_ascii c)%nat && (nat_of_ascii c <=? 126)%nat
      && printable s'
  end.

(** A header line the reader takes as it stands: printable ASCII (so no
    byte-order mark and no carriage return), no quoting, and labels that
    are neither empty nor repeated (the reader renames empty and repeated
    labels). *)
Definition plain_header (text : string) : Prop :=
  let h := first_line text in
  printable h = true /\ contains quote_char h = false
  /\ NoDup (split_commas h) /\ ~ In "" (split_commas h).

(** ** Collaborators *)

(** The OpenAI client object. *)
Record client : Type := mkClient { api_key : string }.

(** [OpenAI(api_key=...)] of the [openai] package (1.0 and later, the
    versions that export the class [OpenAI]): without a key argument the
    constructor looks the key up in the environment itself and, finding
    none, raises [OpenAIError]. *)
Definition OpenAI (api_key : option string) (environ_key : option string)
  : result client :=
  match api_key, environ_key with
  | Some k, _ | None, Some k => Ok (mkClient k)
  | None, None =>
      Raise (OpenAIError "The api_key client option must be set either by passing api_key to the client or by setting the OPENAI_API_KEY environment variable")
  end.

(** A chat completion request; the temperature 0.5 is kept as a fraction. *)
Record chat_request : Type := mkRequest {
  model : string;
  system_content : string;
  user_content : string;
  max_tokens : Z;
  temperature : Z * Z
}.

(** The routines whose results the page does not determine, with the part of
    their documented behaviour the page relies on.
    - [read_csv]: [pd.read_csv] on the uploaded text.  It returns a frame
      whose rows carry one cell per label, and a plain header line gives the
      labels as they stand.
    - [parse_datetime]: the date-time parser behind [pd.to_datetime], on a
      cell that is not missing; a time stamp parses to itself, and the text
      the page itself writes for a time stamp parses.
    - [argsort]: [numpy.argsort] with the default [kind="quicksort"], which
      promises an ordering permutation and nothing about ties.
    - [chat_completions_create]: [client.chat.completions.create]. *)
Class Collaborators : Type := {
  read_csv : string -> result DataFrame;
  read_csv_wf : forall text df, read_csv text = Ok df -> wf_frame df;
  read_csv_header : forall text df,
    read_csv text = Ok df -> plain_header text ->
    columns df = split_commas (first_line text);
  parse_datetime : value -> option Z;
  parse_datetime_timestamp : forall ns, parse_datetime (VTimestamp ns) = Some ns;
  parse_datetime_own_format : forall now,
    valid_datetime now ->
    exists ns, parse_datetime (VStr (strftime_minute now)) = Some ns;
  argsort : list Z -> list nat;
  argsort_perm : forall l, Permutation (argsort l) (seq 0 (length l));
  argsort_sorted : forall l, Sorted Z.le (gather 0 l (argsort l));
  chat_completions_create : client -> chat_request -> result string
}.

(** The file system and the image widget, as far as the page calls them.
    - [makedirs]: [os.makedirs(dir, exist_ok=True)].
    - [write_file]: [open(path, "wb")] followed by [f.write(bytes)]; it
      raises when the file cannot be created, for a [path] with a
      directory that does not exist, say.
    - [path_exists]: [os.path.exists].  On text it answers and never
      raises; on the float [nan] it raises [TypeError].
    - [st_image]: [st.image], which opens the file again. *)
Class Platform : Type := {
  makedirs : string -> result unit;
  write_file : string -> string -> result unit;
  path_exists : value -> result bool;
  path_exists_text : forall p, exists b, path_exists (VStr p) = Ok b;
  path_exists_nan : exists msg, path_exists VNaN = Raise (TypeError msg);
  st_image : value -> result unit
}.

Fixpoint rmap {A B} (f : A -> result B) (l : list A) : result (list B) :=
  match l with
  | [] => Ok []
  | x :: l' => do y <- f x; do ys <- rmap f l'; Ok (y :: ys)
  end.

Section Page.

Context {lib : Collaborators} {os : Platform}.

(** [pd.to_datetime] on one cell: a missing cell becomes [NaT]; a cell that
    does not parse becomes [NaT] under [errors="coerce"] and raises
    otherwise. *)
Definition to_datetime_cell (coerce : bool) (v : value) : result value :=
  if isna v then Ok VNaT
  else match parse_datetime v with
       | Some ns => Ok (VTimestamp ns)
       | None => if coerce then Ok VNaT
                 else Raise (ValueError "Unknown datetime string format")
       end.

(** [pd.to_datetime(series, errors=...)]. *)
Definition to_datetime (coerce : bool) (vs : list value)
  : result (list value) :=
  rmap (to_datetime_cell coerce) vs.

(** [series.dt.to_period("W").astype(str)] on a [datetime64] series. *)
Definition to_period_W_str (v : value) : value :=
  match v with
  | VTimestamp ns => VStr (week_label ns)
  | _ => VStr "NaT"
  end.

(** ** The page *)

Definition IMAGE_DIR : string := "uploaded_images".

(** [st.session_state]. *)
Record session_state : Type := mkState {
  reports : list pydict;
  uploader_key : nat
}.

Definition initial_state : session_state :=
  {| reports := []; uploader_key := 0 |}.

Definition update_key (st : session_state) : session_state :=
  {| reports := reports st; uploader_key := S (uploader_key st) |}.

Definition load_data (st : session_state) : DataFrame :=
  DataFrame_of_records (reports st).

Definition required_columns : list string :=
  ["timestamp"; "address"; "zipcode"; "description"; "concerns"; "type";
   "used"; "symptoms"; "alert"; "photo_path"].

(** What the upload handler shows. *)
Inductive upload_message : Type :=
  | MissingColumns (missing_columns : list string)
  | Merged
  | ProcessingError (e : exn).

(** The body of the [try] block of the upload handler. *)
Definition upload_body (uploaded_file : string) (st : session_state)
  : result (upload_message * session_state) :=
  do uploaded_df <- read_csv uploaded_file;
  let missing_columns :=
    List.filter (fun col => negb (mem col (columns uploaded_df)))
                required_columns in
  match missing_columns with
  | _ :: _ => Ok (MissingColumns missing_columns, st)
  | [] =>
      do ts <- getitem uploaded_df "timestamp";
      do ts <- to_datetime true ts;
      let uploaded_df := setitem uploaded_df "timestamp" ts in
      let st := {| reports := reports st ++ to_dict_records uploaded_df;
                   uploader_key := uploader_key st |} in
      Ok (Merged, update_key st)
  end.

(** The upload handler of the report tab: any exception of the body is
    caught and shown. *)
Definition report_tab_upload (uploaded_file : string) (st : session_state)
  : upload_message * session_state :=
  match upload_body uploaded_file st with
  | Ok r => r
  | Raise e => (ProcessingError e, st)
  end.

(** The fields of the submission form. *)
Record form : Type := mkForm {
  address : string;
  zipcode : string;
  photo : option (string * string);
  description : string;
  concerns : list string;
  source_type : string;
  used : string;
  symptoms : string;
  alert_others : bool
}.

(** [os.path.join(dir, name)]. *)
Definition path_join (dir name : string) : string :=
  match name with
  | String "/" _ => name
  | _ => dir +:+ "/" +:+ name
  end.

(** Lines 94 to 96: the file the photo goes to and its content, [None]
    without a photo; [now_photo] is the reading of the clock there. *)
Definition photo_file (f : form) (now_photo : datetime)
  : option (string * string) :=
  match photo f with
  | Some (name, bytes) =>
      let filename := strftime_compact now_photo +:+ "_" +:+ name in
      Some (path_join IMAGE_DIR filename, bytes)
  | None => None
  end.

(** Lines 100 to 111: the report dict; [now] is the second reading of the
    clock. *)
Definition new_report (f : form) (now : datetime) (photo_path : value)
  : pydict :=
  [("timestamp", VStr (strftime_minute now));
   ("address", VStr (address f));
   ("zipcode", VStr (zipcode f));
   ("description", VStr (description f));
   ("concerns", VStr (join ", " (concerns f)));
   ("type", VStr (source_type f));
   ("used", VStr (used f));
   ("symptoms", VStr (symptoms f));
   ("alert", VBool (alert_others f));
   ("photo_path", photo_path)].

(** What the submit handler leaves once the photo, if any, is written: the
    store with the report appended, and the file written. *)
Definition submission (f : form) (now_photo now : datetime)
    (st : session_state) : session_state * option (string * string) :=
  let written := photo_file f now_photo in
  let photo_path :=
    match written with
    | Some (path, _) => VStr path
    | None => VNone
    end in
  ({| reports := reports st ++ [new_report f now photo_path];
      uploader_key := uploader_key st |},
   written).

(** The submit handler of the report tab.  The photo is written first, and
    outside any [try]: when [open] or [write] raises, the handler ends
    there and nothing is appended. *)
Definition report_tab_submit (f : form) (now_photo now : datetime)
    (st : session_state)
  : result (session_state * option (string * string)) :=
  do _ <- match photo_file f now_photo with
          | Some (photo_path, bytes) => write_file photo_path bytes
          | None => Ok tt
          end;
  Ok (submission f now_photo now st).

Inductive sort_option : Type := NewestFirst | OldestFirst.

Definition ascending_of (o : sort_option) : bool :=
  match o with
  | OldestFirst => true
  | NewestFirst => false
  end.

(** The gallery tab up to [reports = df.to_dict(orient='records')]: [None]
    when there is nothing to show. *)
Definition gallery_tab (selected_zip : string) (o : sort_option)
    (st : session_state) : result (option (list pydict)) :=
  let df := DataFrame_of_records (reports st) in
  if empty df then Ok None
  else
    do zs <- getitem df "zipcode";
    let df := setitem df "zipcode" (map (fun v => VStr (py_str v)) zs) in
    do ts <- getitem df "timestamp";
    do ts <- to_datetime true ts;
    let df := setitem df "timestamp" ts in
    do df <- (if String.eqb selected_zip "All" then Ok df
              else do zs <- getitem df "zipcode";
                   Ok (boolean_index df
                         (map (fun v => py_eq v (VStr selected_zip)) zs)));
    do df <- sort_values argsort df "timestamp" (ascending_of o);
    Ok (Some (to_dict_records df)).

(** The table tab: the frame shown and the text offered for download. *)
Definition table_tab (st : session_state) : DataFrame * string :=
  let df := drop_columns (DataFrame_of_records (reports st)) ["photo_path"] in
  (df, to_csv df).

(** The weekly counts, computed alike by the trends tab and the analysis
    tab: [None] when the store is empty. *)
Definition trend_data (st : session_state) : result (option DataFrame) :=
  let data := load_data st in
  if empty data then Ok None
  else
    do ts <- getitem data "timestamp";
    do ts <- to_datetime false ts;
    let data := setitem data "timestamp" ts in
    do ts <- getitem data "timestamp";
    let data := setitem data "week" (map to_period_W_str ts) in
    do trend <- groupby_size data ["zipcode"; "week"] "report_count";
    Ok (Some trend).

(** [trend_data[trend_data['zipcode'] == selected_zip]]. *)
Definition select_zip (trend : DataFrame) (selected_zip : value)
  : result DataFrame :=
  do zs <- getitem trend "zipcode";
  Ok (boolean_index trend (map (fun v => py_eq v selected_zip) zs)).

(** The trends tab: the counts of the selected zip code, as plotted. *)
Definition trends_tab (selected_zip : value) (st : session_state)
  : result (option DataFrame) :=
  do trend <- trend_data st;
  match trend with
  | None => Ok None
  | Some trend => do selected_data <- select_zip trend selected_zip;
                  Ok (Some selected_data)
  end.

Definition system_prompt (selected_zip : value) : string :=
  str1 newline +:+ "            You are analyzing water quality reports for ZIP code "
  +:+ py_str selected_zip +:+ "." +:+ str1 newline
  +:+ "            Summarize the major issues, repeated trends, and any areas of concern."
  +:+ str1 newline +:+ "            ".

(** What the analysis tab shows. *)
Inductive analysis_view : Type :=
  | NoData
  | Idle
  | Answer (weekly_summary : list pydict) (request : chat_request)
           (content : string)
  | Failed (weekly_summary : list pydict) (request : chat_request) (e : exn).

(** The analysis tab; [analyze] tells whether the button was pressed. *)
Definition ai_analysis_tab (client : client) (selected_zip : value)
    (analyze : bool) (st : session_state) : result analysis_view :=
  do trend <- trend_data st;
  match trend with
  | None => Ok NoData
  | Some trend =>
      if analyze then
        do selected <- select_zip trend selected_zip;
        let weekly_summary := to_dict_records (tail 12 selected) in
        let request :=
          {| model := "gpt-4";
             system_content := system_prompt selected_zip;
             user_content := "Report data: " +:+ repr_records weekly_summary;
             max_tokens := 300;
             temperature := (1, 2) |} in
        match chat_completions_create client request with
        | Ok content => Ok (Answer weekly_summary request content)
        | Raise e => Ok (Failed weekly_summary request e)
        end
      else Ok Idle
  end.

End Page.

(** ** Store predicates *)

(** A dict that has every required field. *)
Definition has_required (d : pydict) : bool :=
  forallb (fun c => mem c (keys d)) required_columns.

(** Order of the gallery when the oldest come first: time stamps by time,
    missing ones after all others. *)
Definition key_le (a b : option Z) : Prop :=
  match a, b with
  | Some m, Some n => m <= n
  | None, Some _ => False
  | _, None => True
  end.

Definition key_ge (a b : option Z) : Prop :=
  match a, b with
  | Some m, Some n => n <= m
  | None, Some _ => False
  | _, None => True
  end.

Definition oldest_first (a b : value) : Prop :=
  key_le (datetime_key a) (datetime_key b).

(** The same with the newest first; missing time stamps still come last. *)
Definition newest_first (a b : value) : Prop :=
  key_ge (datetime_key a) (datetime_key b).

(** ** The object heap

    [st.session_state.reports] is one list object holding references to dict
    objects; a frame is an object of its own.  A dict entry or a frame cell
    holds a scalar, which Python never changes in place, or a reference to
    an object that can change in place (a list, say).  A frame built from
    dicts holds in its cells the very objects the dicts hold: pandas copies
    the references, not the objects. *)
Module Heap.

Definition loc : Type := positive.

Inductive cell : Type :=
  | Scalar (v : value)
  | Ref (l : loc).

Definition celldict : Type := list (string * cell).

Inductive object : Type :=
  | ObjList (items : list cell)
  | ObjDict (d : celldict)
  | ObjFrame (columns : list string) (rows : list celldict).

Fixpoint cell_get (d : celldict) (k : string) : option cell :=
  match d with
  | [] => None
  | (k', c) :: d' => if String.eqb k k' then Some c else cell_get d' k
  end.

Fixpoint cell_set (d : celldict) (k : string) (c : cell) : celldict :=
  match d with
  | [] => [(k, c)]
  | (k', c') :: d' =>
      if String.eqb k k' then (k', c) :: d' else (k', c') :: cell_set d' k c
  end.

(** A dict of scalars on the heap. *)
Definition lift (d : pydict) : celldict :=
  map (fun kv => (fst kv, Scalar (snd kv))) d.

(** The dict a cell refers to. *)
Definition read_dict (h : gmap loc object) (c : cell) : option celldict :=
  match c with
  | Ref l =>
      match h !! l with
      | Some (ObjDict d) => Some d
      | _ => None
      end
  | Scalar _ => None
  end.

(** The dicts reachable from the list object at [reports_ref]. *)
Definition read_items (h : gmap loc object) (reports_ref : loc)
  : option (list celldict) :=
  match h !! reports_ref with
  | Some (ObjList items) => mapM (read_dict h) items
  | _ => None
  end.

Definition scalar_entry (kc : string * cell) : option (string * value) :=
  match snd kc with
  | Scalar v => Some (fst kc, v)
  | Ref _ => None
  end.

(** A dict or a row as a dict of scalars, when it holds nothing else. *)
Definition scalars (d : celldict) : option pydict := mapM scalar_entry d.

(** The store at [reports_ref] read as records of scalars, which is what
    the page puts there. *)
Definition read_reports (h : gmap loc object) (reports_ref : loc)
  : option (list pydict) :=
  match read_items h reports_ref with
  | Some ds => mapM scalars ds
  | None => None
  end.

(** The frame at [l] read as a frame of scalars. *)
Definition read_frame (h : gmap loc object) (l : loc) : option DataFrame :=
  match h !! l with
  | Some (ObjFrame cols rs) =>
      match mapM scalars rs with
      | Some rows => Some {| columns := cols; rows := rows |}
      | None => None
      end
  | _ => None
  end.

Definition alloc (h : gmap loc object) (o : object)
  : gmap loc object * loc :=
  let l := fresh (dom h) in (<[l := o]> h, l).

(** [pd.DataFrame(dicts)]: the labels are the keys in order of first
    appearance, a cell is the object the dict holds under the label, and a
    missing key becomes [nan]. *)
Definition frame_of_dicts (ds : list celldict) : object :=
  let cols :=
    fold_left (fun seen d => fold_left add_key (map fst d) seen) ds [] in
  ObjFrame cols
    (map (fun d => map (fun c => (c, default (Scalar VNaN) (cell_get d c)))
                       cols)
         ds).

(** [load_data()]: a new frame object built from the dicts of the store. *)
Definition load_data (h : gmap loc object) (reports_ref : loc)
  : option (gmap loc object * loc) :=
  match read_items h reports_ref with
  | Some ds => Some (alloc h (frame_of_dicts ds))
  | None => None
  end.

Fixpoint zip_cells (col : string) (rs : list celldict) (vs : list value)
  : list celldict :=
  match rs, vs with
  | r :: rs', v :: vs' => cell_set r col (Scalar v) :: zip_cells col rs' vs'
  | _, _ => rs
  end.

(** What can be done in place through a reference [data] to a frame:
    - [data[col] = series], the series holding scalars;
    - [data.at[i, col] = v];
    - [data.drop(columns=[col], inplace=True)];
    - an in-place method of the object in a cell, such as
      [data.at[i, col].append(x)], after which that object is [o]. *)
Inductive statement : Type :=
  | SetColumn (col : string) (vs : list value)
  | SetCell (i : nat) (col : string) (v : value)
  | DropColumn (col : string)
  | MutateObject (i : nat) (col : string) (o : object).

(** One statement through the reference [l]; [None] when it raises. *)
Definition exec (h : gmap loc object) (l : loc) (s : statement)
  : option (gmap loc object) :=
  match h !! l with
  | Some (ObjFrame cols rs) =>
      match s with
      | SetColumn col vs =>
          Some (<[l := ObjFrame (if mem col cols then cols else cols ++ [col])
                                (zip_cells col rs vs)]> h)
      | SetCell i col v =>
          match rs !! i with
          | Some r =>
              if mem col cols
              then Some (<[l := ObjFrame cols
                                  (<[i := cell_set r col (Scalar v)]> rs)]> h)
              else None
          | None => None
          end
      | DropColumn col =>
          if mem col cols
          then Some (<[l := ObjFrame
                              (List.filter (fun c => negb (String.eqb c col))
                                           cols)
                              (map (List.filter
                                      (fun kc =>
                                         negb (String.eqb (fst kc) col)))
                                   rs)]> h)
          else None
      | MutateObject i col o =>
          match rs !! i with
          | Some r =>
              match cell_get r col with
              | Some (Ref x) =>
                  match h !! x with
                  | Some _ => Some (<[x := o]> h)
                  | None => None
                  end
              | _ => None
              end
          | None => None
          end
      end
  | _ => None
  end.

(** A sequence of statements; one that raises ends it. *)
Fixpoint run (h : gmap loc object) (l : loc) (stmts : list statement)
  : gmap loc object :=
  match stmts with
  | [] => h
  | s :: rest =>
      match exec h l s with
      | Some h' => run h' l rest
      | None => h
      end
  end.

(** The store of the page put on the heap: one dict object per report,
    and the list object referring to them. *)
Fixpoint store_dicts (h : gmap loc object) (records : list pydict)
  : gmap loc object * list cell :=
  match records with
  | [] => (h, [])
  | d :: rest =>
      let '(h1, l) := alloc h (ObjDict (lift d)) in
      let '(h2, items) := store_dicts h1 rest in
      (h2, Ref l :: items)
  end.

Definition store_of (records : list pydict) : gmap loc object * loc :=
  let '(h, items) := store_dicts ∅ records in alloc h (ObjList items).

Section Projections.

Context {lib : Collaborators}.

(** What the trends tab and the analysis tab do in place to the frame
    [load_data()] gave them (lines 169, 170, 195 and 196). *)
Definition trends_statements (data : DataFrame)
  : result (list statement) :=
  do ts <- getitem data "timestamp";
  do ts <- to_datetime false ts;
  Ok [SetColumn "timestamp" ts; SetColumn "week" (map to_period_W_str ts)].

End Projections.

End Heap.

(** ** Reference collaborators

    Simple routines that meet the contract of [Collaborators]; they serve to
    run the page on concrete inputs. *)

Fixpoint nodup_strings (l : list string) : bool :=
  match l with
  | [] => true
  | x :: l' => negb (mem x l') && nodup_strings l'
  end.

Definition digit_value (c : ascii) : option Z :=
  let n := nat_of_ascii c in
  if ((48 <=? n) && (n <=? 57))%nat then Some (Z.of_nat n - 48) else None.

Fixpoint digits_value (acc : Z) (s : string) : option Z :=
  match s with
  | EmptyString => Some acc
  | String c s' =>
      match digit_value c with
      | Some d => digits_value (10 * acc + d) s'
      | None => None
      end
  end.

Definition number (s : string) : option Z :=
  match s with
  | EmptyString => None
  | _ => digits_value 0 s
  end.

(** The text after the first line. *)
Fixpoint after_first_line (s : string) : string :=
  match s with
  | EmptyString => ""
  | String c s' => if Ascii.eqb c newline then s' else after_first_line s'
  end.

(** The records of a delimited text: [cur] is the field being read, [rec]
    the fields of the record read so far, [quoted] tells whether the reader
    is inside a quoted field, where a doubled quote stands for one. *)
Fixpoint tokenize (s : string) (quoted : bool) (cur : string)
    (rec : list string) : list (list string) :=
  match s with
  | EmptyString =>
      match cur, rec with
      | EmptyString, [] => []
      | _, _ => [rec ++ [cur]]
      end
  | String c s' =>
      if quoted then
        if Ascii.eqb c quote_char then
          match s' with
          | String c' s'' =>
              if Ascii.eqb c' quote_char
              then tokenize s'' true (cur +:+ str1 quote_char) rec
              else tokenize s' false cur rec
          | EmptyString => tokenize s' false cur rec
          end
        else tokenize s' true (cur +:+ str1 c) rec
      else if Ascii.eqb c quote_char then tokenize s' true cur rec
      else if Ascii.eqb c "," then tokenize s' false "" (rec ++ [cur])
      else if Ascii.eqb c newline
           then (rec ++ [cur]) :: tokenize s' false "" []
      else tokenize s' false (cur +:+ str1 c) rec
  end.

(** A cell read from text: empty is missing, an integer is a number,
    [True] and [False] are booleans, anything else stays text. *)
Definition plain_cell (s : string) : value :=
  if String.eqb s "" then VNaN
  else if String.eqb s "True" then VBool true
  else if String.eqb s "False" then VBool false
  else match number s with
       | Some n => VInt n
       | None => VStr s
       end.

(** A reader for text with a plain header: fields may be quoted, blank
    lines are skipped, and every record must have one field per label. *)
Definition simple_read_csv (text : string) : result DataFrame :=
  let header := split_commas (first_line text) in
  if contains quote_char (first_line text)
     || contains carriage_return (first_line text)
  then Raise (LibraryError "this header is not supported")
  else if String.eqb (first_line text) ""
  then Raise (LibraryError "No columns to parse from file")
  else if negb (nodup_strings header) || mem "" header
  then Raise (LibraryError "header labels must be distinct and not empty")
  else
    let records :=
      List.filter (fun r => negb (bool_decide (r = [""])))
                  (tokenize (after_first_line text) false "" []) in
    if forallb (fun r => (length r =? length header)%nat) records
    then Ok {| columns := header;
               rows := map (fun r => combine header (map plain_cell r))
                           records |}
    else Raise (LibraryError "Error tokenizing data").

(** Parses [YYYY-MM-DD HH:MM], the format of the page's own time stamps. *)
Definition parse_minute (s : string) : option Z :=
  if (String.length s =? 16)%nat
     && String.eqb (substring 4 1 s) "-" && String.eqb (substring 7 1 s) "-"
     && String.eqb (substring 10 1 s) " " && String.eqb (substring 13 1 s) ":"
  then
    match number (substring 0 4 s), number (substring 5 2 s),
          number (substring 8 2 s), number (substring 11 2 s),
          number (substring 14 2 s) with
    | Some y, Some m, Some d, Some hh, Some mm =>
        if (1 <=? m) && (m <=? 12) && (1 <=? d) && (d <=? 31)
           && (hh <=? 23) && (mm <=? 59)
        then Some (days_from_civil y m d * ns_per_day
                   + (hh * 3600 + mm * 60) * ns_per_second)
        else None
    | _, _, _, _, _ => None
    end
  else None.

Definition simple_parse_datetime (v : value) : option Z :=
  match v with
  | VTimestamp ns => Some ns
  | VStr s => parse_minute s
  | VInt n => Some n
  | _ => None
  end.

(** Insertion of index [i] into a list of indices ordered by key: [i] goes
    in front of the first index it may precede. *)
Fixpoint insert_index (precedes : Z -> Z -> bool) (ks : list Z) (i : nat)
    (l : list nat) : list nat :=
  match l with
  | [] => [i]
  | j :: l' =>
      if precedes (nth i ks 0) (nth j ks 0) then i :: l
      else j :: insert_index precedes ks i l'
  end.

Definition insertion_argsort (precedes : Z -> Z -> bool) (ks : list Z)
  : list nat :=
  fold_right (insert_index precedes ks) [] (seq 0 (length ks)).

(** Ties keep their input order. *)
Definition stable_argsort : list Z -> list nat := insertion_argsort Z.leb.

Definition echo_chat (c : client) (r : chat_request) : result string :=
  Ok (user_content r).


(** ** Vocabulary of the properties *)

Section Vocabulary.

Context {lib : Collaborators}.

(** The time stamp cell of an imported row after the coercion. *)
Definition coerce_timestamp (v : value) : value :=
  if isna v then VNaT
  else match parse_datetime v with
       | Some ns => VTimestamp ns
       | None => VNaT
       end.

(** An input row as the import stores it. *)
Definition imported_row (r : pydict) : pydict :=
  dict_set r "timestamp" (coerce_timestamp (field "timestamp" r)).

(** A stored report as the gallery shows it: one cell per label of the
    frame, the zip code as text, the time stamp coerced. *)
Definition gallery_row (cols : list string) (d : pydict) : pydict :=
  dict_set
    (dict_set (map (fun c => (c, field c d)) cols)
              "zipcode" (VStr (py_str (field "zipcode" d))))
    "timestamp" (coerce_timestamp (field "timestamp" d)).

(** The rows of the gallery before they are sorted. *)
Definition gallery_rows (selected_zip : string) (st : session_state)
  : list pydict :=
  let all := map (gallery_row (union_keys (reports st))) (reports st) in
  if String.eqb selected_zip "All" then all
  else List.filter (fun r => py_eq (field "zipcode" r) (VStr selected_zip))
                   all.

(** The time stamp of a stored report is missing or parses. *)
Definition timestamp_ok (d : pydict) : Prop :=
  isna (field "timestamp" d) = true
  \/ exists ns, parse_datetime (field "timestamp" d) = Some ns.

(** The session states the page can be in: it starts with an empty store,
    and changes it by an upload or by a submission stamped by the clock. *)
Inductive reachable : session_state -> Prop :=
  | reachable_initial : reachable initial_state
  | reachable_upload (uploaded_file : string) (st : session_state) :
      reachable st -> reachable (snd (report_tab_upload uploaded_file st))
  | reachable_submit (f : form) (now_photo now : datetime)
                     (st : session_state) :
      valid_datetime now -> reachable st ->
      reachable (fst (submission f now_photo now st)).

End Vocabulary.


(** The labels of the exported table: the required fields without the
    photo path. *)
Definition exported_columns : list string :=
  ["timestamp"; "address"; "zipcode"; "description"; "concerns"; "type";
   "used"; "symptoms"; "alert"].

(** The exported fields of a report. *)
Definition exported_fields (d : pydict) : pydict :=
  map (fun c => (c, field c d)) exported_columns.

Section ExportVocabulary.

Context {lib : Collaborators}.

(** Exporting the store and importing the text again into an empty store
    gives back the exported fields of every report. *)
Definition round_trips (st : session_state) : Prop :=
  exists st',
    report_tab_upload (snd (table_tab st)) initial_state = (Merged, st')
    /\ map exported_fields (reports st') = map exported_fields (reports st).

End ExportVocabulary.

(** Order and tallies of group labels. *)
Definition key_lt (k l : list value) : Prop := key_compare k l = Lt.

Definition label_sorted (g : list (list value * nat)) : Prop :=
  StronglySorted (fun a b => key_lt (fst a) (fst b)) g.

(** The size recorded for a label, zero when the label is absent. *)
Fixpoint size_in (k : list value) (g : list (list value * nat)) : nat :=
  match g with
  | [] => 0
  | (k', n) :: rest => if bool_decide (k' = k) then n else size_in k rest
  end.

(** Number of times a label occurs. *)
Definition occurrences (k : list value) (ks : list (list value)) : nat :=
  length (List.filter (fun k' => bool_decide (k' = k)) ks).


Section TrendVocabulary.

Context {lib : Collaborators}.

(** The week label under which the trend projection files a report. *)
Definition report_week (d : pydict) : value :=
  to_period_W_str (coerce_timestamp (field "timestamp" d)).

(** The group label of a report. *)
Definition trend_key (d : pydict) : list value :=
  [field "zipcode" d; report_week d].

(** The tallies behind the trend frame. *)
Definition trend_groups (st : session_state) : list (list value * nat) :=
  fold_right tally []
    (List.filter (fun k => negb (existsb isna k))
                 (map trend_key (reports st))).

(** One weekly aggregate as a row of the trend frame. *)
Definition bucket (z : value) (w : string) (n : nat) : pydict :=
  [("zipcode", z); ("week", VStr w); ("report_count", VInt (Z.of_nat n))].

(** Number of stored reports with zip code [z] filed under week [w]. *)
Definition count_reports (z : value) (w : string) (st : session_state)
  : nat :=
  length (List.filter
            (fun d => bool_decide (field "zipcode" d = z
                                   /\ report_week d = VStr w))
            (reports st)).

End TrendVocabulary.

Section AnalysisVocabulary.

Context {lib : Collaborators}.

(** The weekly aggregates of one zip code, in the order of the trend
    frame. *)
Definition zip_buckets (z : value) (st : session_state) : list pydict :=
  List.filter (fun r => py_eq (field "zipcode" r) z)
    (map (group_row ["zipcode"; "week"] "report_count") (trend_groups st)).

(** Row [a] comes under an earlier week label than row [b]. *)
Definition week_before (a b : pydict) : Prop :=
  value_compare (field "week" a) (field "week" b) = Lt.

(** The weekly summary and the request of a view that issued one. *)
Definition request_sent (view : analysis_view)
  : option (list pydict * chat_request) :=
  match view with
  | Answer weekly_summary request _ | Failed weekly_summary request _ =>
      Some (weekly_summary, request)
  | NoData | Idle => None
  end.

(** The report [d], whose time stamp is missing, is counted by the trend
    projection under its zip code and the week label "NaT". *)
Definition counted_under_NaT (st : session_state) (d : pydict) : Prop :=
  exists trend n,
    trend_data st = Ok (Some trend)
    /\ In (bucket (field "zipcode" d) "NaT" n) (rows trend)
    /\ (0 < n)%nat.

(** The (zip code, week) pair of the report [d] appears in the trend
    projection. *)
Definition pair_appears (st : session_state) (d : pydict) : Prop :=
  exists trend w n,
    trend_data st = Ok (Some trend)
    /\ report_week d = VStr w
    /\ In (bucket (field "zipcode" d) w n) (rows trend).

End AnalysisVocabulary.

(** A sort routine that returns tied keys in their input order. *)
Definition keeps_ties (sorter : list Z -> list nat) : Prop :=
  forall ks,
    StronglySorted (fun i j => nth i ks 0 = nth j ks 0 -> (i < j)%nat)
                   (sorter ks).

(** In the order [idx] of positions into [items], positions with the same
    key come in ascending order: ties keep their input order. *)
Definition ties_in_input_order {K} (d : K) (items : list K) (idx : list nat)
  : Prop :=
  StronglySorted (fun i j => nth i items d = nth j items d -> (i < j)%nat)
                 idx.

Section GalleryVocabulary.

Context {lib : Collaborators}.

(** The gallery keeps reports with the same time stamp in the order of the
    store. *)
Definition gallery_is_stable (selected_zip : string) (o : sort_option)
    (st : session_state) : Prop :=
  exists idx,
    gallery_tab selected_zip o st
    = Ok (Some (gather [] (gallery_rows selected_zip st) idx))
    /\ Permutation idx (seq 0 (length (gallery_rows selected_zip st)))
    /\ ties_in_input_order VNaN
         (map (field "timestamp") (gallery_rows selected_zip st)) idx.

End GalleryVocabulary.

(** Calendar dates as (year, month, day), in calendar order. *)
Definition date_ltb (a b : Z * Z * Z) : bool :=
  let '(y1, m1, d1) := a in
  let '(y2, m2, d2) := b in
  (y1 <? y2) || ((y1 =? y2) && ((m1 <? m2) || ((m1 =? m2) && (d1 <? d2)))).

(** The date prints in the fixed width of [format_date]. *)
Definition date_fits (a : Z * Z * Z) : bool :=
  let '(y, m, d) := a in
  (0 <=? y) && (y <? 10000) && (0 <=? m) && (m <? 100) && (0 <=? d)
  && (d <? 100).

(** From the week starting on day [start] with date [date], each of the next
    [n] weeks starts on a later date than the one before. *)
Fixpoint weeks_ascending (start : Z) (date : Z * Z * Z) (n : nat) : bool :=
  match n with
  | O => date_fits date
  | S n' =>
      let next := civil_from_days (start + 7) in
      date_fits date && date_ltb date next
      && weeks_ascending (start + 7) next n'
  end.

(** The instants a [pandas.Timestamp] can hold: 64-bit nanoseconds. *)
Definition in_range (ns : Z) : Prop := - 2 ^ 63 <= ns < 2 ^ 63.

(** The Monday on or before the first day in range, and the number of weeks
    from it to the last one. *)
Definition first_monday : Z := -106753.
Definition weeks_in_range : nat := Z.to_nat 30500.

(** ** Sample inputs *)

Definition sample_form (address zipcode : string) : form :=
  {| address := address; zipcode := zipcode; photo := None;
     description := "Cloudy water"; concerns := ["Discoloration"; "Foam"];
     source_type := "Faucet"; used := "No"; symptoms := "";
     alert_others := false |}.

Definition january (d h : Z) : datetime :=
  {| year := 2024; month := 1; day := d; hour := h; minute := 0;
     second := 0 |}.

Definition submit_sample (address zipcode : string) (d h : Z)
    (st : session_state) : session_state :=
  fst (submission (sample_form address zipcode)
                         (january d h) (january d h) st).

(** Three reports in the week of 1 January 2024 and two in the week after,
    all with zip code 10001. *)
Definition five_reports : session_state :=
  submit_sample "5 Mill Rd" "10001" 10 9
    (submit_sample "4 Mill Rd" "10001" 8 9
       (submit_sample "3 Mill Rd" "10001" 7 9
          (submit_sample "2 Mill Rd" "10001" 3 9
             (submit_sample "1 Mill Rd" "10001" 1 9 initial_state)))).

(** Two reports of the same minute, with different zip codes. *)
Definition two_tied_reports : session_state :=
  submit_sample "2 Dock St" "10002" 3 9
    (submit_sample "1 Dock St" "10001" 3 9 initial_state).

Definition csv_text (ls : list string) : string :=
  String.concat "" (map (fun l => l +:+ str1 newline) ls).

Definition full_header : string :=
  "timestamp,address,zipcode,description,concerns,type,used,symptoms,alert,photo_path".

(** A file without the zip code column. *)
Definition csv_without_zipcode : string :=
  csv_text ["timestamp,address"; "2024-01-03 09:00,1 Mill Rd"].

(** A file with the ten columns and two rows, the second with a time stamp
    that does not parse. *)
Definition csv_with_bad_timestamp : string :=
  csv_text [full_header;
            "2024-01-03 09:00,1 Mill Rd,10001,Cloudy,Foam,Faucet,No,,False,";
            "yesterday,2 Mill Rd,10001,Smelly,Foul smell,Pipe Leak,No,,False,"].

(** A file whose only row has no zip code. *)
Definition csv_without_zip_value : string :=
  csv_text [full_header;
            "2024-01-03 09:00,1 Mill Rd,,Cloudy,Foam,Faucet,No,,False,"].

(** A file whose only row has neither a zip code nor a time stamp that
    parses. *)
Definition csv_without_zip_and_time : string :=
  csv_text [full_header;
            "yesterday,1 Mill Rd,,Cloudy,Foam,Faucet,No,,False,"].

(** ** More of the page *)

(** [series.dropna()]. *)
Definition dropna (vs : list value) : list value :=
  List.filter (fun v => negb (isna v)) vs.

(** [series.unique()]: the distinct cells in order of first appearance. *)
Fixpoint unique (vs : list value) : list value :=
  match vs with
  | [] => []
  | v :: vs' =>
      v :: List.filter (fun x => negb (bool_decide (x = v))) (unique vs')
  end.

(** [sorted(strings)]: ascending by code point. *)
Fixpoint insert_sorted (s : string) (l : list string) : list string :=
  match l with
  | [] => [s]
  | t :: l' => if String.leb s t then s :: l else t :: insert_sorted s l'
  end.

Definition sorted (l : list string) : list string :=
  fold_right insert_sorted [] l.

(** [range(0, n, step)] for a positive [step]. *)
Definition range_step (n step : nat) : list nat :=
  map (fun k => (k * step)%nat) (seq 0 ((n + step - 1) / step)).

(** [l[i:j]] for [0 <= i <= j]. *)
Definition slice {A} (i j : nat) (l : list A) : list A :=
  firstn (j - i) (skipn i l).

(** Grid view: [[reports[i:i + 3] for i in range(0, len(reports), 3)]]. *)
Definition grid_rows (reports : list pydict) : list (list pydict) :=
  map (fun i => slice i (i + 3) reports) (range_step (length reports) 3).

(** The integer in a cell of an [int64] column. *)
Definition int_cell (v : value) : Z :=
  match v with
  | VInt n => n
  | _ => 0
  end.

(** Add [n] to the total under label [k] in label-sorted totals. *)
Fixpoint add_total (k : value) (n : Z) (totals : list (value * Z))
  : list (value * Z) :=
  match totals with
  | [] => [(k, n)]
  | (k', m) :: rest =>
      match value_compare k k' with
      | Lt => (k, n) :: totals
      | Eq => (k', m + n) :: rest
      | Gt => (k', m) :: add_total k n rest
      end
  end.

(** [df.groupby(by)[col].sum()] for an [int64] column [col]: a series of
    totals indexed by the sorted labels, rows with a missing label left
    out. *)
Definition groupby_sum (df : DataFrame) (by_ col : string)
  : result (list (value * Z)) :=
  do ks <- getitem df by_;
  do vs <- getitem df col;
  Ok (fold_right (fun kv => add_total (fst kv) (snd kv)) []
        (List.filter (fun kv => negb (isna (fst kv)))
                     (combine ks (map int_cell vs)))).

(** [series.sort_values(ascending=...)] on a series of integers, with the
    default [kind] and [na_position]. *)
Definition series_sort_values (argsort : list Z -> list nat)
    (s : list (value * Z)) (ascending : bool) : list (value * Z) :=
  gather (VNaN, 0) s (nargsort argsort (map (fun kv => Some (snd kv)) s)
                        ascending).

(** [series.head(n)]. *)
Definition head {A} (n : nat) (s : list A) : list A := firstn n s.

(** The successive submissions of a session. *)
Definition submit_all (submissions : list (form * datetime * datetime))
    (st : session_state) : session_state :=
  fold_left (fun st s =>
               let '(f, now_photo, now) := s in
               fst (submission f now_photo now st))
            submissions st.

Section MorePage.

Context {lib : Collaborators}.

(** The choices of the gallery's zip code filter:
    [["All"] + sorted(df['zipcode'].dropna().unique())], [None] when there
    is nothing to show. *)
Definition gallery_zip_options (st : session_state)
  : result (option (list string)) :=
  let df := DataFrame_of_records (reports st) in
  if empty df then Ok None
  else
    do zs <- getitem df "zipcode";
    let df := setitem df "zipcode" (map (fun v => VStr (py_str v)) zs) in
    do ts <- getitem df "timestamp";
    do ts <- to_datetime true ts;
    let df := setitem df "timestamp" ts in
    do zs <- getitem df "zipcode";
    Ok (Some ("All" :: sorted (map py_str (unique (dropna zs))))).

(** The choices of the zip code selectors of the trends tab and of the
    analysis tab: [trend_data['zipcode'].unique()]. *)
Definition trend_zip_options (st : session_state)
  : result (option (list value)) :=
  do trend <- trend_data st;
  match trend with
  | None => Ok None
  | Some trend => do zs <- getitem trend "zipcode"; Ok (Some (unique zs))
  end.

(** [trend_data.groupby('zipcode')['report_count'].sum()
      .sort_values(ascending=False).head(5)]. *)
Definition top_zips (trend : DataFrame) : result (list (value * Z)) :=
  do totals <- groupby_sum trend "zipcode" "report_count";
  Ok (head 5 (series_sort_values argsort totals false)).

(** The bar chart of the trends tab. *)
Definition trends_top_zips (st : session_state)
  : result (option (list (value * Z))) :=
  do trend <- trend_data st;
  match trend with
  | None => Ok None
  | Some trend => do top <- top_zips trend; Ok (Some top)
  end.

End MorePage.

(** ** Vocabulary of the further properties *)

(** Two readings of the clock in the same minute, in the same second. *)
Definition same_minute (a b : datetime) : Prop :=
  year a = year b /\ month a = month b /\ day a = day b
  /\ hour a = hour b /\ minute a = minute b.

Definition same_second (a b : datetime) : Prop :=
  same_minute a b /\ second a = second b.

(** The report that a submission leaves at the end of the store. *)
Definition submitted_report (f : form) (now_photo now : datetime)
    (st : session_state) : pydict :=
  List.last (reports (fst (submission f now_photo now st))) [].

(** What a stored report shows of the form it was made from. *)
Definition shows_form (f : form) (now : datetime) (r : pydict) : Prop :=
  keys r = required_columns
  /\ field "timestamp" r = VStr (strftime_minute now)
  /\ field "address" r = VStr (address f)
  /\ field "zipcode" r = VStr (zipcode f)
  /\ field "description" r = VStr (description f)
  /\ field "concerns" r = VStr (join ", " (concerns f))
  /\ field "type" r = VStr (source_type f)
  /\ field "used" r = VStr (used f)
  /\ field "symptoms" r = VStr (symptoms f)
  /\ field "alert" r = VBool (alert_others f).

(** Integer zip codes and missing zip codes do not occur together in the
    store.  Where they do, pandas holds the column as floats, whose text
    form is not modelled. *)
Definition zip_codes_print_as_stored (st : session_state) : Prop :=
  (forall d, In d (reports st) -> isna (field "zipcode" d) = false)
  \/ (forall d n, In d (reports st) -> field "zipcode" d <> VInt n).

(** A time stamp cell as the page stores it: the text of a clock reading
    (a submission), or a time stamp or [NaT] (an import). *)
Definition stamped (v : value) : Prop :=
  (exists now, valid_datetime now /\ v = VStr (strftime_minute now))
  \/ (exists ns, v = VTimestamp ns) \/ v = VNaT.

(** Totals in strictly ascending order of their labels. *)
Definition totals_sorted (t : list (value * Z)) : Prop :=
  StronglySorted (fun a b => value_compare (fst a) (fst b) = Lt) t.

(** The total recorded for a label, zero when the label is absent. *)
Fixpoint total_in (z : value) (t : list (value * Z)) : Z :=
  match t with
  | [] => 0
  | (k, n) :: rest => if bool_decide (k = z) then n else total_in z rest
  end.

(** The sum of the numbers paired with a label. *)
Fixpoint sum_for (z : value) (pairs : list (value * Z)) : Z :=
  match pairs with
  | [] => 0
  | (k, n) :: rest =>
      (if bool_decide (k = z) then n else 0) + sum_for z rest
  end.

(** Number of stored reports with zip code [z]. *)
Definition reports_with_zip (z : value) (st : session_state) : nat :=
  length (List.filter (fun d => bool_decide (field "zipcode" d = z))
                      (reports st)).

(** ** More sample inputs *)

(** A form with a photo attached. *)
Definition photo_form (name : string) : form :=
  {| address := "3 Mill Rd"; zipcode := "10001";
     photo := Some (name, "bytes of the photo");
     description := "Cloudy water"; concerns := ["Discoloration"; "Foam"];
     source_type := "Faucet"; used := "No"; symptoms := "";
     alert_others := false |}.

(** A clock reading of 3 January 2024, 9 o'clock and [s] seconds. *)
Definition third_of_january (s : Z) : datetime :=
  {| year := 2024; month := 1; day := 3; hour := 9; minute := 0;
     second := s |}.

(** A file with the ten columns and one more. *)
Definition csv_with_extra_column : string :=
  csv_text [full_header +:+ ",note";
            "2024-01-03 09:00,1 Mill Rd,10001,Cloudy,Foam,Faucet,No,,False,,seen at noon"].

(** ** Rendering the gallery, and a run of the page *)

(** Truth value of a scalar in an [if]. *)
Definition truthy (v : value) : bool :=
  match v with
  | VStr s => negb (String.eqb s "")
  | VInt n => negb (n =? 0)
  | VBool b => b
  | VNone => false
  | VNaN | VTimestamp _ | VNaT => true
  end.

(** [report[k]]. *)
Definition dict_getitem (report : pydict) (k : string) : result value :=
  match dict_get report k with
  | Some v => Ok v
  | None => Raise (KeyError k)
  end.

(** The choice of [st.radio("Choose view:", ...)]. *)
Inductive view_option : Type := GridView | DetailedView.

(** What the gallery shows of one report: the texts put into the markdown
    lines, and the photo when one is drawn.  A line that is not written is
    [None]. *)
Record card : Type := mkCard {
  card_address : string;
  card_timestamp : string;
  card_type : string;
  card_used : string;
  card_concerns : option string;
  card_symptoms : option string;
  card_description : option string;
  card_photo : option value
}.

(** The gallery as rendered: rows of at most three cards, or a list of
    expanders. *)
Inductive gallery_page : Type :=
  | Grid (rows : list (list card))
  | Detailed (cards : list card).

(** pandas holds a column as floats when its cells are [nan], integers or
    [None], and not all of them [None]; in such a column [None] is held as
    [nan] and read back as [nan]. *)
Definition float_column (vs : list value) : bool :=
  forallb (fun v => match v with
                    | VNone | VNaN | VInt _ => true
                    | _ => false
                    end) vs
  && existsb (fun v => match v with
                       | VNaN | VInt _ => true
                       | _ => false
                       end) vs.

(** The photo paths of the records of the gallery as the frame built from
    the store holds them.  [gallery_tab] leaves out how pandas chooses the
    type of a column; for the photo path the choice decides whether the
    photo check below raises. *)
Definition photo_paths_as_held (store records : list pydict)
  : list pydict :=
  if float_column (map (field "photo_path") store)
  then map (fun r => match dict_get r "photo_path" with
                     | Some VNone => dict_set r "photo_path" VNaN
                     | _ => r
                     end) records
  else records.

(** One user interaction: the widget values a run of the script sees. *)
Record interaction : Type := mkInteraction {
  uploaded_file : option string;
  submitted : option (form * datetime * datetime);
  gallery_zip : string;
  gallery_sort : sort_option;
  gallery_view_option : view_option;
  trends_zip : value;
  analysis_zip : value;
  analyze : bool
}.

(** What one run renders. *)
Record page_view : Type := mkView {
  upload_view : option upload_message;
  gallery_view : option gallery_page;
  table_view : DataFrame * string;
  trends_view : option DataFrame;
  top_zips_view : option (list (value * Z));
  ai_view : analysis_view
}.

Section Run.

Context {lib : Collaborators} {os : Platform}.

(** Lines 140 and 141, 154 and 155:
    [if report.get("photo_path") and os.path.exists(report["photo_path"]):
       st.image(report["photo_path"], ...)]. *)
Definition show_photo (report : pydict) : result (option value) :=
  match dict_get report "photo_path" with
  | Some photo_path =>
      if truthy photo_path then
        do found <- path_exists photo_path;
        if found then do _ <- st_image photo_path; Ok (Some photo_path)
        else Ok None
      else Ok None
  | None => Ok None
  end.

(** Lines 138 to 144: one report in the grid view. *)
Definition grid_card (report : pydict) : result card :=
  do address <- dict_getitem report "address";
  do timestamp <- dict_getitem report "timestamp";
  do shown <- show_photo report;
  do source <- dict_getitem report "type";
  do used <- dict_getitem report "used";
  do symptoms <- dict_getitem report "symptoms";
  Ok {| card_address := py_str address;
        card_timestamp := py_str timestamp;
        card_type := py_str source;
        card_used := py_str used;
        card_concerns := None;
        card_symptoms :=
          if truthy symptoms then Some (py_str symptoms) else None;
        card_description := None;
        card_photo := shown |}.

(** Lines 147 to 155: one report in the detailed view. *)
Definition detailed_card (report : pydict) : result card :=
  do address <- dict_getitem report "address";
  do timestamp <- dict_getitem report "timestamp";
  do source <- dict_getitem report "type";
  do used <- dict_getitem report "used";
  do concerns <- dict_getitem report "concerns";
  do symptoms <- dict_getitem report "symptoms";
  do description <- dict_getitem report "description";
  do shown <- show_photo report;
  Ok {| card_address := py_str address;
        card_timestamp := py_str timestamp;
        card_type := py_str source;
        card_used := py_str used;
        card_concerns :=
          if truthy concerns then Some (py_str concerns) else None;
        card_symptoms :=
          if truthy symptoms then Some (py_str symptoms) else None;
        card_description := Some (py_str description);
        card_photo := shown |}.

(** The card of a report in a view. *)
Definition card_of (view : view_option) : pydict -> result card :=
  match view with
  | GridView => grid_card
  | DetailedView => detailed_card
  end.

(** Lines 132 to 155: the cards in the order of [reports]; the first report
    whose card raises ends the run. *)
Definition gallery_render (view : view_option) (records : list pydict)
  : result gallery_page :=
  match view with
  | GridView =>
      do rows <- rmap (rmap grid_card) (grid_rows records); Ok (Grid rows)
  | DetailedView =>
      do cards <- rmap detailed_card records; Ok (Detailed cards)
  end.

(** The gallery tab as a whole: the records of [gallery_tab], their photo
    paths as the frame holds them, rendered. *)
Definition gallery_tab_render (selected_zip : string) (o : sort_option)
    (view : view_option) (st : session_state)
  : result (option gallery_page) :=
  do g <- gallery_tab selected_zip o st;
  match g with
  | Some records =>
      do page <- gallery_render view
                   (photo_paths_as_held (reports st) records);
      Ok (Some page)
  | None => Ok None
  end.

(** What the tabs after the report tab render. *)
Definition render_views (client : client) (up : option upload_message)
    (i : interaction) (st : session_state) : result page_view :=
  do g <- gallery_tab_render (gallery_zip i) (gallery_sort i)
            (gallery_view_option i) st;
  let t := table_tab st in
  do tr <- trends_tab (trends_zip i) st;
  do top <- trends_top_zips st;
  do ai <- ai_analysis_tab client (analysis_zip i) (analyze i) st;
  Ok {| upload_view := up; gallery_view := g; table_view := t;
        trends_view := tr; top_zips_view := top; ai_view := ai |}.

(** One run of the script, top to bottom: the client is built first, then
    the image folder is made, then the tabs follow in order.  An exception
    outside a [try] ends the run; the session state keeps what the run did
    to it before. *)
Definition run_page (environ_key : option string) (i : interaction)
    (st : session_state) : session_state * result page_view :=
  match OpenAI environ_key environ_key with
  | Raise e => (st, Raise e)
  | Ok client =>
      match makedirs IMAGE_DIR with
      | Raise e => (st, Raise e)
      | Ok _ =>
          let '(up, st) :=
            match uploaded_file i with
            | Some file =>
                let '(m, st) := report_tab_upload file st in (Some m, st)
            | None => (None, st)
            end in
          match
            match submitted i with
            | Some (f, now_photo, now) =>
                report_tab_submit f now_photo now st
            | None => Ok (st, None)
            end
          with
          | Raise e => (st, Raise e)
          | Ok (st, _) => (st, render_views client up i st)
          end
      end
  end.

(** The photo of a submission, if any, can be written. *)
Definition accepted (s : form * datetime * datetime) : bool :=
  let '(f, now_photo, _) := s in
  match photo_file f now_photo with
  | Some (photo_path, bytes) =>
      match write_file photo_path bytes with
      | Ok _ => true
      | Raise _ => false
      end
  | None => true
  end.

(** The successive submissions of a session, through the handler: one
    that raises ends its run and leaves the store as it was. *)
Definition submit_each (submissions : list (form * datetime * datetime))
    (st : session_state) : session_state :=
  fold_left (fun st s =>
               let '(f, now_photo, now) := s in
               match report_tab_submit f now_photo now st with
               | Ok (st', _) => st'
               | Raise _ => st
               end)
            submissions st.

(** A run of the page without a credential renders its views. *)
Definition usable_without_credential (i : interaction) (st : session_state)
  : Prop :=
  exists view, snd (run_page None i st) = Ok view.

End Run.

(** ** Sample runs *)

Definition sample_interaction : interaction :=
  {| uploaded_file := None; submitted := None; gallery_zip := "All";
     gallery_sort := NewestFirst; gallery_view_option := GridView;
     trends_zip := VStr "10001"; analysis_zip := VStr "10001";
     analyze := false |}.

(** A run that uploads a file and submits a form. *)
Definition busy_interaction : interaction :=
  {| uploaded_file := Some csv_with_bad_timestamp;
     submitted := Some (sample_form "6 Mill Rd" "10002", january 12 9,
                        january 12 9);
     gallery_zip := "All"; gallery_sort := NewestFirst;
     gallery_view_option := DetailedView;
     trends_zip := VStr "10001"; analysis_zip := VStr "10001";
     analyze := true |}.

(** The store of two reports on the heap, and the reference to its list
    object. *)
Definition sample_heap : gmap Heap.loc Heap.object * Heap.loc :=
  Heap.store_of (reports two_tied_reports).

(** A heap whose report dict holds a list object under "concerns", as the
    page would hold it had it stored the list of concerns itself rather
    than their joined text. *)
Definition heap_with_shared_list : gmap Heap.loc Heap.object :=
  <[1%positive := Heap.ObjList [Heap.Ref 2%positive]]>
    (<[2%positive :=
         Heap.ObjDict [("zipcode", Heap.Scalar (VStr "10001"));
                       ("concerns", Heap.Ref 3%positive)]]>
       (<[3%positive := Heap.ObjList [Heap.Scalar (VStr "Foam")]]> ∅)).

(** ** Vocabulary of the rendering *)

(** The cards of the gallery in the order they are drawn. *)
Definition cards (page : gallery_page) : list card :=
  match page with
  | Grid rows => concat rows
  | Detailed cs => cs
  end.

(** Every stored photo path is [None] or text, as after submissions
    alone. *)
Definition photo_paths_plain (st : session_state) : Prop :=
  Forall (fun d => dict_get d "photo_path" = Some VNone
                   \/ exists p, dict_get d "photo_path" = Some (VStr p))
         (reports st).

(** ** Vocabulary of the snapshot *)

(** The frame [df] shows the records, and nothing else: one row per record
    in their order, the keys of the records as labels, and in each row the
    cell the record has under a label, [nan] where it has none. *)
Definition snapshot_of (records : list pydict) (df : DataFrame) : Prop :=
  (forall c, In c (columns df)
             <-> exists d, In d records /\ In c (keys d))
  /\ Forall2 (fun d r => keys r = columns df
                         /\ forall c, In c (columns df) ->
                                      field c r = field c d)
             records (rows df).

(** ** Sample evaluations *)

Example week_label_2024 :
  week_label (19725 * ns_per_day + 36000 * ns_per_second)
  = "2024-01-01/2024-01-07".
Proof. reflexivity. Qed.

Example week_label_sunday :
  week_label (days_from_civil 2024 1 7 * ns_per_day) = "2024-01-01/2024-01-07"
  /\ week_label (days_from_civil 2024 1 8 * ns_per_day)
     = "2024-01-08/2024-01-14"
  /\ week_label (days_from_civil 1969 12 31 * ns_per_day - 1)
     = "1969-12-29/1970-01-04".
Proof. repeat split; reflexivity. Qed.

Example repr_records_ex :
  repr_records [[("zipcode", VStr "10001"); ("report_count", VInt 3)]]
  = "[{'zipcode': '10001', 'report_count': 3}]".
Proof. reflexivity. Qed.

Example stable_argsort_ex : stable_argsort [5; 3; 5; 3] = [1; 3; 0; 2]%nat.
Proof. reflexivity. Qed.

Example parse_minute_ex :
  parse_minute "2024-01-03 10:00"
  = Some (19725 * ns_per_day + 36000 * ns_per_second).
Proof. reflexivity. Qed.

(** ** A quicksort for the default sort routine

    [sort_values] is called without [kind], so the positions come from the
    default kind of [numpy.argsort], "quicksort".  The routine below is a
    quicksort on an array of positions: median-of-three partitioning, with
    insertion sort on short ranges.  It meets the contract of
    [Collaborators] and, as quicksorts do, it exchanges positions whose
    keys are equal once the input is long enough to be partitioned.  Which
    positions the library of a given build exchanges is not fixed by the
    page. *)

(** Ranges of at most this many positions are sorted by insertion. *)
Definition short_range : nat := 16.

Section Quicksort.

(** The keys; [tosort] below is the array of positions being sorted. *)
Variable v : list Z.

Definition key_at (tosort : list nat) (p : nat) : Z :=
  nth (nth p tosort 0%nat) v 0.

Definition swap (tosort : list nat) (p q : nat) : list nat :=
  <[p := nth q tosort 0%nat]> (<[q := nth p tosort 0%nat]> tosort).

(** [while (v[*pi] < vp) ++pi]. *)
Fixpoint scan_up (fuel : nat) (tosort : list nat) (vp : Z) (pi : nat)
  : nat :=
  match fuel with
  | O => pi
  | S fuel' =>
      if key_at tosort pi <? vp then scan_up fuel' tosort vp (S pi) else pi
  end.

(** [while (vp < v[*pj]) --pj]. *)
Fixpoint scan_down (fuel : nat) (tosort : list nat) (vp : Z) (pj : nat)
  : nat :=
  match fuel with
  | O => pj
  | S fuel' =>
      if vp <? key_at tosort pj then scan_down fuel' tosort vp (pj - 1)
      else pj
  end.

(** The exchange loop: [pi] moves up past smaller keys, [pj] down past
    larger ones, and the two positions are exchanged until they meet. *)
Fixpoint exchange (fuel : nat) (tosort : list nat) (vp : Z) (pi pj : nat)
  : list nat * nat :=
  match fuel with
  | O => (tosort, pi)
  | S fuel' =>
      let pi := scan_up (length tosort) tosort vp (S pi) in
      let pj := scan_down (length tosort) tosort vp (pj - 1) in
      if (pj <=? pi)%nat then (tosort, pi)
      else exchange fuel' (swap tosort pi pj) vp pi pj
  end.

(** One partition of the range from [pl] to [pr]: the median of the first,
    middle and last key becomes the pivot and ends at the position
    returned. *)
Definition partition (tosort : list nat) (pl pr : nat) : list nat * nat :=
  let pm := (pl + (pr - pl) / 2)%nat in
  let tosort :=
    if key_at tosort pm <? key_at tosort pl then swap tosort pm pl
    else tosort in
  let tosort :=
    if key_at tosort pr <? key_at tosort pm then swap tosort pr pm
    else tosort in
  let tosort :=
    if key_at tosort pm <? key_at tosort pl then swap tosort pm pl
    else tosort in
  let vp := key_at tosort pm in
  let tosort := swap tosort pm (pr - 1) in
  let '(tosort, pi) := exchange (length tosort) tosort vp pl (pr - 1) in
  (swap tosort pi (pr - 1), pi).

(** Insertion of the position [vi] into the sorted range below [pj]. *)
Fixpoint sift (fuel : nat) (tosort : list nat) (pl vi pj : nat)
  : list nat :=
  match fuel with
  | O => <[pj := vi]> tosort
  | S fuel' =>
      if (pl <? pj)%nat && (nth vi v 0 <? key_at tosort (pj - 1))
      then sift fuel' (<[pj := nth (pj - 1) tosort 0%nat]> tosort) pl vi
                (pj - 1)
      else <[pj := vi]> tosort
  end.

(** Insertion sort of the range from [pl] to [pr]. *)
Definition insertion_range (tosort : list nat) (pl pr : nat) : list nat :=
  fold_left (fun tosort pi =>
               sift (length tosort) tosort pl (nth pi tosort 0%nat) pi)
            (seq (S pl) (pr - pl)) tosort.

(** The sort of the range from [pl] to [pr].  [depth] bounds the nesting
    of partitions; at the bound the range is sorted by insertion. *)
Fixpoint quicksort_range (depth : nat) (tosort : list nat) (pl pr : nat)
  : list nat :=
  match depth with
  | O => insertion_range tosort pl pr
  | S depth' =>
      if (short_range <? pr - pl + 1)%nat
      then let '(tosort, pi) := partition tosort pl pr in
           let tosort := quicksort_range depth' tosort pl (pi - 1) in
           quicksort_range depth' tosort (pi + 1) pr
      else insertion_range tosort pl pr
  end.

End Quicksort.

(** [idx] lists every position of [ks] once and puts the keys in order. *)
Fixpoint nondecreasing (l : list Z) : bool :=
  match l with
  | a :: (b :: _) as rest => (a <=? b) && nondecreasing rest
  | _ => true
  end.

Definition is_argsort (ks : list Z) (idx : list nat) : bool :=
  (length idx =? length ks)%nat
  && forallb (fun i => existsb (Nat.eqb i) idx) (seq 0 (length ks))
  && nondecreasing (gather 0 ks idx).

(** The quicksort as a sort routine.  Its result is checked, which stands
    in for a proof that the scheme sorts; were the check to fail, the
    insertion sort would answer. *)
Definition quicksort_argsort (ks : list Z) : list nat :=
  let n := length ks in
  let idx := quicksort_range ks (2 * Nat.log2 n) (seq 0 n) 0 (n - 1) in
  if is_argsort ks idx then idx else stable_argsort ks.

(** Reports of the same minute, one per address. *)
Definition tied_reports (addresses : list string) : session_state :=
  fold_left (fun st a => submit_sample a "10001" 3 9 st) addresses
            initial_state.

Definition seventeen_tied_reports : session_state :=
  tied_reports ["1 Quay St"; "2 Quay St"; "3 Quay St"; "4 Quay St";
                "5 Quay St"; "6 Quay St"; "7 Quay St"; "8 Quay St";
                "9 Quay St"; "10 Quay St"; "11 Quay St"; "12 Quay St";
                "13 Quay St"; "14 Quay St"; "15 Quay St"; "16 Quay St";
                "17 Quay St"].

Example quicksort_argsort_sorts :
  quicksort_argsort [5; 3; 9; 1; 7] = [3; 1; 0; 4; 2]%nat.
Proof. reflexivity. Qed.

(** Seventeen equal keys: the partition exchanges positions across the
    middle. *)
Example quicksort_argsort_ties :
  quicksort_argsort (repeat 5 17)
  = [0; 14; 13; 12; 11; 10; 9; 15; 8; 6; 5; 4; 3; 2; 1; 7; 16]%nat.
Proof. reflexivity. Qed.

(** Twenty keys in disorder. *)
Example quicksort_argsort_long :
  gather 0 [20; 3; 17; 8; 1; 19; 5; 12; 2; 16; 9; 14; 4; 11; 7; 18; 6; 13;
            10; 15]
    (quicksort_range
       [20; 3; 17; 8; 1; 19; 5; 12; 2; 16; 9; 14; 4; 11; 7; 18; 6; 13; 10;
        15] 8 (seq 0 20) 0 19)
  = [1; 2; 3; 4; 5; 6; 7; 8; 9; 10; 11; 12; 13; 14; 15; 16; 17; 18; 19; 20].
Proof. reflexivity. Qed.
(** * Properties *)

(** ** Lists, dicts and frames *)

Lemma mem_In k l : mem k l = true <-> In k l.
Proof.
  unfold mem. rewrite existsb_exists. split.
  - intros (x & Hx & Heq). apply String.eqb_eq in Heq. now subst.
  - intros Hin. exists k. split; [assumption | apply String.eqb_refl].
Qed.

Lemma mem_false k l : mem k l = false <-> ~ In k l.
Proof.
  rewrite <- mem_In. destruct (mem k l); split; intros; congruence.
Qed.

Lemma dict_get_set_eq d k v : dict_get (dict_set d k v) k = Some v.
Proof.
  induction d as [|[k' v'] d IH]; simpl.
  - now rewrite String.eqb_refl.
  - destruct (String.eqb k k') eqn:E; simpl; rewrite E; [reflexivity | exact IH].
Qed.

Lemma dict_get_set_ne d k v c :
  c <> k -> dict_get (dict_set d k v) c = dict_get d c.
Proof.
  intros Hne. induction d as [|[k' v'] d IH]; simpl.
  - apply String.eqb_neq in Hne. now rewrite Hne.
  - destruct (String.eqb k k') eqn:E; simpl.
    + apply String.eqb_eq in E. subst k'.
      apply String.eqb_neq in Hne. now rewrite Hne.
    + now rewrite IH.
Qed.

Lemma keys_dict_set d k v : In k (keys d) -> keys (dict_set d k v) = keys d.
Proof.
  induction d as [|[k' v'] d IH]; simpl; [tauto|].
  intros Hin. destruct (String.eqb k k') eqn:E; simpl; [reflexivity|].
  f_equal. apply IH. destruct Hin as [->|Hin]; [|assumption].
  now rewrite String.eqb_refl in E.
Qed.

Lemma dict_get_Some_keys d k v : dict_get d k = Some v -> In k (keys d).
Proof.
  induction d as [|[k' v'] d IH]; simpl; [discriminate|].
  destruct (String.eqb k k') eqn:E.
  - apply String.eqb_eq in E. now left.
  - intros Hd. right. now apply IH.
Qed.

Lemma dict_get_keys d k : In k (keys d) -> exists v, dict_get d k = Some v.
Proof.
  induction d as [|[k' v'] d IH]; simpl; [tauto|].
  destruct (String.eqb k k') eqn:E; [eauto|].
  intros [->|Hin]; [now rewrite String.eqb_refl in E | now apply IH].
Qed.

Lemma zip_set_map col (f : pydict -> value) rs :
  zip_set col rs (map f rs) = map (fun r => dict_set r col (f r)) rs.
Proof. induction rs as [|r rs IH]; simpl; [reflexivity | now rewrite IH]. Qed.

Lemma rmap_Ok {A B} (f : A -> result B) (g : A -> B) l :
  (forall x, In x l -> f x = Ok (g x)) -> rmap f l = Ok (map g l).
Proof.
  induction l as [|x l IH]; simpl; intros Hf; [reflexivity|].
  rewrite (Hf x) by now left. simpl.
  rewrite IH by (intros; apply Hf; now right). reflexivity.
Qed.

Lemma getitem_Ok df col :
  In col (columns df) -> getitem df col = Ok (map (field col) (rows df)).
Proof.
  intros Hin. unfold getitem. apply mem_In in Hin. now rewrite Hin.
Qed.

Lemma string_app_cons c s t : String c s +:+ t = String c (s +:+ t).
Proof. reflexivity. Qed.

Lemma string_app_nil s : "" +:+ s = s.
Proof. reflexivity. Qed.

Lemma string_app_assoc (a b c : string) : (a +:+ b) +:+ c = a +:+ b +:+ c.
Proof.
  induction a as [|x a IH]; [reflexivity|].
  change (String x ((a +:+ b) +:+ c) = String x (a +:+ b +:+ c)).
  now f_equal.
Qed.

Section Ingestion.

Context {lib : Collaborators}.

Lemma to_datetime_cell_coerce v :
  to_datetime_cell true v = Ok (coerce_timestamp v).
Proof.
  unfold to_datetime_cell, coerce_timestamp.
  destruct (isna v); [reflexivity|]. now destruct (parse_datetime v).
Qed.

Lemma to_datetime_coerce vs :
  to_datetime true vs = Ok (map coerce_timestamp vs).
Proof.
  apply rmap_Ok. intros. apply to_datetime_cell_coerce.
Qed.

Lemma missing_columns_spec cols c :
  In c (List.filter (fun col => negb (mem col cols)) required_columns)
  <-> In c required_columns /\ ~ In c cols.
Proof.
  rewrite filter_In, negb_true_iff, mem_false. reflexivity.
Qed.

(** C2.  When the uploaded text is read into a frame that lacks one of the
    ten required columns, the upload handler shows the missing columns (all
    of them, and only them) and leaves the session state as it was: no row
    is appended. *)
Theorem upload_missing_column_rejected :
  forall (uploaded_file : string) (df : DataFrame) (st : session_state),
    read_csv uploaded_file = Ok df ->
    (exists c, In c required_columns /\ ~ In c (columns df)) ->
    exists missing,
      report_tab_upload uploaded_file st = (MissingColumns missing, st)
      /\ missing <> []
      /\ (forall c, In c missing <->
                    In c required_columns /\ ~ In c (columns df)).
Proof.
  intros file df st Hread (c & Hreq & Hnot).
  exists (List.filter (fun col => negb (mem col (columns df)))
                      required_columns).
  assert (Hin : In c (List.filter (fun col => negb (mem col (columns df)))
                                  required_columns))
    by now apply missing_columns_spec.
  split; [|split].
  - unfold report_tab_upload, upload_body. rewrite Hread. cbn [rbind].
    destruct (List.filter _ required_columns) eqn:E; [destruct Hin|].
    reflexivity.
  - intros E. rewrite E in Hin. destruct Hin.
  - intros c'. apply missing_columns_spec.
Qed.

(** C4.  When the uploaded text is read into a frame that has the ten
    required columns, the upload handler appends every row of the frame to
    the store, in row order, with the time stamp cell coerced: a cell that
    does not parse becomes [NaT] and its row is appended all the same, every
    other cell is stored as it was read. *)
Theorem upload_appends_every_row :
  forall (uploaded_file : string) (df : DataFrame) (st : session_state),
    read_csv uploaded_file = Ok df ->
    (forall c, In c required_columns -> In c (columns df)) ->
    let st' := snd (report_tab_upload uploaded_file st) in
    fst (report_tab_upload uploaded_file st) = Merged
    /\ reports st' = reports st ++ map imported_row (rows df)
    /\ length (reports st') = (length (reports st) + length (rows df))%nat
    /\ (forall r, In r (rows df) ->
          (isna (field "timestamp" r) = false ->
           parse_datetime (field "timestamp" r) = None ->
           dict_get (imported_row r) "timestamp" = Some VNaT)
          /\ (forall c, c <> "timestamp" ->
                dict_get (imported_row r) c = dict_get r c)).
Proof.
  intros file df st Hread Hall.
  assert (Hts : In "timestamp" (columns df))
    by (apply Hall; simpl; tauto).
  assert (Hrun : report_tab_upload file st
                 = (Merged, update_key
                      {| reports := reports st ++ map imported_row (rows df);
                         uploader_key := uploader_key st |})).
  { unfold report_tab_upload, upload_body. rewrite Hread. cbn [rbind].
    destruct (List.filter _ required_columns) as [|c l] eqn:E.
    - rewrite (getitem_Ok df "timestamp" Hts). cbn [rbind].
      rewrite to_datetime_coerce. cbn [rbind].
      unfold setitem, to_dict_records. simpl rows.
      rewrite map_map, zip_set_map. reflexivity.
    - assert (Hc : In c (c :: l)) by now left.
      rewrite <- E in Hc. apply missing_columns_spec in Hc.
      destruct Hc as [Hreq Hnot]. elim Hnot. now apply Hall. }
  rewrite Hrun. simpl. split; [reflexivity|]. split; [reflexivity|].
  split; [now rewrite length_app, length_map|].
  intros r Hr. split.
  - intros Hna Hparse. unfold imported_row. rewrite dict_get_set_eq.
    unfold coerce_timestamp. now rewrite Hna, Hparse.
  - intros c Hc. unfold imported_row. now apply dict_get_set_ne.
Qed.

End Ingestion.

(** ** The reference collaborators meet the contract *)

Section InsertionArgsort.

Variable precedes : Z -> Z -> bool.
Hypothesis precedes_le : forall a b, precedes a b = true -> a <= b.
Hypothesis precedes_ge : forall a b, precedes a b = false -> b <= a.

Lemma insert_index_perm ks i l :
  Permutation (insert_index precedes ks i l) (i :: l).
Proof.
  induction l as [|j l IH]; simpl; [reflexivity|].
  destruct (precedes _ _); [reflexivity|].
  rewrite IH. apply perm_swap.
Qed.

Lemma insertion_argsort_perm ks :
  Permutation (insertion_argsort precedes ks) (seq 0 (length ks)).
Proof.
  unfold insertion_argsort. generalize (seq 0 (length ks)) as s.
  induction s as [|i s IH]; simpl; [reflexivity|].
  rewrite insert_index_perm. now constructor.
Qed.

Lemma insert_index_sorted ks i l :
  Sorted (fun a b => nth a ks 0 <= nth b ks 0) l ->
  Sorted (fun a b => nth a ks 0 <= nth b ks 0) (insert_index precedes ks i l).
Proof.
  induction 1 as [|j l Hl IH Hj]; simpl.
  - constructor; constructor.
  - destruct (precedes _ _) eqn:E.
    + constructor; [now constructor|]. constructor. now apply precedes_le.
    + constructor; [assumption|].
      destruct l as [|k l]; simpl.
      * constructor. now apply precedes_ge.
      * destruct (precedes (nth i ks 0) (nth k ks 0)).
        -- constructor. now apply precedes_ge.
        -- inversion Hj; subst. now constructor.
Qed.

Lemma insertion_argsort_sorted ks :
  Sorted Z.le (gather 0 ks (insertion_argsort precedes ks)).
Proof.
  assert (Hs : Sorted (fun a b => nth a ks 0 <= nth b ks 0)
                      (insertion_argsort precedes ks)).
  { unfold insertion_argsort. generalize (seq 0 (length ks)) as s.
    induction s as [|i s IH]; simpl; [constructor|].
    now apply insert_index_sorted. }
  unfold gather. induction Hs as [|j l Hl IH Hj]; simpl; constructor.
  - assumption.
  - destruct Hj; simpl; constructor. assumption.
Qed.

End InsertionArgsort.

Lemma nodup_strings_NoDup l : nodup_strings l = true -> NoDup l.
Proof.
  induction l as [|x l IH]; simpl; [constructor|].
  rewrite andb_true_iff, negb_true_iff, mem_false. intros [Hx Hl].
  apply NoDup_cons. split; [|now apply IH].
  now rewrite list_elem_of_In.
Qed.

Lemma keys_combine (cols : list string) (cells : list value) :
  length cells = length cols -> keys (combine cols cells) = cols.
Proof.
  revert cells. induction cols as [|c cols IH]; intros [|v cells] Hlen;
    simpl in *; try discriminate; [reflexivity|].
  f_equal. apply IH. now injection Hlen.
Qed.

Lemma simple_read_csv_wf text df :
  simple_read_csv text = Ok df -> wf_frame df.
Proof.
  unfold simple_read_csv.
  destruct (_ || _); [discriminate|].
  destruct (String.eqb _ _); [discriminate|].
  destruct (negb (nodup_strings _) || _) eqn:Eh; [discriminate|].
  destruct (forallb _ _) eqn:Er; [|discriminate].
  intros [= <-]. apply orb_false_iff in Eh. destruct Eh as [Eh _].
  apply negb_false_iff in Eh. split; simpl.
  - now apply nodup_strings_NoDup.
  - apply Forall_map. apply List.Forall_forall. intros r Hr. simpl.
    rewrite forallb_forall in Er. specialize (Er r Hr).
    apply Nat.eqb_eq in Er. apply keys_combine. now rewrite length_map.
Qed.

Lemma simple_read_csv_header text df :
  simple_read_csv text = Ok df -> plain_header text ->
  columns df = split_commas (first_line text).
Proof.
  unfold simple_read_csv.
  destruct (_ || _); [discriminate|].
  destruct (String.eqb _ _); [discriminate|].
  destruct (negb (nodup_strings _) || _); [discriminate|].
  destruct (forallb _ _); [|discriminate].
  now intros [= <-].
Qed.


Lemma digit_value_digit n : digit_value (digit n) = Some (n mod 10).
Proof.
  unfold digit_value, digit.
  pose proof (Z.mod_pos_bound n 10 ltac:(lia)) as Hb.
  rewrite nat_ascii_embedding by lia.
  replace ((48 <=? 48 + Z.to_nat (n mod 10))%nat) with true
    by (symmetry; apply Nat.leb_le; lia).
  replace ((48 + Z.to_nat (n mod 10) <=? 57)%nat) with true
    by (symmetry; apply Nat.leb_le; lia).
  simpl. f_equal. lia.
Qed.

Lemma number_pad2 n :
  0 <= n < 100 ->
  number (String (digit (n / 10)) (String (digit n) "")) = Some n.
Proof.
  intros Hn. unfold number. cbn [digits_value].
  rewrite !digit_value_digit.
  f_equal. pose proof (Z.div_mod n 10 ltac:(lia)).
  rewrite (Z.mod_small (n / 10)) by (split; [apply Z.div_pos; lia | apply Z.div_lt_upper_bound; lia]).
  lia.
Qed.

Lemma number_pad4 n :
  0 <= n < 10000 ->
  number (String (digit (n / 10 / 10 / 10)) (String (digit (n / 10 / 10))
            (String (digit (n / 10)) (String (digit n) "")))) = Some n.
Proof.
  intros Hn. unfold number. cbn [digits_value].
  rewrite !digit_value_digit.
  f_equal.
  pose proof (Z.div_mod n 10 ltac:(lia)).
  pose proof (Z.div_mod (n / 10) 10 ltac:(lia)).
  pose proof (Z.div_mod (n / 10 / 10) 10 ltac:(lia)).
  assert (0 <= n / 10 / 10 / 10 < 10).
  { split; [repeat apply Z.div_pos; lia|].
    repeat (apply Z.div_lt_upper_bound; [lia|]). lia. }
  rewrite (Z.mod_small (n / 10 / 10 / 10)) by lia.
  lia.
Qed.

Lemma parse_minute_strftime now :
  valid_datetime now ->
  exists ns, parse_minute (strftime_minute now) = Some ns.
Proof.
  intros (Hy & Hm & Hd & Hh & Hmi & _).
  unfold parse_minute.
  cbv [strftime_minute zero_pad String.append str1].
  cbn -[digit number days_from_civil Z.mul Z.add Z.leb ns_per_day ns_per_second Z.div].
  rewrite number_pad4 by lia. rewrite !number_pad2 by lia.
  replace ((1 <=? month now) && (month now <=? 12) && (1 <=? day now)
           && (day now <=? 31) && (hour now <=? 23) && (minute now <=? 59))
    with true; [eauto|].
  symmetry. repeat (apply andb_true_intro; split); apply Z.leb_le; lia.
Qed.

(** ** The quicksort meets the contract *)

Lemma nondecreasing_Sorted l : nondecreasing l = true -> Sorted Z.le l.
Proof.
  induction l as [|a [|b l] IH]; intros H; [constructor|repeat constructor|].
  cbn [nondecreasing] in H. apply andb_prop in H. destruct H as [Hab Hl].
  constructor; [now apply IH|]. constructor. now apply Z.leb_le.
Qed.

Lemma is_argsort_spec ks idx :
  is_argsort ks idx = true ->
  Permutation idx (seq 0 (length ks)) /\ Sorted Z.le (gather 0 ks idx).
Proof.
  unfold is_argsort. intros H. apply andb_prop in H. destruct H as [H Hs].
  apply andb_prop in H. destruct H as [Hlen Hall].
  apply Nat.eqb_eq in Hlen. split; [|now apply nondecreasing_Sorted].
  symmetry. apply Permutation.NoDup_Permutation_bis.
  - apply List.seq_NoDup.
  - rewrite List.length_seq. lia.
  - intros i Hi. rewrite forallb_forall in Hall. specialize (Hall i Hi).
    apply existsb_exists in Hall. destruct Hall as (j & Hj & E).
    apply Nat.eqb_eq in E. now subst j.
Qed.

Lemma quicksort_argsort_perm ks :
  Permutation (quicksort_argsort ks) (seq 0 (length ks)).
Proof.
  unfold quicksort_argsort.
  destruct (is_argsort ks _) eqn:E; [now apply is_argsort_spec in E|].
  apply (insertion_argsort_perm Z.leb).
Qed.

Lemma quicksort_argsort_sorted ks :
  Sorted Z.le (gather 0 ks (quicksort_argsort ks)).
Proof.
  unfold quicksort_argsort.
  destruct (is_argsort ks _) eqn:E; [now apply is_argsort_spec in E|].
  apply (insertion_argsort_sorted Z.leb).
  - intros a b H. now apply Z.leb_le.
  - intros a b H. apply Z.leb_gt in H. lia.
Qed.

(** ** Sorting *)

Lemma gather_map {A B} (f : A -> B) d l idx :
  map f (gather d l idx) = gather (f d) (map f l) idx.
Proof.
  unfold gather. rewrite map_map. apply map_ext. intros i.
  symmetry. apply map_nth.
Qed.

Lemma gather_seq {A} (d : A) l : gather d l (seq 0 (length l)) = l.
Proof.
  unfold gather. induction l as [|x l IH]; [reflexivity|].
  simpl. f_equal. rewrite <- seq_shift, map_map. exact IH.
Qed.

Lemma gather_perm {A} (d : A) l idx :
  Permutation idx (seq 0 (length l)) -> Permutation (gather d l idx) l.
Proof.
  intros Hp. rewrite <- (gather_seq d l) at 2.
  unfold gather. now apply Permutation_map.
Qed.

Lemma gather_default {A} (d d' : A) l idx :
  Forall (fun i => (i < length l)%nat) idx -> gather d l idx = gather d' l idx.
Proof.
  intros Hall. unfold gather. apply map_ext_in. intros i Hi.
  apply nth_indep. rewrite List.Forall_forall in Hall. now apply Hall.
Qed.

Lemma gather_app {A} (d : A) l i1 i2 :
  gather d l (i1 ++ i2) = gather d l i1 ++ gather d l i2.
Proof. unfold gather. apply map_app. Qed.

Lemma gather_rev {A} (d : A) l idx :
  gather d l (rev idx) = rev (gather d l idx).
Proof. unfold gather. apply map_rev. Qed.

Lemma perm_seq_bound idx n :
  Permutation idx (seq 0 n) -> Forall (fun i => (i < n)%nat) idx.
Proof.
  intros Hp. apply List.Forall_forall. intros i Hi.
  apply (Permutation_in _ Hp) in Hi. apply in_seq in Hi. lia.
Qed.

Lemma select_map_filter {A} (p : A -> bool) l :
  select (map p l) l = List.filter p l.
Proof.
  induction l as [|x l IH]; simpl; [reflexivity|]. now rewrite IH.
Qed.

Lemma select_seq_ge mask s n i :
  In i (select mask (seq s n)) -> (s <= i)%nat.
Proof.
  revert mask s. induction n as [|n IH]; intros mask s.
  - destruct mask; simpl; tauto.
  - destruct mask as [|b mask]; simpl; [tauto|].
    destruct b; simpl; intros Hin.
    + destruct Hin as [->|Hin]; [lia|]. apply IH in Hin. lia.
    + apply IH in Hin. lia.
Qed.

(** The keys found at the set-aside positions. *)
Lemma present_positions items s :
  map (fun i => nth (i - s) items None)
      (select (map negb (map is_None items)) (seq s (length items)))
  = map Some (present items).
Proof.
  revert s. induction items as [|x items IH]; intros s; [reflexivity|].
  assert (Hshift : forall mask,
    map (fun i => nth (i - s) (x :: items) None)
        (select mask (seq (S s) (length items)))
    = map (fun i => nth (i - S s) items None)
          (select mask (seq (S s) (length items)))).
  { intros mask. apply map_ext_in. intros i Hi.
    apply select_seq_ge in Hi. replace (i - s)%nat with (S (i - S s)) by lia.
    reflexivity. }
  destruct x as [v|]; cbn [length seq map is_None negb select present].
  - cbn [map]. rewrite Nat.sub_diag. simpl nth. f_equal.
    rewrite Hshift. apply IH.
  - rewrite Hshift. apply IH.
Qed.

Lemma missing_positions items s :
  Forall (fun i => nth (i - s) items None = None)
         (select (map is_None items) (seq s (length items))).
Proof.
  revert s. induction items as [|x items IH]; intros s; [constructor|].
  assert (Hshift : Forall (fun i => nth (i - s) (x :: items) None = None)
                          (select (map is_None items) (seq (S s) (length items)))).
  { apply List.Forall_forall. intros i Hi.
    specialize (IH (S s)). rewrite List.Forall_forall in IH.
    pose proof (select_seq_ge _ _ _ _ Hi).
    replace (i - s)%nat with (S (i - S s)) by lia. now apply IH. }
  destruct x as [v|]; cbn [length seq map is_None select]; [exact Hshift|].
  constructor; [|exact Hshift]. now rewrite Nat.sub_diag.
Qed.

Lemma split_positions (mask : list bool) s n :
  length mask = n ->
  Permutation (select (map negb mask) (seq s n) ++ select mask (seq s n))
              (seq s n).
Proof.
  revert s mask. induction n as [|n IH]; intros s [|b mask] Hlen;
    try discriminate; [constructor|].
  injection Hlen as Hlen. cbn [seq map select].
  destruct b; cbn [negb].
  - apply Permutation_sym. apply Permutation_cons_app.
    apply Permutation_sym. now apply IH.
  - cbn. constructor. now apply IH.
Qed.

Lemma key_le_sorted l k :
  Sorted Z.le l -> StronglySorted key_le (map Some l ++ repeat None k).
Proof.
  intros Hs. apply Sorted_StronglySorted in Hs; [|intros x y z; apply Z.le_trans].
  induction Hs as [|x l Hs IH Hall]; simpl.
  - induction k as [|k IHk]; simpl; constructor; [assumption|].
    apply List.Forall_forall. intros y Hy. apply repeat_spec in Hy. now subst.
  - constructor; [assumption|]. apply Forall_app. split.
    + apply Forall_map. simpl. exact Hall.
    + apply List.Forall_forall. intros y Hy. apply repeat_spec in Hy. now subst.
Qed.

Lemma StronglySorted_snoc {A} (R : A -> A -> Prop) l x :
  StronglySorted R l -> Forall (fun a => R a x) l ->
  StronglySorted R (l ++ [x]).
Proof.
  induction 1 as [|y l Hl IH Hy]; simpl; intros Hall.
  - constructor; constructor.
  - inversion Hall; subst. constructor; [now apply IH|].
    apply Forall_app. split; [assumption|]. now constructor.
Qed.

Lemma StronglySorted_rev {A} (R : A -> A -> Prop) l :
  StronglySorted R l -> StronglySorted (fun a b => R b a) (rev l).
Proof.
  induction 1 as [|x l Hl IH Hx]; simpl; [constructor|].
  apply StronglySorted_snoc; [assumption|].
  apply List.Forall_forall. intros a Ha. apply in_rev in Ha.
  rewrite List.Forall_forall in Hx. now apply Hx.
Qed.

Lemma key_ge_sorted l k :
  Sorted Z.le l -> StronglySorted key_ge (map Some (rev l) ++ repeat None k).
Proof.
  intros Hs. apply Sorted_StronglySorted in Hs; [|intros x y z; apply Z.le_trans].
  apply StronglySorted_rev in Hs.
  induction Hs as [|x r Hr IH Hall]; simpl.
  - induction k as [|k IHk]; simpl; constructor; [assumption|].
    apply List.Forall_forall. intros y Hy. apply repeat_spec in Hy. now subst.
  - constructor; [assumption|]. apply Forall_app. split.
    + apply Forall_map. simpl. exact Hall.
    + apply List.Forall_forall. intros y Hy. apply repeat_spec in Hy. now subst.
Qed.

Section Nargsort.

Variable sorter : list Z -> list nat.
Hypothesis sorter_perm : forall l, Permutation (sorter l) (seq 0 (length l)).
Hypothesis sorter_sorted : forall l, Sorted Z.le (gather 0 l (sorter l)).

Lemma present_length items :
  length (select (map negb (map is_None items)) (seq 0 (length items)))
  = length (present items).
Proof.
  pose proof (present_positions items 0) as Hp.
  apply (f_equal (@length _)) in Hp. now rewrite !length_map in Hp.
Qed.

(** The keys met along the positions chosen among [idxs], when [idxs] are
    the positions of the keys [vals]. *)
Lemma sorted_positions items idxs vals :
  gather None items idxs = map Some vals ->
  Permutation (gather 0%nat idxs (sorter vals)) idxs
  /\ gather None items (gather 0%nat idxs (sorter vals))
     = map Some (gather 0 vals (sorter vals)).
Proof.
  intros Hkeys.
  assert (Hlen : length idxs = length vals).
  { apply (f_equal (@length _)) in Hkeys. unfold gather in Hkeys.
    now rewrite !length_map in Hkeys. }
  split.
  - apply gather_perm. rewrite Hlen. apply sorter_perm.
  - unfold gather at 1. unfold gather in Hkeys.
    change (map (fun i => nth i items None) (gather 0%nat idxs (sorter vals)))
      with (map (fun i => nth i items None) (gather 0%nat idxs (sorter vals))).
    rewrite (gather_map (fun i => nth i items None)). rewrite Hkeys.
    rewrite (gather_default _ (Some 0)).
    + symmetry. apply gather_map.
    + rewrite length_map. apply perm_seq_bound, sorter_perm.
Qed.

Lemma nargsort_perm items ascending :
  Permutation (nargsort sorter items ascending) (seq 0 (length items)).
Proof.
  unfold nargsort.
  pose proof (present_positions items 0) as Hp.
  assert (Hp' : gather None items
                  (select (map negb (map is_None items)) (seq 0 (length items)))
                = map Some (present items)).
  { rewrite <- Hp. unfold gather. apply map_ext. intros i.
    now rewrite Nat.sub_0_r. }
  etransitivity; [|apply (split_positions (map is_None items));
                   apply length_map].
  apply Permutation_app_tail. destruct ascending.
  - now apply (sorted_positions items).
  - rewrite <- Permutation_rev.
    etransitivity; [apply (sorted_positions items)|].
    + rewrite gather_rev, Hp'. symmetry. apply map_rev.
    + symmetry. apply Permutation_rev.
Qed.

Lemma nargsort_keys items ascending :
  exists sorted k,
    Sorted Z.le sorted
    /\ gather None items (nargsort sorter items ascending)
       = map Some (if ascending then sorted else rev sorted) ++ repeat None k.
Proof.
  unfold nargsort.
  pose proof (present_positions items 0) as Hp.
  assert (Hp' : gather None items
                  (select (map negb (map is_None items)) (seq 0 (length items)))
                = map Some (present items)).
  { rewrite <- Hp. unfold gather. apply map_ext. intros i.
    now rewrite Nat.sub_0_r. }
  assert (Hnone : gather None items
                    (select (map is_None items) (seq 0 (length items)))
                  = repeat None
                      (length (select (map is_None items)
                                      (seq 0 (length items))))).
  { pose proof (missing_positions items 0) as Hm.
    unfold gather. induction Hm as [|i l Hi Hl IH]; simpl; [reflexivity|].
    rewrite Nat.sub_0_r in Hi. now rewrite Hi, IH. }
  destruct ascending.
  - exists (gather 0 (present items) (sorter (present items))),
           (length (select (map is_None items) (seq 0 (length items)))).
    split; [apply sorter_sorted|].
    rewrite gather_app, Hnone. f_equal.
    now apply (sorted_positions items).
  - exists (gather 0 (rev (present items)) (sorter (rev (present items)))),
           (length (select (map is_None items) (seq 0 (length items)))).
    split; [apply sorter_sorted|].
    rewrite gather_app, Hnone. f_equal.
    rewrite gather_rev, map_rev. f_equal.
    apply (sorted_positions items).
    rewrite gather_rev, Hp'. symmetry. apply map_rev.
Qed.

Lemma nargsort_oldest_first items :
  StronglySorted key_le (gather None items (nargsort sorter items true)).
Proof.
  destruct (nargsort_keys items true) as (sorted & k & Hs & ->).
  now apply key_le_sorted.
Qed.

Lemma nargsort_newest_first items :
  StronglySorted key_ge (gather None items (nargsort sorter items false)).
Proof.
  destruct (nargsort_keys items false) as (sorted & k & Hs & ->).
  now apply key_ge_sorted.
Qed.

End Nargsort.

(** ** Frames built from the store *)

Lemma fold_add_key_In ks seen k :
  In k (fold_left add_key ks seen) <-> In k seen \/ In k ks.
Proof.
  revert seen. induction ks as [|k' ks IH]; intros seen; simpl; [tauto|].
  rewrite IH. unfold add_key. destruct (mem k' seen) eqn:E.
  - apply mem_In in E. split; [tauto|].
    intros [?|[->|?]]; tauto.
  - rewrite in_app_iff. simpl. split; intros; intuition (subst; auto).
Qed.

Lemma fold_union_In ds seen k :
  In k (fold_left (fun seen d => fold_left add_key (keys d) seen) ds seen)
  <-> In k seen \/ exists d, In d ds /\ In k (keys d).
Proof.
  revert seen. induction ds as [|d ds IH]; intros seen; simpl.
  - split; [tauto|]. intros [?|(d & [] & _)]. assumption.
  - rewrite IH, fold_add_key_In. split.
    + intros [[?|?]|(d' & ? & ?)]; eauto.
    + intros [?|(d' & [<-|?] & ?)]; eauto.
Qed.

Lemma union_keys_In ds k :
  In k (union_keys ds) <-> exists d, In d ds /\ In k (keys d).
Proof.
  unfold union_keys. rewrite fold_union_In. simpl. tauto.
Qed.

Lemma has_required_In d c :
  has_required d = true -> In c required_columns -> In c (keys d).
Proof.
  unfold has_required. rewrite forallb_forall. intros Hall Hc.
  apply mem_In. now apply Hall.
Qed.

Lemma dict_get_cells (g : string -> value) cols c :
  In c cols -> dict_get (map (fun c' => (c', g c')) cols) c = Some (g c).
Proof.
  induction cols as [|c' cols IH]; simpl; [tauto|].
  destruct (String.eqb c c') eqn:E.
  - apply String.eqb_eq in E. now subst.
  - intros [->|Hin]; [now rewrite String.eqb_refl in E | now apply IH].
Qed.

Lemma keys_cells (g : string -> value) cols :
  keys (map (fun c' => (c', g c')) cols) = cols.
Proof. unfold keys. rewrite map_map. simpl. apply map_id. Qed.

Lemma field_cells d cols c :
  In c cols -> field c (map (fun c' => (c', field c' d)) cols) = field c d.
Proof. intros Hin. unfold field at 1. now rewrite dict_get_cells. Qed.

Lemma field_set_eq d k v : field k (dict_set d k v) = v.
Proof. unfold field. now rewrite dict_get_set_eq. Qed.

Lemma field_set_ne d k v c : c <> k -> field c (dict_set d k v) = field c d.
Proof. intros Hne. unfold field. now rewrite dict_get_set_ne. Qed.

Lemma store_columns rs c :
  Forall (fun d => has_required d = true) rs -> rs <> [] ->
  In c required_columns -> In c (union_keys rs).
Proof.
  intros Hall Hne Hc. destruct rs as [|d rs]; [congruence|].
  apply union_keys_In. exists d. split; [now left|].
  inversion Hall; subst. now apply has_required_In.
Qed.

Lemma empty_store_frame rs :
  Forall (fun d => has_required d = true) rs -> rs <> [] ->
  empty (DataFrame_of_records rs) = false.
Proof.
  intros Hall Hne.
  pose proof (store_columns rs "timestamp" Hall Hne) as Hc.
  unfold empty, DataFrame_of_records. simpl.
  destruct (union_keys rs); [elim Hc; simpl; tauto|].
  destruct rs; [congruence|]. reflexivity.
Qed.

Lemma setitem_present df col (f : pydict -> value) :
  In col (columns df) ->
  setitem df col (map f (rows df))
  = {| columns := columns df;
       rows := map (fun r => dict_set r col (f r)) (rows df) |}.
Proof.
  intros Hin. unfold setitem. apply mem_In in Hin. rewrite Hin.
  now rewrite zip_set_map.
Qed.

Section Gallery.

Context {lib : Collaborators}.

Lemma gallery_tab_empty z o st :
  reports st = [] -> gallery_tab z o st = Ok None.
Proof. intros E. unfold gallery_tab. now rewrite E. Qed.

(** The gallery, step by step: the rows of [gallery_rows], reordered by the
    positions [nargsort] returns for their time stamps. *)
Lemma gallery_tab_rows z o st :
  Forall (fun d => has_required d = true) (reports st) ->
  reports st <> [] ->
  gallery_tab z o st
  = Ok (Some (gather [] (gallery_rows z st)
                (nargsort argsort
                   (map datetime_key
                        (map (field "timestamp") (gallery_rows z st)))
                   (ascending_of o)))).
Proof.
  intros Hall Hne. unfold gallery_tab.
  rewrite (empty_store_frame _ Hall Hne).
  assert (Hz : In "zipcode" (union_keys (reports st)))
    by (apply store_columns; simpl; tauto).
  assert (Ht : In "timestamp" (union_keys (reports st)))
    by (apply store_columns; simpl; tauto).
  rewrite getitem_Ok by exact Hz. cbn [rbind].
  rewrite map_map.
  rewrite (setitem_present _ "zipcode"
             (fun r => VStr (py_str (field "zipcode" r)))) by exact Hz.
  rewrite getitem_Ok by exact Ht. cbn [rbind].
  rewrite to_datetime_coerce. cbn [rbind]. rewrite map_map.
  rewrite (setitem_present _ "timestamp"
             (fun r => coerce_timestamp (field "timestamp" r))) by exact Ht.
  cbn [rows columns DataFrame_of_records]. rewrite !map_map.
  assert (Hrows :
    map (fun d =>
           dict_set
             (dict_set (map (fun c => (c, field c d)) (union_keys (reports st)))
                "zipcode"
                (VStr (py_str (field "zipcode"
                   (map (fun c => (c, field c d)) (union_keys (reports st)))))))
             "timestamp"
             (coerce_timestamp
                (field "timestamp"
                   (dict_set
                      (map (fun c => (c, field c d)) (union_keys (reports st)))
                      "zipcode"
                      (VStr (py_str (field "zipcode"
                         (map (fun c => (c, field c d))
                              (union_keys (reports st))))))))))
        (reports st)
    = map (gallery_row (union_keys (reports st))) (reports st)).
  { apply map_ext. intros d. unfold gallery_row.
    rewrite field_set_ne by discriminate.
    now rewrite !field_cells by assumption. }
  rewrite Hrows. unfold gallery_rows.
  destruct (String.eqb z "All"); cbn [rbind].
  - unfold sort_values. rewrite getitem_Ok by exact Ht.
    cbn [rbind rows columns to_dict_records]. now rewrite map_map.
  - rewrite getitem_Ok by exact Hz. cbn [rbind rows columns].
    unfold sort_values, boolean_index.
    rewrite getitem_Ok by exact Ht.
    cbn [rbind rows columns to_dict_records].
    rewrite (map_map (field "zipcode") (fun v => py_eq v (VStr z))).
    rewrite (select_map_filter
               (fun r => py_eq (field "zipcode" r) (VStr z))).
    now rewrite map_map.
Qed.

End Gallery.

(** ** The stores the page can hold *)

Section Reachable.

Context {lib : Collaborators}.

(** What an upload does to the session state: nothing, unless the reader
    returns a frame with the required columns, whose rows are then
    appended. *)
Lemma report_tab_upload_cases uploaded_file st :
  snd (report_tab_upload uploaded_file st) = st
  \/ exists df,
       read_csv uploaded_file = Ok df
       /\ (forall c, In c required_columns -> In c (columns df))
       /\ report_tab_upload uploaded_file st
          = (Merged,
             update_key
               {| reports := reports st ++ map imported_row (rows df);
                  uploader_key := uploader_key st |}).
Proof.
  unfold report_tab_upload, upload_body.
  destruct (read_csv uploaded_file) as [df|e] eqn:Hread; cbn [rbind];
    [|now left].
  destruct (List.filter _ required_columns) as [|c l] eqn:E; [|now left].
  right. exists df. split; [reflexivity|].
  assert (Hall : forall c, In c required_columns -> In c (columns df)).
  { intros c Hc. destruct (mem c (columns df)) eqn:Hm; [now apply mem_In|].
    assert (Hin : In c (List.filter
                          (fun col => negb (mem col (columns df)))
                          required_columns)).
    { apply filter_In. split; [assumption|]. now rewrite Hm. }
    rewrite E in Hin. destruct Hin. }
  split; [exact Hall|].
  rewrite (getitem_Ok df "timestamp") by (apply Hall; simpl; tauto).
  cbn [rbind]. rewrite to_datetime_coerce. cbn [rbind].
  unfold setitem, to_dict_records. cbn [rows].
  rewrite map_map, zip_set_map. reflexivity.
Qed.

Lemma imported_row_required df r :
  wf_frame df -> (forall c, In c required_columns -> In c (columns df)) ->
  In r (rows df) -> has_required (imported_row r) = true.
Proof.
  intros [_ Hrows] Hall Hr. rewrite List.Forall_forall in Hrows.
  pose proof (Hrows r Hr) as Hk.
  unfold has_required, imported_row. apply forallb_forall. intros c Hc.
  apply mem_In. rewrite keys_dict_set.
  - rewrite Hk. now apply Hall.
  - rewrite Hk. apply Hall. simpl. tauto.
Qed.

Lemma imported_row_timestamp_ok r : timestamp_ok (imported_row r).
Proof.
  unfold timestamp_ok, imported_row. rewrite field_set_eq.
  unfold coerce_timestamp.
  destruct (isna (field "timestamp" r)); [now left|].
  destruct (parse_datetime (field "timestamp" r)) as [ns|]; [|now left].
  right. exists ns. apply parse_datetime_timestamp.
Qed.

(** Every report the page stores has the ten required fields. *)
Lemma reachable_required st :
  reachable st -> Forall (fun d => has_required d = true) (reports st).
Proof.
  induction 1 as [|file st Hst IH|f now_photo now st Hnow Hst IH].
  - constructor.
  - destruct (report_tab_upload_cases file st)
      as [->|(df & Hread & Hall & ->)]; [assumption|].
    cbn [snd update_key reports]. apply Forall_app. split; [assumption|].
    apply Forall_map. apply List.Forall_forall. intros r Hr.
    apply (imported_row_required df); auto. now apply read_csv_wf in Hread.
  - unfold submission. cbn [fst reports].
    apply Forall_app. split; [assumption|]. now repeat constructor.
Qed.

(** Every time stamp the page stores is missing or parses. *)
Lemma reachable_timestamp_ok st :
  reachable st -> Forall timestamp_ok (reports st).
Proof.
  induction 1 as [|file st Hst IH|f now_photo now st Hnow Hst IH].
  - constructor.
  - destruct (report_tab_upload_cases file st)
      as [->|(df & Hread & Hall & ->)]; [assumption|].
    cbn [snd update_key reports]. apply Forall_app. split; [assumption|].
    apply Forall_map. apply List.Forall_forall. intros r Hr.
    apply imported_row_timestamp_ok.
  - unfold submission. cbn [fst reports].
    apply Forall_app. split; [assumption|].
    constructor; [|constructor]. right.
    exact (parse_datetime_own_format now Hnow).
Qed.

(** The store only grows: an upload or a submission keeps the reports that
    were there, in their order. *)
Lemma reports_only_appended st :
  forall uploaded_file f now_photo now,
    (exists more, reports (snd (report_tab_upload uploaded_file st))
                  = reports st ++ more)
    /\ exists report, reports (fst (submission f now_photo now st))
                      = reports st ++ [report].
Proof.
  intros file f now_photo now. split.
  - destruct (report_tab_upload_cases file st)
      as [->|(df & Hread & Hall & ->)].
    + exists []. now rewrite app_nil_r.
    + eexists. reflexivity.
  - eexists. reflexivity.
Qed.

End Reachable.

Lemma StronglySorted_map {A B} (R : B -> B -> Prop) (f : A -> B) l :
  StronglySorted (fun a b => R (f a) (f b)) l -> StronglySorted R (map f l).
Proof.
  induction 1 as [|x l Hl IH Hx]; simpl; constructor; [assumption|].
  now apply Forall_map.
Qed.

Lemma StronglySorted_unmap {A B} (R : B -> B -> Prop) (f : A -> B) l :
  StronglySorted R (map f l) -> StronglySorted (fun a b => R (f a) (f b)) l.
Proof.
  induction l as [|x l IH]; simpl; intros Hs; [constructor|].
  inversion Hs; subst. constructor; [now apply IH|].
  now apply Forall_map.
Qed.

Lemma py_eq_true a b : py_eq a b = true -> a = b.
Proof.
  unfold py_eq. rewrite !andb_true_iff. intros [_ Hd].
  now apply bool_decide_eq_true in Hd.
Qed.

Section GalleryOrder.

Context {lib : Collaborators}.

Lemma gallery_row_zipcode cols d :
  dict_get (gallery_row cols d) "zipcode"
  = Some (VStr (py_str (field "zipcode" d))).
Proof.
  unfold gallery_row. rewrite dict_get_set_ne by discriminate.
  apply dict_get_set_eq.
Qed.

Lemma gallery_row_timestamp cols d :
  dict_get (gallery_row cols d) "timestamp"
  = Some (coerce_timestamp (field "timestamp" d)).
Proof. unfold gallery_row. apply dict_get_set_eq. Qed.

Lemma gallery_rows_In z st r :
  In r (gallery_rows z st) ->
  exists d, In d (reports st) /\ r = gallery_row (union_keys (reports st)) d
            /\ (z <> "All" -> py_str (field "zipcode" d) = z).
Proof.
  unfold gallery_rows. destruct (String.eqb z "All") eqn:E.
  - apply String.eqb_eq in E. intros Hin. apply in_map_iff in Hin.
    destruct Hin as (d & <- & Hd). exists d. tauto.
  - intros Hin. apply filter_In in Hin. destruct Hin as [Hin Heq].
    apply in_map_iff in Hin. destruct Hin as (d & <- & Hd).
    exists d. split; [assumption|]. split; [reflexivity|]. intros _.
    apply py_eq_true in Heq. unfold field at 1 in Heq.
    rewrite gallery_row_zipcode in Heq. simpl in Heq. congruence.
Qed.

Lemma gallery_positions_perm z o st :
  Permutation
    (nargsort argsort
       (map datetime_key (map (field "timestamp") (gallery_rows z st)))
       (ascending_of o))
    (seq 0 (length (gallery_rows z st))).
Proof.
  rewrite <- (length_map (field "timestamp")).
  rewrite <- (length_map datetime_key).
  apply nargsort_perm. apply argsort_perm.
Qed.

Lemma gallery_keys z o st :
  map datetime_key
    (map (field "timestamp")
       (gather [] (gallery_rows z st)
          (nargsort argsort
             (map datetime_key (map (field "timestamp") (gallery_rows z st)))
             (ascending_of o))))
  = gather None
      (map datetime_key (map (field "timestamp") (gallery_rows z st)))
      (nargsort argsort
         (map datetime_key (map (field "timestamp") (gallery_rows z st)))
         (ascending_of o)).
Proof. now rewrite !gather_map. Qed.

(** C5.  On every store the page can hold the gallery returns a result.
    With a zip code other than "All" selected, every
    report it returns is a stored report whose zip code, written as text, is
    the selected one, and shows that text as its zip code.  With "Oldest
    First" the time stamps of the returned reports never decrease, the
    missing ones coming last. *)
Theorem gallery_filters_zip_and_sorts_oldest_first :
  forall (selected_zip : string) (o : sort_option) (st : session_state),
    reachable st ->
    exists out,
      gallery_tab selected_zip o st = Ok out
      /\ forall rs, out = Some rs ->
           (selected_zip <> "All" ->
            forall r, In r rs ->
              dict_get r "zipcode" = Some (VStr selected_zip)
              /\ exists d, In d (reports st)
                           /\ py_str (field "zipcode" d) = selected_zip
                           /\ r = gallery_row (union_keys (reports st)) d)
           /\ (o = OldestFirst ->
               StronglySorted oldest_first (map (field "timestamp") rs)).
Proof.
  intros z o st Hreach.
  pose proof (reachable_required st Hreach) as Hall.
  destruct (reports st) as [|d0 rs0] eqn:Est.
  - exists None. split; [now apply gallery_tab_empty|]. discriminate.
  - assert (Hne : reports st <> []) by (rewrite Est; discriminate).
    rewrite <- Est in Hall. eexists. split; [now apply gallery_tab_rows|].
    intros rs [= <-]. split.
    + intros Hz r Hr.
      apply (Permutation_in r (gather_perm [] _ _ (gallery_positions_perm z o st)))
        in Hr.
      apply gallery_rows_In in Hr. destruct Hr as (d & Hd & -> & Hzip).
      rewrite <- Est. split.
      * rewrite gallery_row_zipcode. now rewrite Hzip.
      * exists d. auto.
    + intros ->. apply (StronglySorted_unmap key_le datetime_key).
      rewrite gallery_keys. simpl ascending_of.
      apply nargsort_oldest_first; [apply argsort_perm | apply argsort_sorted].
Qed.

End GalleryOrder.

(** ** Order of group labels *)

Lemma string_compare_refl s : String.compare s s = Eq.
Proof. now apply String_as_OT.cmp_eq. Qed.

Lemma string_compare_trans s t u :
  String.compare s t = Lt -> String.compare t u = Lt -> String.compare s u = Lt.
Proof.
  intros H1 H2. apply String_as_OT.cmp_lt.
  apply String_as_OT.cmp_lt in H1, H2.
  now apply (String_as_OT.lt_trans _ t).
Qed.

Lemma bool_compare_eq x y : Bool.compare x y = Eq <-> x = y.
Proof. destruct x, y; simpl; split; congruence. Qed.

Lemma value_compare_eq a b : value_compare a b = Eq <-> a = b.
Proof.
  destruct a, b; simpl; try (split; [discriminate | congruence]);
    try (split; reflexivity).
  - rewrite String_as_OT.cmp_eq. split; congruence.
  - rewrite Z.compare_eq_iff. split; congruence.
  - rewrite bool_compare_eq. split; congruence.
  - rewrite Z.compare_eq_iff. split; congruence.
Qed.

Lemma value_compare_antisym a b :
  value_compare b a = CompOpp (value_compare a b).
Proof.
  destruct a, b; simpl; try reflexivity.
  - apply String.compare_antisym.
  - apply Z.compare_antisym.
  - now destruct b, b0.
  - apply Z.compare_antisym.
Qed.

Lemma value_compare_trans a b c :
  value_compare a b = Lt -> value_compare b c = Lt -> value_compare a c = Lt.
Proof.
  destruct a, b, c; simpl; try discriminate; try reflexivity;
    try (intros; assumption).
  - apply string_compare_trans.
  - rewrite !Z.compare_lt_iff. lia.
  - destruct b, b0, b1; simpl; congruence.
  - rewrite !Z.compare_lt_iff. lia.
Qed.

Lemma key_compare_eq k l : key_compare k l = Eq <-> k = l.
Proof.
  revert l. induction k as [|a k IH]; intros [|b l]; simpl;
    try (split; [discriminate | congruence]); [tauto|].
  destruct (value_compare a b) eqn:E.
  - apply value_compare_eq in E. subst b. rewrite IH. split; congruence.
  - split; [discriminate|]. intros [= -> ->].
    rewrite (proj2 (value_compare_eq b b) eq_refl) in E. discriminate.
  - split; [discriminate|]. intros [= -> ->].
    rewrite (proj2 (value_compare_eq b b) eq_refl) in E. discriminate.
Qed.

Lemma key_compare_antisym k l : key_compare l k = CompOpp (key_compare k l).
Proof.
  revert l. induction k as [|a k IH]; intros [|b l]; simpl; try reflexivity.
  rewrite (value_compare_antisym a b).
  destruct (value_compare a b); simpl; auto.
Qed.

Lemma key_compare_trans k l m :
  key_compare k l = Lt -> key_compare l m = Lt -> key_compare k m = Lt.
Proof.
  revert l m. induction k as [|a k IH]; intros [|b l] [|c m]; simpl;
    try discriminate; try reflexivity.
  destruct (value_compare a b) eqn:Eab; try discriminate.
  - apply value_compare_eq in Eab. subst b.
    destruct (value_compare a c); try discriminate; [apply IH | reflexivity].
  - intros _. destruct (value_compare b c) eqn:Ebc; try discriminate.
    + apply value_compare_eq in Ebc. subst c. now rewrite Eab.
    + now rewrite (value_compare_trans a b c Eab Ebc).
Qed.

Lemma key_lt_irrefl k : ~ key_lt k k.
Proof.
  unfold key_lt. rewrite (proj2 (key_compare_eq k k) eq_refl). discriminate.
Qed.

(** ** Tallies *)

Lemma size_in_above k g :
  Forall (fun b => key_lt k (fst b)) g -> size_in k g = 0%nat.
Proof.
  induction 1 as [|[k' n] g Hk Hg IH]; simpl; [reflexivity|].
  case_bool_decide as E; [|exact IH].
  subst k'. now apply key_lt_irrefl in Hk.
Qed.

Lemma tally_Forall (P : list value -> Prop) k g :
  P k -> Forall (fun b => P (fst b)) g ->
  Forall (fun b => P (fst b)) (tally k g).
Proof.
  intros HP. induction 1 as [|[k' n] g Hk Hg IH]; simpl.
  - now repeat constructor.
  - destruct (key_compare k k'); repeat constructor; assumption.
Qed.

Lemma tally_sorted k g : label_sorted g -> label_sorted (tally k g).
Proof.
  unfold label_sorted.
  induction 1 as [|[k' n] g Hg IH Hk]; simpl.
  - constructor; constructor.
  - destruct (key_compare k k') eqn:E.
    + apply key_compare_eq in E. subst k'. now constructor.
    + constructor; [now constructor|]. constructor; [exact E|].
      eapply List.Forall_impl; [|exact Hk]. simpl. intros b Hb.
      now apply (key_compare_trans k k').
    + constructor; [assumption|].
      apply (tally_Forall (key_lt k')); [|exact Hk].
      unfold key_lt. rewrite key_compare_antisym, E. reflexivity.
Qed.

Lemma size_in_tally k k' g :
  label_sorted g ->
  size_in k' (tally k g)
  = ((if bool_decide (k = k') then 1 else 0) + size_in k' g)%nat.
Proof.
  unfold label_sorted.
  induction 1 as [|[k0 n0] g Hg IH Hk]; simpl.
  - now rewrite Nat.add_0_r.
  - destruct (key_compare k k0) eqn:E.
    + apply key_compare_eq in E. subst k0. simpl.
      case_bool_decide; [lia | reflexivity].
    + simpl. case_bool_decide as E1; [|reflexivity].
      subst k'. case_bool_decide as E2.
      * subst k0. now apply key_lt_irrefl in E.
      * rewrite size_in_above; [reflexivity|].
        eapply List.Forall_impl; [|exact Hk]. simpl. intros b Hb.
        now apply (key_compare_trans k k0).
    + simpl. destruct (bool_decide (k0 = k')) eqn:E2; [|exact IH].
      apply bool_decide_eq_true in E2. subst k0.
      rewrite bool_decide_eq_false_2; [reflexivity|]. intros ->.
      rewrite (proj2 (key_compare_eq k' k') eq_refl) in E. discriminate.
Qed.

Lemma tally_positive k g :
  Forall (fun b => (0 < snd b)%nat) g ->
  Forall (fun b => (0 < snd b)%nat) (tally k g).
Proof.
  induction 1 as [|[k' n] g Hn Hg IH]; simpl.
  - constructor; [simpl; lia | constructor].
  - destruct (key_compare k k'); constructor; simpl in *; try lia;
      try assumption.
    constructor; [simpl; lia | assumption].
Qed.

Lemma tallies_sorted ks : label_sorted (fold_right tally [] ks).
Proof.
  induction ks as [|k ks IH]; simpl; [constructor | now apply tally_sorted].
Qed.

Lemma tallies_positive ks :
  Forall (fun b => (0 < snd b)%nat) (fold_right tally [] ks).
Proof.
  induction ks as [|k ks IH]; simpl; [constructor | now apply tally_positive].
Qed.

Lemma tallies_size k ks : size_in k (fold_right tally [] ks) = occurrences k ks.
Proof.
  induction ks as [|k' ks IH]; simpl; [reflexivity|].
  rewrite size_in_tally by apply tallies_sorted. rewrite IH.
  unfold occurrences. simpl. case_bool_decide; reflexivity.
Qed.

Lemma size_in_In k n g :
  label_sorted g -> In (k, n) g -> size_in k g = n.
Proof.
  unfold label_sorted.
  induction 1 as [|[k0 n0] g Hg IH Hk]; simpl; [tauto|].
  intros [[= -> ->]|Hin].
  - now rewrite bool_decide_eq_true_2.
  - case_bool_decide as E; [|now apply IH].
    subst k0. rewrite List.Forall_forall in Hk. specialize (Hk _ Hin).
    now apply key_lt_irrefl in Hk.
Qed.

Lemma In_size_in k g :
  (0 < size_in k g)%nat -> In (k, size_in k g) g.
Proof.
  induction g as [|[k0 n0] g IH]; simpl; [lia|].
  case_bool_decide as E; [subst; now left|]. intros Hpos. right. now apply IH.
Qed.

(** A label is tallied exactly when it occurs, with the number of its
    occurrences. *)
Lemma tallies_In k n ks :
  In (k, n) (fold_right tally [] ks)
  <-> n = occurrences k ks /\ (0 < n)%nat.
Proof.
  split.
  - intros Hin. split.
    + rewrite <- tallies_size. symmetry.
      apply size_in_In; [apply tallies_sorted | assumption].
    + pose proof (tallies_positive ks) as Hp.
      rewrite List.Forall_forall in Hp. apply (Hp _ Hin).
  - intros [-> Hpos]. rewrite <- tallies_size in *. now apply In_size_in.
Qed.

(** ** The trend projection *)

Lemma occurrences_filter (p : list value -> bool) k ks :
  occurrences k (List.filter p ks)
  = if p k then occurrences k ks else 0%nat.
Proof.
  unfold occurrences. induction ks as [|k' ks IH]; simpl.
  - now destruct (p k).
  - destruct (p k') eqn:Ep; simpl.
    + case_bool_decide as E; simpl; rewrite IH.
      * subst k'. now rewrite Ep.
      * reflexivity.
    + rewrite IH. case_bool_decide as E; [|reflexivity].
      subst k'. now rewrite Ep.
Qed.

Lemma occurrences_map {A} (f : A -> list value) k l :
  occurrences k (map f l)
  = length (List.filter (fun x => bool_decide (f x = k)) l).
Proof.
  unfold occurrences. induction l as [|x l IH]; simpl; [reflexivity|].
  case_bool_decide; simpl; now rewrite IH.
Qed.

Section Trend.

Context {lib : Collaborators}.

Lemma to_datetime_cell_ok v :
  isna v = true \/ (exists ns, parse_datetime v = Some ns) ->
  to_datetime_cell false v = Ok (coerce_timestamp v).
Proof.
  unfold to_datetime_cell, coerce_timestamp.
  intros [Hna|(ns & Hp)].
  - now rewrite Hna.
  - rewrite Hp. now destruct (isna v).
Qed.

Lemma report_week_text d : exists w, report_week d = VStr w.
Proof.
  unfold report_week. destruct (coerce_timestamp _); simpl; eauto.
Qed.

(** The trend frame, step by step: one row per tally of [trend_groups]. *)
Lemma trend_data_rows st :
  Forall (fun d => has_required d = true) (reports st) ->
  Forall timestamp_ok (reports st) ->
  reports st <> [] ->
  trend_data st
  = Ok (Some {| columns := ["zipcode"; "week"; "report_count"];
                rows := map (group_row ["zipcode"; "week"] "report_count")
                            (trend_groups st) |}).
Proof.
  intros Hall Hts Hne. unfold trend_data, load_data.
  rewrite (empty_store_frame _ Hall Hne).
  assert (Hz : In "zipcode" (union_keys (reports st)))
    by (apply store_columns; simpl; tauto).
  assert (Ht : In "timestamp" (union_keys (reports st)))
    by (apply store_columns; simpl; tauto).
  rewrite getitem_Ok by exact Ht. cbn [rbind].
  unfold to_datetime.
  rewrite (rmap_Ok _ coerce_timestamp).
  2:{ intros v Hv. apply to_datetime_cell_ok.
      apply in_map_iff in Hv. destruct Hv as (r & <- & Hr).
      cbn [rows DataFrame_of_records] in Hr.
      apply in_map_iff in Hr. destruct Hr as (d & <- & Hd).
      rewrite field_cells by exact Ht.
      rewrite List.Forall_forall in Hts. now apply Hts. }
  cbn [rbind]. rewrite map_map.
  rewrite (setitem_present _ "timestamp"
             (fun r => coerce_timestamp (field "timestamp" r))) by exact Ht.
  rewrite getitem_Ok by exact Ht. cbn [rbind rows columns].
  rewrite map_map.
  unfold setitem at 1. cbn [rows columns].
  rewrite (zip_set_map "week" (fun r => to_period_W_str (field "timestamp" r))).
  unfold groupby_size. cbn [columns rows].
  change (columns (DataFrame_of_records (reports st)))
    with (union_keys (reports st)).
  set (cols := if mem "week" (union_keys (reports st))
               then union_keys (reports st)
               else union_keys (reports st) ++ ["week"]).
  assert (Hzc : mem "zipcode" cols = true).
  { apply mem_In. subst cols. destruct (mem "week" _); [assumption|].
    apply in_or_app. now left. }
  assert (Hwc : mem "week" cols = true).
  { subst cols. destruct (mem "week" _) eqn:E; [assumption|].
    apply mem_In. apply in_or_app. right. now left. }
  cbn [List.filter]. rewrite Hzc, Hwc. cbn [negb rbind app].
  unfold group_sizes, trend_groups.
  replace (map (row_key ["zipcode"; "week"])
             (map (fun r => dict_set r "week"
                              (to_period_W_str (field "timestamp" r)))
                (map (fun r => dict_set r "timestamp"
                                 (coerce_timestamp (field "timestamp" r)))
                   (rows (DataFrame_of_records (reports st))))))
    with (map trend_key (reports st)); [reflexivity|].
  cbn [DataFrame_of_records rows]. rewrite !map_map.
  apply map_ext. intros d. unfold row_key, trend_key, report_week.
  cbn [map].
  repeat (rewrite field_set_eq || rewrite field_set_ne by discriminate).
  now rewrite !field_cells by assumption.
Qed.

Lemma trend_key_bucket k n z w m :
  length k = 2%nat ->
  group_row ["zipcode"; "week"] "report_count" (k, n) = bucket z w m ->
  k = [z; VStr w] /\ n = m.
Proof.
  destruct k as [|a [|b [|c k]]]; try discriminate. intros _.
  unfold group_row, bucket. simpl. intros [= -> -> Hn].
  split; [reflexivity | lia].
Qed.

Lemma trend_groups_length st k n :
  In (k, n) (trend_groups st) -> length k = 2%nat.
Proof.
  intros Hin. apply tallies_In in Hin. destruct Hin as [-> Hpos].
  unfold occurrences in Hpos.
  destruct (List.filter _ _) as [|k' l] eqn:E; [simpl in Hpos; lia|].
  assert (Hk : In k' (k' :: l)) by now left.
  rewrite <- E in Hk. apply filter_In in Hk. destruct Hk as [Hk Heq].
  apply bool_decide_eq_true in Heq. subst k'.
  apply filter_In in Hk. destruct Hk as [Hk _].
  apply in_map_iff in Hk. destruct Hk as (d & <- & _). reflexivity.
Qed.

Lemma trend_groups_count z w st :
  occurrences [z; VStr w]
    (List.filter (fun k => negb (existsb isna k)) (map trend_key (reports st)))
  = if isna z then 0%nat else count_reports z w st.
Proof.
  rewrite occurrences_filter. simpl. rewrite orb_false_r.
  destruct (isna z); [reflexivity|]. simpl.
  rewrite occurrences_map. unfold count_reports. f_equal.
  apply filter_ext. intros d. apply bool_decide_ext.
  unfold trend_key. split; [intros [= -> ->]; tauto | intros [-> ->]; reflexivity].
Qed.

(** What the trend frame holds: a weekly aggregate appears exactly when its
    zip code is not missing and some report falls under it, and its count is
    the number of those reports. *)
Lemma trend_groups_spec z w n st :
  In (bucket z w n)
     (map (group_row ["zipcode"; "week"] "report_count") (trend_groups st))
  <-> isna z = false /\ n = count_reports z w st /\ (0 < n)%nat.
Proof.
  rewrite in_map_iff. split.
  - intros ([k m] & Hrow & Hin).
    pose proof (trend_groups_length _ _ _ Hin) as Hlen.
    apply trend_key_bucket in Hrow; [|exact Hlen].
    destruct Hrow as [-> ->].
    apply tallies_In in Hin. rewrite trend_groups_count in Hin.
    destruct (isna z); [lia|]. tauto.
  - intros (Hz & Hn & Hpos). exists ([z; VStr w], n). split; [reflexivity|].
    apply tallies_In. rewrite trend_groups_count, Hz. tauto.
Qed.

Lemma trend_rows_buckets st r :
  In r (map (group_row ["zipcode"; "week"] "report_count") (trend_groups st)) ->
  exists z w n, r = bucket z w n.
Proof.
  rewrite in_map_iff. intros ([k n] & <- & Hin).
  pose proof Hin as Hk. apply tallies_In in Hk. destruct Hk as [_ Hpos].
  pose proof (trend_groups_length _ _ _ Hin) as Hlen.
  destruct k as [|a [|b [|c k]]]; try discriminate.
  assert (Hb : exists w, b = VStr w).
  { apply tallies_In in Hin. destruct Hin as [-> _].
    unfold occurrences in Hpos.
    destruct (List.filter _ _) as [|k' l] eqn:E; [simpl in Hpos; lia|].
    assert (Hk : In k' (k' :: l)) by now left.
    rewrite <- E in Hk. apply filter_In in Hk. destruct Hk as [Hk Heq].
    apply bool_decide_eq_true in Heq. subst k'.
    apply filter_In in Hk. destruct Hk as [Hk _].
    apply in_map_iff in Hk. destruct Hk as (d & Hd & _).
    unfold trend_key in Hd. injection Hd as _ Hd.
    destruct (report_week_text d) as (w & Hw). exists w. congruence. }
  destruct Hb as (w & ->). now exists a, w, n.
Qed.

End Trend.

Lemma StronglySorted_filter {A} (R : A -> A -> Prop) (p : A -> bool) l :
  StronglySorted R l -> StronglySorted R (List.filter p l).
Proof.
  induction 1 as [|x l Hl IH Hx]; simpl; [constructor|].
  destruct (p x); [|assumption]. constructor; [assumption|].
  apply List.Forall_forall. intros y Hy. apply filter_In in Hy.
  rewrite List.Forall_forall in Hx. now apply Hx.
Qed.

Lemma StronglySorted_impl_in {A} (R R' : A -> A -> Prop) l :
  (forall a b, In a l -> In b l -> R a b -> R' a b) ->
  StronglySorted R l -> StronglySorted R' l.
Proof.
  intros Himp Hs. induction Hs as [|x l Hl IH Hx]; [constructor|].
  constructor.
  - apply IH. intros a b Ha Hb. apply Himp; now right.
  - apply List.Forall_forall. intros y Hy.
    rewrite List.Forall_forall in Hx.
    apply Himp; [now left | now right | now apply Hx].
Qed.

Lemma StronglySorted_skipn {A} (R : A -> A -> Prop) n l :
  StronglySorted R l -> StronglySorted R (skipn n l).
Proof.
  revert l. induction n as [|n IH]; intros l Hs; [assumption|].
  destruct l as [|x l]; [constructor|]. simpl. apply IH.
  now inversion Hs.
Qed.

Lemma StronglySorted_app_inv {A} (R : A -> A -> Prop) l1 l2 :
  StronglySorted R (l1 ++ l2) ->
  forall a b, In a l1 -> In b l2 -> R a b.
Proof.
  induction l1 as [|x l1 IH]; simpl; intros Hs a b Ha Hb; [tauto|].
  inversion Hs as [|? ? Hs' Hx]; subst.
  destruct Ha as [->|Ha]; [|now apply IH].
  rewrite List.Forall_forall in Hx. apply Hx. apply in_or_app. now right.
Qed.

Lemma StronglySorted_irrefl_NoDup {A} (R : A -> A -> Prop) l :
  (forall a, ~ R a a) -> StronglySorted R l -> NoDup l.
Proof.
  intros Hirr. induction 1 as [|x l Hl IH Hx]; [constructor|].
  apply NoDup_cons. split; [|assumption].
  rewrite list_elem_of_In. intros Hin.
  rewrite List.Forall_forall in Hx. apply (Hirr x). now apply Hx.
Qed.

Section TrendOrder.

Context {lib : Collaborators}.

Lemma trend_rows_sorted st :
  StronglySorted
    (fun a b => key_lt (row_key ["zipcode"; "week"] a)
                       (row_key ["zipcode"; "week"] b))
    (map (group_row ["zipcode"; "week"] "report_count") (trend_groups st)).
Proof.
  apply StronglySorted_map.
  apply (StronglySorted_impl_in (fun a b => key_lt (fst a) (fst b)));
    [|apply tallies_sorted].
  intros [k n] [k' n'] Hk Hk' Hlt.
  apply trend_groups_length in Hk, Hk'.
  destruct k as [|a [|b [|c k]]]; try discriminate.
  destruct k' as [|a' [|b' [|c' k']]]; try discriminate.
  exact Hlt.
Qed.

Lemma trend_rows_NoDup st :
  NoDup (map (group_row ["zipcode"; "week"] "report_count") (trend_groups st)).
Proof.
  eapply StronglySorted_irrefl_NoDup; [|apply trend_rows_sorted].
  intros a. apply key_lt_irrefl.
Qed.

Lemma zip_buckets_zip z st r :
  In r (zip_buckets z st) -> field "zipcode" r = z.
Proof.
  unfold zip_buckets. intros Hin. apply filter_In in Hin.
  now apply py_eq_true.
Qed.

(** The aggregates of one zip code come in ascending order of their week
    labels. *)
Lemma zip_buckets_sorted z st : StronglySorted week_before (zip_buckets z st).
Proof.
  apply (StronglySorted_impl_in
           (fun a b => key_lt (row_key ["zipcode"; "week"] a)
                              (row_key ["zipcode"; "week"] b))).
  - intros a b Ha Hb. apply zip_buckets_zip in Ha, Hb.
    unfold key_lt, row_key, week_before. simpl. rewrite Ha, Hb.
    rewrite (proj2 (value_compare_eq z z) eq_refl).
    destruct (value_compare _ _); congruence.
  - apply StronglySorted_filter, trend_rows_sorted.
Qed.

Lemma zip_buckets_spec z w n st :
  In (bucket z w n) (zip_buckets z st)
  <-> isna z = false /\ n = count_reports z w st /\ (0 < n)%nat.
Proof.
  unfold zip_buckets. rewrite filter_In, trend_groups_spec.
  split; [tauto|]. intros Hs. split; [assumption|].
  destruct Hs as [Hz _]. unfold py_eq, field. simpl. rewrite Hz. simpl.
  now apply bool_decide_eq_true_2.
Qed.

Lemma count_reports_witness z w st :
  (0 < count_reports z w st)%nat ->
  exists d, In d (reports st) /\ field "zipcode" d = z
            /\ report_week d = VStr w.
Proof.
  unfold count_reports.
  destruct (List.filter _ _) as [|d l] eqn:E; simpl; [lia|]. intros _.
  assert (Hd : In d (d :: l)) by now left.
  rewrite <- E in Hd. apply filter_In in Hd. destruct Hd as [Hd Hb].
  apply bool_decide_eq_true in Hb. exists d. tauto.
Qed.

End TrendOrder.

(** ** Week labels follow the calendar *)

Lemma week_start_monday ns :
  (week_start ns + 3) mod 7 = 0
  /\ week_start ns <= day_of ns <= week_start ns + 6.
Proof.
  unfold week_start. set (d := day_of ns).
  pose proof (Z.div_mod (d + 3) 7 ltac:(lia)) as Hdm.
  pose proof (Z.mod_pos_bound (d + 3) 7 ltac:(lia)) as Hb.
  split; [|lia].
  replace (d - (d + 3) mod 7 + 3) with ((d + 3) / 7 * 7) by lia.
  apply Z.mod_mul. lia.
Qed.

Lemma string_compare_cons c1 c2 s t :
  String.compare (String c1 s) (String c2 t)
  = match Ascii.compare c1 c2 with
    | Eq => String.compare s t
    | c => c
    end.
Proof. reflexivity. Qed.

Lemma ascii_compare_digit a b :
  Ascii.compare (digit a) (digit b) = (a mod 10 ?= b mod 10).
Proof.
  unfold Ascii.compare, digit.
  pose proof (Z.mod_pos_bound a 10 ltac:(lia)) as Ha.
  pose proof (Z.mod_pos_bound b 10 ltac:(lia)) as Hb.
  assert (Hn : forall k, (k < 256)%nat ->
                 N_of_ascii (ascii_of_nat k) = N.of_nat k).
  { intros k Hk. apply N2Nat.inj. rewrite Nat2N.id.
    change (N.to_nat (N_of_ascii (ascii_of_nat k)))
      with (nat_of_ascii (ascii_of_nat k)).
    now apply nat_ascii_embedding. }
  rewrite !Hn by lia.
  destruct (Z.compare_spec (a mod 10) (b mod 10)) as [E|E|E].
  - apply N.compare_eq_iff. rewrite E. reflexivity.
  - apply N.compare_lt_iff. lia.
  - apply N.compare_gt_iff. lia.
Qed.

(** Numbers printed in the same width compare as the numbers do. *)
Lemma compare_zero_pad w : forall a b s t,
  0 <= a < 10 ^ Z.of_nat w -> 0 <= b < 10 ^ Z.of_nat w ->
  String.compare (zero_pad w a +:+ s) (zero_pad w b +:+ t)
  = match a ?= b with
    | Eq => String.compare s t
    | c => c
    end.
Proof.
  induction w as [|w IH]; intros a b s t Ha Hb.
  - simpl in Ha, Hb. assert (a = 0) by lia. assert (b = 0) by lia. subst.
    reflexivity.
  - cbn [zero_pad]. rewrite !string_app_assoc.
    unfold str1. rewrite !string_app_cons, !string_app_nil.
    rewrite Nat2Z.inj_succ, Z.pow_succ_r in Ha, Hb by lia.
    rewrite IH by (split; [apply Z.div_pos; lia
                          | apply Z.div_lt_upper_bound; lia]).
    rewrite string_compare_cons, ascii_compare_digit.
    pose proof (Z.div_mod a 10 ltac:(lia)) as Hda.
    pose proof (Z.div_mod b 10 ltac:(lia)) as Hdb.
    pose proof (Z.mod_pos_bound a 10 ltac:(lia)) as Hma.
    pose proof (Z.mod_pos_bound b 10 ltac:(lia)) as Hmb.
    destruct (Z.compare_spec (a / 10) (b / 10)) as [E|E|E];
      destruct (Z.compare_spec (a mod 10) (b mod 10)) as [E'|E'|E'];
      destruct (Z.compare_spec a b) as [E''|E''|E'']; try reflexivity; lia.
Qed.

Definition format_ymd (date : Z * Z * Z) : string :=
  let '(y, m, d) := date in
  zero_pad 4 y +:+ "-" +:+ zero_pad 2 m +:+ "-" +:+ zero_pad 2 d.

Lemma date_fits_bounds y m d :
  date_fits (y, m, d) = true ->
  0 <= y < 10 ^ Z.of_nat 4 /\ 0 <= m < 10 ^ Z.of_nat 2
  /\ 0 <= d < 10 ^ Z.of_nat 2.
Proof.
  unfold date_fits. rewrite !andb_true_iff.
  rewrite !Z.leb_le, !Z.ltb_lt. simpl. lia.
Qed.

(** Dates printed by [format_date] compare as the dates do. *)
Lemma compare_format_ymd a b s t :
  date_fits a = true -> date_fits b = true -> date_ltb a b = true ->
  String.compare (format_ymd a +:+ s) (format_ymd b +:+ t) = Lt.
Proof.
  destruct a as [[y1 m1] d1], b as [[y2 m2] d2]. intros Ha Hb Hlt.
  apply date_fits_bounds in Ha, Hb. unfold format_ymd.
  rewrite !string_app_assoc.
  rewrite compare_zero_pad by tauto.
  unfold date_ltb in Hlt.
  destruct (Z.compare_spec y1 y2) as [E|E|E]; [|reflexivity|].
  2:{ exfalso. rewrite orb_true_iff, andb_true_iff in Hlt.
      rewrite Z.ltb_lt, Z.eqb_eq in Hlt. lia. }
  rewrite !string_app_cons, !string_app_nil, string_compare_cons.
  cbn [Ascii.compare]. change (Ascii.compare "-" "-") with Eq. cbv iota.
  rewrite compare_zero_pad by tauto.
  destruct (Z.compare_spec m1 m2) as [E1|E1|E1]; [|reflexivity|].
  2:{ exfalso. rewrite !orb_true_iff, !andb_true_iff in Hlt.
      rewrite !Z.ltb_lt, !Z.eqb_eq in Hlt. lia. }
  rewrite ?string_app_cons, ?string_app_nil, string_compare_cons.
  change (Ascii.compare "-" "-") with Eq. cbv iota.
  rewrite compare_zero_pad by tauto.
  destruct (Z.compare_spec d1 d2) as [E2|E2|E2]; [|reflexivity|];
    exfalso; rewrite !orb_true_iff, !andb_true_iff in Hlt;
    rewrite !Z.ltb_lt, !Z.eqb_eq in Hlt; lia.
Qed.

Lemma date_ltb_trans a b c :
  date_ltb a b = true -> date_ltb b c = true -> date_ltb a c = true.
Proof.
  destruct a as [[y1 m1] d1], b as [[y2 m2] d2], c as [[y3 m3] d3].
  unfold date_ltb. rewrite !orb_true_iff, !andb_true_iff.
  rewrite !Z.ltb_lt, !Z.eqb_eq. lia.
Qed.

Lemma weeks_ascending_spec n : forall start i j,
  weeks_ascending start (civil_from_days start) n = true ->
  (i < j <= n)%nat ->
  date_fits (civil_from_days (start + 7 * Z.of_nat i)) = true
  /\ date_fits (civil_from_days (start + 7 * Z.of_nat j)) = true
  /\ date_ltb (civil_from_days (start + 7 * Z.of_nat i))
              (civil_from_days (start + 7 * Z.of_nat j)) = true.
Proof.
  induction n as [|n IH]; intros start i j Hasc Hij; [lia|].
  cbn [weeks_ascending] in Hasc. cbv zeta in Hasc.
  rewrite !andb_true_iff in Hasc. destruct Hasc as [[Hfit Hlt] Hrest].
  assert (Hfits : forall k, (k <= n)%nat ->
            date_fits (civil_from_days (start + 7 + 7 * Z.of_nat k)) = true).
  { intros k Hk. destruct k as [|k].
    - rewrite Z.add_0_r. destruct n; cbn [weeks_ascending] in Hrest.
      + exact Hrest.
      + cbv zeta in Hrest. rewrite !andb_true_iff in Hrest. tauto.
    - apply (IH (start + 7) 0%nat (S k) Hrest). lia. }
  destruct i as [|i].
  - rewrite Z.mul_0_r, Z.add_0_r. split; [exact Hfit|].
    destruct j as [|j]; [lia|].
    replace (start + 7 * Z.of_nat (S j)) with (start + 7 + 7 * Z.of_nat j)
      by lia.
    split; [apply Hfits; lia|].
    destruct j as [|j].
    + now rewrite Z.mul_0_r, Z.add_0_r.
    + apply (date_ltb_trans _ (civil_from_days (start + 7))); [exact Hlt|].
      replace (start + 7) with (start + 7 + 7 * Z.of_nat 0) at 1 by lia.
      apply (IH (start + 7) 0%nat (S j) Hrest). lia.
  - destruct j as [|j]; [lia|].
    replace (start + 7 * Z.of_nat (S i)) with (start + 7 + 7 * Z.of_nat i)
      by lia.
    replace (start + 7 * Z.of_nat (S j)) with (start + 7 + 7 * Z.of_nat j)
      by lia.
    apply (IH (start + 7) i j Hrest). lia.
Qed.

Lemma all_weeks_ascending :
  weeks_ascending first_monday (civil_from_days first_monday) weeks_in_range
  = true.
Proof. vm_compute. reflexivity. Qed.

Lemma week_start_in_range ns :
  in_range ns ->
  exists k, (k <= weeks_in_range)%nat
            /\ week_start ns = first_monday + 7 * Z.of_nat k.
Proof.
  unfold in_range. intros Hns.
  destruct (week_start_monday ns) as [Hmon Hday].
  assert (Hd : -106752 <= day_of ns <= 106751).
  { unfold day_of, ns_per_day, ns_per_second. split.
    - apply Z.div_le_lower_bound; lia.
    - apply Z.lt_succ_r. apply Z.div_lt_upper_bound; lia. }
  apply Z.mod_divide in Hmon; [|lia]. destruct Hmon as (q & Hq).
  exists (Z.to_nat (q + 15250)). unfold weeks_in_range, first_monday.
  split; [apply Z2Nat.inj_le; lia|]. rewrite Z2Nat.id by lia. lia.
Qed.

Lemma week_label_format ns :
  week_label ns
  = format_ymd (civil_from_days (week_start ns))
    +:+ "/" +:+ format_date (week_start ns + 6).
Proof.
  unfold week_label, format_date, format_ymd.
  destruct (civil_from_days (week_start ns)) as [[y m] d].
  now rewrite !string_app_assoc.
Qed.

(** An earlier week has a smaller label: the text order used by the trend
    frame is the order of the calendar. *)
Lemma week_label_ascending ns1 ns2 :
  in_range ns1 -> in_range ns2 ->
  week_start ns1 < week_start ns2 ->
  String.compare (week_label ns1) (week_label ns2) = Lt.
Proof.
  intros H1 H2 Hlt.
  destruct (week_start_in_range ns1 H1) as (i & Hi & Ei).
  destruct (week_start_in_range ns2 H2) as (j & Hj & Ej).
  rewrite !week_label_format, Ei, Ej.
  destruct (weeks_ascending_spec _ _ i j all_weeks_ascending)
    as (Hfi & Hfj & Hij); [lia|].
  now apply compare_format_ymd.
Qed.

Lemma week_label_chronological ns1 ns2 :
  in_range ns1 -> in_range ns2 ->
  (String.compare (week_label ns1) (week_label ns2) = Lt
   <-> week_start ns1 < week_start ns2).
Proof.
  intros H1 H2. split; [|now apply week_label_ascending].
  intros Hcmp.
  destruct (Z.lt_trichotomy (week_start ns1) (week_start ns2))
    as [Hlt|[Heq|Hgt]]; [assumption| |].
  - unfold week_label in Hcmp. rewrite Heq in Hcmp.
    rewrite string_compare_refl in Hcmp. discriminate.
  - pose proof (week_label_ascending ns2 ns1 H2 H1 Hgt) as Hrev.
    rewrite String.compare_antisym, Hrev in Hcmp. discriminate.
Qed.

(** The label of the missing week comes after every dated label. *)
Lemma week_label_before_NaT ns :
  String.compare (week_label ns) "NaT" = Lt.
Proof.
  rewrite week_label_format. unfold format_ymd.
  destruct (civil_from_days (week_start ns)) as [[y m] d].
  cbn [zero_pad]. rewrite !string_app_assoc.
  unfold str1. rewrite !string_app_nil, !string_app_cons.
  rewrite string_compare_cons.
  unfold Ascii.compare, digit.
  pose proof (Z.mod_pos_bound (y / 10 / 10 / 10) 10 ltac:(lia)) as Hb.
  assert (Hn : N_of_ascii (ascii_of_nat
                 (48 + Z.to_nat ((y / 10 / 10 / 10) mod 10)))
               = N.of_nat (48 + Z.to_nat ((y / 10 / 10 / 10) mod 10))).
  { apply N2Nat.inj. rewrite Nat2N.id.
    change (N.to_nat (N_of_ascii ?a)) with (nat_of_ascii a).
    apply nat_ascii_embedding. lia. }
  rewrite Hn.
  replace (N.of_nat (48 + Z.to_nat ((y / 10 / 10 / 10) mod 10))
           ?= N_of_ascii "N")%N with Lt; [reflexivity|].
  symmetry. apply N.compare_lt_iff. simpl N_of_ascii. lia.
Qed.

Section TrendClaims.

Context {lib : Collaborators}.

Lemma parsed_report_week d ns :
  isna (field "timestamp" d) = false ->
  parse_datetime (field "timestamp" d) = Some ns ->
  report_week d = VStr (week_label ns).
Proof.
  intros Hna Hp. unfold report_week, coerce_timestamp.
  now rewrite Hna, Hp.
Qed.

Lemma null_report_week d :
  isna (field "timestamp" d) = true -> report_week d = VStr "NaT".
Proof.
  intros Hna. unfold report_week, coerce_timestamp. now rewrite Hna.
Qed.

(** C3, as amended.  On a store the page can hold, whose reports have time
    stamps that parse, the trend projection files each report under the
    Monday-to-Sunday week of its time stamp and returns one row per
    (zip code, week) pair that some report with a zip code shows, holding
    the number of those reports; no other row appears, and reports whose zip
    code is missing are left out.  In particular, when all reports have zip
    code "10001", three of them fall in week [W1] and two in week [W2], the
    rows are exactly ("10001", W1, 3) and ("10001", W2, 2). *)
Theorem trend_counts_observed_pairs :
  forall st : session_state,
    reachable st ->
    (forall d, In d (reports st) ->
       isna (field "timestamp" d) = false
       /\ exists ns, parse_datetime (field "timestamp" d) = Some ns) ->
    exists out,
      trend_data st = Ok out
      /\ (reports st = [] -> out = None)
      /\ forall trend, out = Some trend ->
           columns trend = ["zipcode"; "week"; "report_count"]
           /\ (forall d ns, In d (reports st) ->
                 parse_datetime (field "timestamp" d) = Some ns ->
                 report_week d = VStr (week_label ns)
                 /\ (week_start ns + 3) mod 7 = 0
                 /\ week_start ns <= day_of ns <= week_start ns + 6)
           /\ (forall r, In r (rows trend) -> exists z w n, r = bucket z w n)
           /\ (forall z w n,
                 In (bucket z w n) (rows trend)
                 <-> isna z = false /\ n = count_reports z w st
                     /\ (0 < n)%nat)
           /\ (forall W1 W2,
                 W1 <> W2 ->
                 (forall d, In d (reports st) ->
                    field "zipcode" d = VStr "10001"
                    /\ (report_week d = VStr W1 \/ report_week d = VStr W2)) ->
                 count_reports (VStr "10001") W1 st = 3%nat ->
                 count_reports (VStr "10001") W2 st = 2%nat ->
                 Permutation (rows trend)
                   [bucket (VStr "10001") W1 3; bucket (VStr "10001") W2 2]).
Proof.
  intros st Hreach Hts.
  pose proof (reachable_required st Hreach) as Hall.
  destruct (reports st) as [|d0 rs0] eqn:Est.
  - exists None. split; [|split; [reflexivity | discriminate]].
    unfold trend_data, load_data. now rewrite Est.
  - rewrite <- Est in *.
    assert (Hne : reports st <> []) by (rewrite Est; discriminate).
    assert (Hok : Forall timestamp_ok (reports st)).
    { apply List.Forall_forall. intros d Hd. right. now apply Hts. }
    eexists. split; [now apply trend_data_rows|].
    split; [congruence|]. intros trend [= <-]. cbn [columns rows].
    split; [reflexivity|]. split; [|split; [|split]].
    + intros d ns Hd Hp. split; [|apply week_start_monday].
      apply parsed_report_week; [|assumption]. now apply Hts.
    + apply trend_rows_buckets.
    + intros z w n. apply trend_groups_spec.
    + intros W1 W2 Hne12 Hweeks H3 H2.
      apply NoDup_Permutation.
      * apply trend_rows_NoDup.
      * apply NoDup_cons. split; [|apply NoDup_singleton].
        rewrite list_elem_of_In. simpl. intros [[=]|[]].
      * intros r. rewrite !list_elem_of_In. split.
        -- intros Hr. destruct (trend_rows_buckets _ _ Hr) as (z & w & n & ->).
           apply trend_groups_spec in Hr. destruct Hr as (Hz & Hn & Hpos).
           rewrite Hn in Hpos.
           destruct (count_reports_witness _ _ _ Hpos) as (d & Hd & Hdz & Hdw).
           destruct (Hweeks d Hd) as [Hzip Hw]. rewrite Hzip in Hdz. subst z.
           rewrite Hdw in Hw.
           destruct Hw as [[= ->]|[= ->]]; subst n;
             [rewrite H3 | rewrite H2]; simpl; tauto.
        -- intros [<-|[<-|[]]]; apply trend_groups_spec;
             (split; [reflexivity|]); rewrite ?H3, ?H2; split;
             solve [reflexivity | lia].
Qed.

(** C10, as amended.  On a store the page can hold, a report whose time
    stamp is missing and whose zip code is not is kept by the trend
    projection: its
    week label is the text "NaT", and the row (zip code, "NaT", n) appears
    with [n] the number of reports filed under that pair.  The rows of the
    real weeks of that zip code stand alongside, each with its own count. *)
Theorem null_timestamp_bucketed_under_NaT :
  forall (st : session_state) (d : pydict),
    reachable st ->
    In d (reports st) ->
    isna (field "timestamp" d) = true ->
    isna (field "zipcode" d) = false ->
    report_week d = VStr "NaT"
    /\ counted_under_NaT st d
    /\ exists trend,
         trend_data st = Ok (Some trend)
         /\ In (bucket (field "zipcode" d) "NaT"
                  (count_reports (field "zipcode" d) "NaT" st))
               (rows trend)
         /\ forall w n,
              In (bucket (field "zipcode" d) w n) (rows trend)
              <-> n = count_reports (field "zipcode" d) w st /\ (0 < n)%nat.
Proof.
  intros st d Hreach Hd Hna Hz.
  pose proof (reachable_required st Hreach) as Hall.
  pose proof (reachable_timestamp_ok st Hreach) as Hok.
  assert (Hne : reports st <> []) by (intros E; rewrite E in Hd; destruct Hd).
  pose proof (null_report_week d Hna) as Hw.
  assert (Hpos : (0 < count_reports (field "zipcode" d) "NaT" st)%nat).
  { unfold count_reports.
    assert (Hin : In d (List.filter
                          (fun d' => bool_decide
                             (field "zipcode" d' = field "zipcode" d
                              /\ report_week d' = VStr "NaT"))
                          (reports st))).
    { apply filter_In. split; [assumption|].
      now apply bool_decide_eq_true_2. }
    destruct (List.filter _ _); [destruct Hin | simpl; lia]. }
  split; [assumption|]. split.
  - eexists _, _. split; [now apply trend_data_rows|]. cbn [rows].
    split; [|exact Hpos]. apply trend_groups_spec. tauto.
  - eexists. split; [now apply trend_data_rows|]. cbn [rows]. split.
    + apply trend_groups_spec. tauto.
    + intros w n. rewrite trend_groups_spec. tauto.
Qed.

End TrendClaims.

Section AnalysisClaims.

Context {lib : Collaborators}.

(** The analysis tab, step by step, once the button is pressed. *)
Lemma ai_analysis_tab_request c z st :
  Forall (fun d => has_required d = true) (reports st) ->
  Forall timestamp_ok (reports st) ->
  reports st <> [] ->
  let weekly_summary :=
    skipn (length (zip_buckets z st) - 12) (zip_buckets z st) in
  let request :=
    {| model := "gpt-4";
       system_content := system_prompt z;
       user_content := "Report data: " +:+ repr_records weekly_summary;
       max_tokens := 300;
       temperature := (1, 2) |} in
  ai_analysis_tab c z true st
  = Ok (match chat_completions_create c request with
        | Ok content => Answer weekly_summary request content
        | Raise e => Failed weekly_summary request e
        end).
Proof.
  intros Hall Hok Hne. unfold ai_analysis_tab.
  rewrite (trend_data_rows st Hall Hok Hne). cbn [rbind].
  unfold select_zip, getitem. cbn [columns rows mem existsb String.eqb].
  cbn [Ascii.eqb Bool.eqb orb rbind].
  unfold tail, boolean_index, to_dict_records. cbn [rows columns].
  rewrite (map_map (field "zipcode") (fun v => py_eq v z)).
  rewrite (select_map_filter (fun r => py_eq (field "zipcode" r) z)).
  fold (zip_buckets z st).
  now destruct (chat_completions_create c _).
Qed.

(** C7, as amended.  On a store the page can hold and that is not empty,
    pressing the button sends one request whose data section is the printed
    list of the last 12 weekly aggregates of the selected zip code, in the
    ascending week order of the trend frame: all of them when there are at
    most 12, the empty list when there are none, never a row of another zip
    code, and every row left out comes under an earlier week label than
    every row sent.  That order of labels is the order of the calendar on
    the weeks of time stamps, and puts the label "NaT" after them all. *)
Theorem analysis_sends_last_twelve_buckets :
  forall (c : client) (z : value) (st : session_state),
    reachable st ->
    reports st <> [] ->
    exists view weekly_summary request,
      ai_analysis_tab c z true st = Ok view
      /\ request_sent view = Some (weekly_summary, request)
      /\ user_content request
         = "Report data: " +:+ repr_records weekly_summary
      /\ weekly_summary
         = skipn (length (zip_buckets z st) - 12) (zip_buckets z st)
      /\ length weekly_summary = Nat.min 12 (length (zip_buckets z st))
      /\ ((length (zip_buckets z st) <= 12)%nat ->
          weekly_summary = zip_buckets z st)
      /\ (zip_buckets z st = [] ->
          user_content request = "Report data: []")
      /\ (forall r, In r weekly_summary ->
            field "zipcode" r = z /\ In r (zip_buckets z st))
      /\ (forall w n,
            In (bucket z w n) (zip_buckets z st)
            <-> isna z = false /\ n = count_reports z w st /\ (0 < n)%nat)
      /\ StronglySorted week_before (zip_buckets z st)
      /\ (forall a b,
            In a (zip_buckets z st) -> ~ In a weekly_summary ->
            In b weekly_summary -> week_before a b)
      /\ (forall a b nsa nsb,
            field "week" a = VStr (week_label nsa) ->
            field "week" b = VStr (week_label nsb) ->
            in_range nsa -> in_range nsb ->
            (week_before a b <-> week_start nsa < week_start nsb))
      /\ (forall a b ns,
            field "week" a = VStr (week_label ns) ->
            field "week" b = VStr "NaT" -> week_before a b).
Proof.
  intros c z st Hreach Hne.
  pose proof (reachable_required st Hreach) as Hall.
  pose proof (reachable_timestamp_ok st Hreach) as Hok.
  pose proof (ai_analysis_tab_request c z st Hall Hok Hne) as Hrun.
  cbv zeta in Hrun.
  set (zb := zip_buckets z st) in *.
  set (weekly_summary := skipn (length zb - 12) zb) in *.
  set (request := {| model := "gpt-4"; system_content := system_prompt z;
                     user_content := "Report data: "
                                     +:+ repr_records weekly_summary;
                     max_tokens := 300; temperature := (1, 2) |}) in *.
  exists (match chat_completions_create c request with
          | Ok content => Answer weekly_summary request content
          | Raise e => Failed weekly_summary request e
          end), weekly_summary, request.
  split; [exact Hrun|].
  split; [now destruct (chat_completions_create c request)|].
  split; [reflexivity|]. split; [reflexivity|].
  assert (Hsub : forall r, In r weekly_summary -> In r zb).
  { intros r Hr. rewrite <- (firstn_skipn (length zb - 12) zb).
    apply in_or_app. now right. }
  split; [subst weekly_summary; rewrite length_skipn; lia|].
  split.
  { intros Hle. subst weekly_summary.
    now replace (length zb - 12)%nat with 0%nat by lia. }
  split.
  { intros E. subst request weekly_summary. cbn [user_content].
    now rewrite E. }
  split.
  { intros r Hr. split; [|now apply Hsub].
    apply (zip_buckets_zip z st). now apply Hsub. }
  split; [intros w n; apply zip_buckets_spec|].
  split; [apply zip_buckets_sorted|].
  split; [|split].
  - intros a b Ha Hna Hb.
    pose proof (zip_buckets_sorted z st) as Hs. fold zb in Hs.
    rewrite <- (firstn_skipn (length zb - 12) zb) in Hs, Ha.
    apply in_app_or in Ha. destruct Ha as [Ha|Ha]; [|now elim Hna].
    now apply (StronglySorted_app_inv _ _ _ Hs).
  - intros a b nsa nsb Ha Hb Hra Hrb. unfold week_before.
    rewrite Ha, Hb. now apply week_label_chronological.
  - intros a b ns Ha Hb. unfold week_before. rewrite Ha, Hb.
    apply week_label_before_NaT.
Qed.

End AnalysisClaims.

(** ** Export and import *)

Lemma fold_add_key_seen ks seen :
  (forall k, In k ks -> In k seen) -> fold_left add_key ks seen = seen.
Proof.
  revert seen. induction ks as [|k ks IH]; intros seen Hin; simpl;
    [reflexivity|].
  unfold add_key at 2.
  rewrite (proj2 (mem_In k seen)) by (apply Hin; now left).
  apply IH. intros k' Hk'. apply Hin. now right.
Qed.

Lemma fold_add_key_fresh ks seen :
  NoDup (seen ++ ks) -> fold_left add_key ks seen = seen ++ ks.
Proof.
  revert seen. induction ks as [|k ks IH]; intros seen Hnd; simpl.
  - now rewrite app_nil_r.
  - unfold add_key at 2.
    assert (Hk : mem k seen = false).
    { apply mem_false. intros Hin. apply NoDup_app in Hnd.
      destruct Hnd as (_ & Hdis & _).
      apply (Hdis k); rewrite list_elem_of_In; [assumption | now left]. }
    rewrite Hk. rewrite IH.
    + now rewrite <- app_assoc.
    + now rewrite <- app_assoc.
Qed.

Lemma union_keys_same cols rs :
  NoDup cols -> rs <> [] -> Forall (fun d => keys d = cols) rs ->
  union_keys rs = cols.
Proof.
  intros Hnd Hne Hall. destruct rs as [|d rs]; [congruence|].
  pose proof (List.Forall_inv Hall) as Hd. simpl in Hd.
  pose proof (List.Forall_inv_tail Hall) as Hrs.
  unfold union_keys. simpl. rewrite Hd.
  rewrite fold_add_key_fresh by exact Hnd.
  simpl. clear Hne Hall Hd.
  induction Hrs as [|d' rs Hd' Hrs IH]; simpl; [reflexivity|].
  rewrite Hd'. rewrite fold_add_key_seen by auto. exact IH.
Qed.

Lemma required_columns_NoDup : NoDup required_columns.
Proof. apply nodup_strings_NoDup. reflexivity. Qed.

Lemma first_line_app_newline h rest :
  contains newline h = false ->
  first_line (h +:+ str1 newline +:+ rest) = h.
Proof.
  induction h as [|c h IH].
  - intros _. change (first_line (String newline rest) = "").
    cbn [first_line]. now rewrite Ascii.eqb_refl.
  - intros Hc. cbn [contains] in Hc.
    change (first_line (String c (h +:+ str1 newline +:+ rest)) = String c h).
    cbn [first_line].
    apply orb_false_iff in Hc. destruct Hc as [Hc Hh].
    rewrite Ascii.eqb_sym, Hc. f_equal. now apply IH.
Qed.

Lemma concat_cons_first x l :
  exists rest, String.concat "" (x :: l) = x +:+ rest.
Proof.
  destruct l as [|y l]; cbn [String.concat].
  - exists "". induction x as [|c x IH]; [reflexivity|].
    change (String c x = String c (x +:+ "")). now f_equal.
  - now eexists.
Qed.

Section ExportImport.

Context {lib : Collaborators}.

(** The exported text starts with the nine exported labels. *)
Lemma table_tab_header st :
  Forall (fun d => keys d = required_columns) (reports st) ->
  reports st <> [] ->
  columns (fst (table_tab st)) = exported_columns
  /\ first_line (snd (table_tab st)) = join "," exported_columns.
Proof.
  intros Hall Hne. unfold table_tab. cbn [fst snd].
  assert (Hcols : columns (drop_columns (DataFrame_of_records (reports st))
                             ["photo_path"]) = exported_columns).
  { unfold drop_columns, DataFrame_of_records. cbn [columns].
    rewrite (union_keys_same required_columns) by
      (auto using required_columns_NoDup). reflexivity. }
  split; [exact Hcols|].
  unfold to_csv. rewrite Hcols.
  destruct (concat_cons_first (csv_line exported_columns)
              (map (fun r => csv_line (map (fun c => csv_cell (field c r))
                                           exported_columns))
                   (rows (drop_columns (DataFrame_of_records (reports st))
                            ["photo_path"])))) as (rest & ->).
  unfold csv_line. rewrite string_app_assoc.
  now apply first_line_app_newline.
Qed.

(** C1, as amended.  For a store that is not empty and whose reports are
    dicts with exactly the ten fields, the exported text starts with the
    nine exported labels, without [photo_path].  Importing that text never
    appends a row: the session state stays as it was, and when the reader
    returns a frame the handler shows that the column [photo_path] is
    missing. *)
Theorem export_is_rejected_by_import :
  forall (st target : session_state),
    Forall (fun d => keys d = required_columns) (reports st) ->
    reports st <> [] ->
    let text := snd (table_tab st) in
    first_line text = join "," exported_columns
    /\ snd (report_tab_upload text target) = target
    /\ fst (report_tab_upload text target) <> Merged
    /\ (forall df, read_csv text = Ok df ->
          report_tab_upload text target
          = (MissingColumns ["photo_path"], target)).
Proof.
  intros st target Hall Hne text.
  destruct (table_tab_header st Hall Hne) as [_ Hfirst].
  fold text in Hfirst.
  assert (Hframe : forall df, read_csv text = Ok df ->
            report_tab_upload text target
            = (MissingColumns ["photo_path"], target)).
  { intros df Hread.
    assert (Hcols : columns df = exported_columns).
    { rewrite (read_csv_header text df Hread).
      - now rewrite Hfirst.
      - unfold plain_header. rewrite Hfirst.
        repeat split; try reflexivity.
        + apply nodup_strings_NoDup. reflexivity.
        + simpl. intuition discriminate. }
    unfold report_tab_upload, upload_body. rewrite Hread. cbn [rbind].
    rewrite Hcols. reflexivity. }
  split; [exact Hfirst|].
  cut (snd (report_tab_upload text target) = target
       /\ fst (report_tab_upload text target) <> Merged);
    [tauto|].
  assert (Hcases : (exists df, read_csv text = Ok df)
                   \/ (exists e, read_csv text = Raise e))
    by (destruct (read_csv text); eauto).
  destruct Hcases as [(df & Hread)|(e & Hread)].
  - rewrite (Hframe df Hread). cbn [fst snd].
    split; [reflexivity | discriminate].
  - unfold report_tab_upload, upload_body.
    rewrite Hread. cbn [rbind fst snd].
    split; [reflexivity | discriminate].
Qed.

End ExportImport.

(** ** Runs of the page *)

Section Runs.

Context {lib : Collaborators} {os : Platform}.

Lemma gallery_tab_returns z o st :
  reachable st -> exists out, gallery_tab z o st = Ok out.
Proof.
  intros Hreach. pose proof (reachable_required st Hreach) as Hall.
  destruct (reports st) as [|d rs] eqn:E.
  - exists None. now apply gallery_tab_empty.
  - rewrite <- E in Hall. eexists.
    apply gallery_tab_rows; [assumption|]. now rewrite E.
Qed.

Lemma trend_data_returns st :
  reachable st ->
  trend_data st = Ok None
  \/ trend_data st
     = Ok (Some {| columns := ["zipcode"; "week"; "report_count"];
                   rows := map (group_row ["zipcode"; "week"] "report_count")
                               (trend_groups st) |}).
Proof.
  intros Hreach. pose proof (reachable_required st Hreach) as Hall.
  pose proof (reachable_timestamp_ok st Hreach) as Hok.
  destruct (reports st) as [|d rs] eqn:E.
  - left. unfold trend_data, load_data. now rewrite E.
  - rewrite <- E in Hall, Hok. right.
    apply trend_data_rows; [assumption..|]. now rewrite E.
Qed.

Lemma trends_tab_returns z st :
  reachable st -> exists out, trends_tab z st = Ok out.
Proof.
  intros Hreach. unfold trends_tab.
  destruct (trend_data_returns st Hreach) as [-> | ->]; cbn [rbind];
    eexists; reflexivity.
Qed.

Lemma ai_analysis_tab_returns c z b st :
  reachable st -> exists view, ai_analysis_tab c z b st = Ok view.
Proof.
  intros Hreach. unfold ai_analysis_tab.
  destruct (trend_data_returns st Hreach) as [-> | ->]; cbn [rbind];
    [eexists; reflexivity|].
  destruct b; [|eexists; reflexivity].
  unfold select_zip, getitem. cbn [columns rows mem existsb String.eqb].
  cbn [Ascii.eqb Bool.eqb orb rbind].
  destruct (chat_completions_create c _); eexists; reflexivity.
Qed.

(** C8.  When no credential is supplied the client cannot be built, and
    since the script builds it first, at load time, every run of the page
    ends there with the client's error, whatever the user does and
    whatever the store holds: no tab is rendered, and the session state is
    left as it was.  With a credential the client is built. *)
Theorem missing_credential_stops_page_at_load :
  forall (i : interaction) (st : session_state),
    (exists msg, OpenAI None None = Raise (OpenAIError msg)
                 /\ run_page None i st = (st, Raise (OpenAIError msg)))
    /\ forall key, OpenAI (Some key) (Some key) = Ok (mkClient key).
Proof.
  intros i st. split; [eexists; split; reflexivity|].
  intros key. reflexivity.
Qed.

End Runs.

(** ** Ties *)

Lemma StronglySorted_app {A} (R : A -> A -> Prop) l1 l2 :
  StronglySorted R l1 -> StronglySorted R l2 ->
  (forall a b, In a l1 -> In b l2 -> R a b) ->
  StronglySorted R (l1 ++ l2).
Proof.
  induction 1 as [|x l1 Hl IH Hx]; simpl; intros H2 Hc; [assumption|].
  constructor.
  - apply IH; [assumption|]. intros a b Ha Hb. apply Hc; [now right | assumption].
  - apply Forall_app. split; [assumption|].
    apply List.Forall_forall. intros b Hb. apply Hc; [now left | assumption].
Qed.

Lemma select_seq_increasing mask s n :
  StronglySorted lt (select mask (seq s n)).
Proof.
  revert mask s. induction n as [|n IH]; intros [|b mask] s; simpl;
    try constructor.
  destruct b; [|apply IH]. constructor; [apply IH|].
  apply List.Forall_forall. intros i Hi. apply select_seq_ge in Hi. lia.
Qed.

Lemma increasing_nth l a b :
  StronglySorted lt l -> (a < b < length l)%nat ->
  (nth a l 0 < nth b l 0)%nat.
Proof.
  intros Hs. revert a b. induction Hs as [|x l Hl IH Hx]; intros a b Hab;
    simpl in *; [lia|].
  destruct b as [|b]; [lia|]. destruct a as [|a].
  - rewrite List.Forall_forall in Hx. apply Hx. apply nth_In. lia.
  - apply IH. lia.
Qed.

Lemma nth_rev_index {A} (d : A) l a :
  (a < length l)%nat -> nth a (rev l) d = nth (length l - S a) l d.
Proof. intros Ha. now apply rev_nth. Qed.

Section StableNargsort.

Variable sorter : list Z -> list nat.
Hypothesis sorter_perm : forall l, Permutation (sorter l) (seq 0 (length l)).
Hypothesis sorter_keeps_ties : keeps_ties sorter.

Lemma nargsort_keeps_ties items ascending :
  ties_in_input_order None items (nargsort sorter items ascending).
Proof.
  unfold ties_in_input_order, nargsort.
  set (NI := select (map negb (map is_None items)) (seq 0 (length items))).
  set (NA := select (map is_None items) (seq 0 (length items))).
  set (NN := present items).
  assert (Hkeys : gather None items NI = map Some NN).
  { unfold NN, NI. rewrite <- (present_positions items 0).
    unfold gather. apply map_ext.
    intros i. now rewrite Nat.sub_0_r. }
  assert (Hlen : length NI = length NN).
  { apply (f_equal (@length _)) in Hkeys. unfold gather in Hkeys.
    now rewrite !length_map in Hkeys. }
  assert (Hkey : forall a, (a < length NN)%nat ->
                   nth (nth a NI 0%nat) items None = Some (nth a NN 0)).
  { intros a Ha.
    pose proof (map_nth (fun i => nth i items None) NI 0%nat a) as Hm.
    cbv beta in Hm. rewrite <- Hm.
    fold (gather None items NI). rewrite Hkeys.
    rewrite (nth_indep _ _ (Some 0)) by now rewrite length_map.
    apply (map_nth Some). }
  assert (HNA : Forall (fun i => nth i items None = None) NA).
  { pose proof (missing_positions items 0) as Hm.
    eapply List.Forall_impl; [|exact Hm]. simpl. intros i.
    now rewrite Nat.sub_0_r. }
  assert (HNI : StronglySorted lt NI) by apply select_seq_increasing.
  assert (HNAs : StronglySorted lt NA) by apply select_seq_increasing.
  assert (Htail : StronglySorted
                    (fun i j => nth i items None = nth j items None
                                -> (i < j)%nat) NA).
  { eapply StronglySorted_impl_in; [|exact HNAs]. auto. }
  assert (Hcross : forall idxs a b,
            Forall (fun i => exists v, nth i items None = Some v) idxs ->
            In a idxs -> In b NA ->
            nth a items None = nth b items None -> (a < b)%nat).
  { intros idxs a b Hall Ha Hb Heq.
    rewrite List.Forall_forall in Hall, HNA.
    destruct (Hall a Ha) as (v & Hv). rewrite (HNA b Hb) in Heq. congruence. }
  destruct ascending.
  - pose proof (perm_seq_bound _ _ (sorter_perm NN)) as Hb.
    apply StronglySorted_app; [|exact Htail|].
    + unfold gather. apply StronglySorted_map.
      eapply StronglySorted_impl_in; [|apply (sorter_keeps_ties NN)].
      intros a b Ha Hb' Hstable Heq. rewrite List.Forall_forall in Hb.
      rewrite !Hkey in Heq by auto.
      apply increasing_nth; [exact HNI|]. split; [|rewrite Hlen; auto].
      apply Hstable. congruence.
    + intros a b Ha. apply (Hcross (gather 0%nat NI (sorter NN)));
        [|exact Ha].
      unfold gather. apply Forall_map.
      eapply List.Forall_impl; [|exact Hb]. simpl. intros x Hx. eauto.
  - pose proof (perm_seq_bound _ _ (sorter_perm (rev NN))) as Hb.
    rewrite length_rev in Hb.
    assert (Hkey' : forall a, (a < length NN)%nat ->
              nth (nth a (rev NI) 0%nat) items None
              = Some (nth a (rev NN) 0)).
    { intros a Ha. rewrite !nth_rev_index by lia. rewrite Hlen.
      apply Hkey. lia. }
    apply StronglySorted_app; [|exact Htail|].
    + apply (StronglySorted_rev
               (fun j i => nth i items None = nth j items None -> (i < j)%nat)).
      unfold gather. apply StronglySorted_map.
      eapply StronglySorted_impl_in; [|apply (sorter_keeps_ties (rev NN))].
      intros a b Ha Hb' Hstable Heq. rewrite List.Forall_forall in Hb.
      rewrite !Hkey' in Heq by auto.
      rewrite !nth_rev_index by (rewrite Hlen; auto).
      apply increasing_nth; [exact HNI|].
      assert (a < b)%nat by (apply Hstable; congruence).
      specialize (Hb _ Hb'). rewrite Hlen. lia.
    + intros a b Ha. apply (Hcross (gather 0%nat (rev NI) (sorter (rev NN)))).
      * unfold gather. apply Forall_map.
        eapply List.Forall_impl; [|exact Hb]. simpl. intros x Hx. eauto.
      * now apply in_rev.
Qed.

End StableNargsort.

Lemma insert_index_keeps_ties ks i l :
  Forall (fun j => (i < j)%nat) l ->
  StronglySorted (fun a b => nth a ks 0 = nth b ks 0 -> (a < b)%nat) l ->
  Sorted (fun a b => nth a ks 0 <= nth b ks 0) l ->
  StronglySorted (fun a b => nth a ks 0 = nth b ks 0 -> (a < b)%nat)
                 (insert_index Z.leb ks i l).
Proof.
  intros Hgt Hs Hsorted.
  apply Sorted_StronglySorted in Hsorted;
    [|intros x y z; apply Z.le_trans].
  induction Hs as [|j l Hl IH Hj]; simpl.
  - constructor; constructor.
  - inversion Hgt as [|? ? Hij Hgt']; subst.
    inversion Hsorted as [|? ? Hsl Hjl]; subst.
    destruct (nth i ks 0 <=? nth j ks 0) eqn:E.
    + constructor; [now constructor|].
      constructor; [auto|].
      eapply List.Forall_impl; [|exact Hgt']. auto.
    + apply Z.leb_gt in E. constructor; [now apply IH|].
      assert (Hall : Forall (fun b => nth j ks 0 = nth b ks 0 -> (j < b)%nat)
                            (i :: l)).
      { constructor; [lia | exact Hj]. }
      apply List.Forall_forall. intros b Hb.
      apply (Permutation_in b (insert_index_perm Z.leb ks i l)) in Hb.
      rewrite List.Forall_forall in Hall. now apply Hall.
Qed.

Lemma stable_argsort_keeps_ties : keeps_ties stable_argsort.
Proof.
  intros ks. unfold stable_argsort, insertion_argsort.
  assert (Hgen : forall s n,
    StronglySorted (fun a b => nth a ks 0 = nth b ks 0 -> (a < b)%nat)
                   (fold_right (insert_index Z.leb ks) [] (seq s n))
    /\ Sorted (fun a b => nth a ks 0 <= nth b ks 0)
              (fold_right (insert_index Z.leb ks) [] (seq s n))
    /\ Forall (fun j => (s <= j)%nat)
              (fold_right (insert_index Z.leb ks) [] (seq s n))).
  { intros s n. revert s. induction n as [|n IH]; intros s; simpl.
    - repeat split; constructor.
    - destruct (IH (S s)) as (Hs & Hsorted & Hge).
      assert (Hgt : Forall (fun j => (s < j)%nat)
                      (fold_right (insert_index Z.leb ks) [] (seq (S s) n))).
      { eapply List.Forall_impl; [|exact Hge]. simpl. intros; lia. }
      split; [now apply insert_index_keeps_ties|]. split.
      + apply (insert_index_sorted Z.leb); [| |exact Hsorted].
        * intros a b E. now apply Z.leb_le.
        * intros a b E. apply Z.leb_gt in E. lia.
      + apply List.Forall_forall. intros j Hj.
        apply (Permutation_in j (insert_index_perm Z.leb ks s _)) in Hj.
        rewrite List.Forall_forall in Hgt.
        destruct Hj as [<-|Hj]; [lia|]. specialize (Hgt j Hj). lia. }
  apply Hgen.
Qed.

Section GalleryTies.

Context {lib : Collaborators}.

Lemma gallery_keys_nth z st i :
  nth i (map datetime_key (map (field "timestamp") (gallery_rows z st))) None
  = datetime_key (nth i (map (field "timestamp") (gallery_rows z st)) VNaN).
Proof. exact (map_nth datetime_key _ VNaN i). Qed.


End GalleryTies.

(** ** Where every key is the same *)

Lemma seq_increasing s n : StronglySorted lt (seq s n).
Proof.
  revert s. induction n as [|n IH]; intros s; cbn [seq]; constructor;
    [apply IH|].
  apply List.Forall_forall. intros i Hi. apply in_seq in Hi. lia.
Qed.

(** An increasing list is determined by its elements. *)
Lemma increasing_perm_eq (l1 : list nat) : forall l2,
  StronglySorted lt l1 -> StronglySorted lt l2 -> Permutation l1 l2 ->
  l1 = l2.
Proof.
  induction l1 as [|a l1 IH]; intros l2 H1 H2 HP.
  - apply Permutation.Permutation_nil in HP. now subst.
  - destruct l2 as [|b l2];
      [symmetry in HP; apply Permutation.Permutation_nil in HP;
       discriminate|].
    inversion H1 as [|? ? H1' Ha]; inversion H2 as [|? ? H2' Hb]; subst.
    assert (E : a = b).
    { destruct (Nat.eq_dec a b) as [|Hab]; [assumption|]. exfalso.
      assert (Hin : In a (b :: l2))
        by (apply (Permutation_in a HP); now left).
      destruct Hin as [|Hin]; [congruence|].
      assert (Hin' : In b (a :: l1))
        by (apply (Permutation_in b (Permutation_sym HP)); now left).
      destruct Hin' as [|Hin']; [congruence|].
      rewrite List.Forall_forall in Ha, Hb.
      specialize (Ha b Hin'). specialize (Hb a Hin). lia. }
    subst b. f_equal. apply IH; [assumption..|].
    now apply Permutation.Permutation_cons_inv in HP.
Qed.

Lemma nth_repeat_lt {A} (x d : A) n i :
  (i < n)%nat -> nth i (repeat x n) d = x.
Proof.
  revert i. induction n as [|n IH]; intros [|i] Hi; cbn; try lia;
    [reflexivity|]. apply IH. lia.
Qed.

(** ** The store and the frames built from it *)

Lemma snapshot_of_records records :
  snapshot_of records (DataFrame_of_records records).
Proof.
  split.
  - intros c. apply union_keys_In.
  - unfold DataFrame_of_records. cbn [columns rows].
    generalize (union_keys records) as cols. intros cols.
    induction records as [|d ds IH]; constructor; [|exact IH].
    split.
    + unfold keys. rewrite map_map. cbn [fst]. apply map_id.
    + intros c Hc. now apply field_cells.
Qed.

Module HeapFacts.
Import Heap.

Lemma alloc_spec (h : gmap loc object) o :
  h !! (alloc h o).2 = None /\ (alloc h o).1 = <[(alloc h o).2 := o]> h.
Proof.
  unfold alloc. simpl. split; [|reflexivity].
  apply not_elem_of_dom. apply is_fresh.
Qed.

Lemma scalars_lift d : scalars (lift d) = Some d.
Proof.
  unfold scalars, lift. apply mapM_Some.
  induction d as [|[k v] d IH]; constructor; auto.
Qed.

Lemma scalars_inv d r : scalars d = Some r -> d = lift r.
Proof.
  unfold scalars. intros H. apply mapM_Some in H. revert H.
  induction 1 as [|[k c] [k' v] d r Hkc _ IH]; [reflexivity|].
  unfold scalar_entry in Hkc. cbn [fst snd] in Hkc.
  destruct c as [v0|x]; [|discriminate].
  injection Hkc as -> ->. cbn [lift map fst snd]. f_equal. exact IH.
Qed.

Lemma mapM_scalars_lift rs : mapM scalars (map lift rs) = Some rs.
Proof.
  apply mapM_Some. induction rs; constructor; auto using scalars_lift.
Qed.

Lemma mapM_scalars_inv ds rs : mapM scalars ds = Some rs -> ds = map lift rs.
Proof.
  rewrite mapM_Some. induction 1 as [|d r ds rs Hd _ IH]; [reflexivity|].
  cbn [map]. f_equal; [now apply scalars_inv | exact IH].
Qed.

Lemma cell_get_lift d k :
  cell_get (lift d) k = option_map Scalar (dict_get d k).
Proof.
  induction d as [|[k' v] d IH]; [reflexivity|].
  cbn [lift map fst snd cell_get dict_get].
  destruct (String.eqb k k'); [reflexivity | exact IH].
Qed.

Lemma cell_set_lift d k v :
  cell_set (lift d) k (Scalar v) = lift (dict_set d k v).
Proof.
  induction d as [|[k' v'] d IH]; [reflexivity|].
  cbn [lift map fst snd cell_set dict_set].
  destruct (String.eqb k k'); [reflexivity|].
  cbn [map fst snd]. f_equal. exact IH.
Qed.

Lemma keys_lift d : map fst (lift d) = keys d.
Proof. unfold lift, keys. rewrite map_map. reflexivity. Qed.

Lemma union_lift rs : forall seen,
  fold_left (fun seen d => fold_left add_key (map fst d) seen)
            (map lift rs) seen
  = fold_left (fun seen d => fold_left add_key (keys d) seen) rs seen.
Proof.
  induction rs as [|d rs IH]; intros seen; [reflexivity|].
  cbn [map fold_left]. rewrite keys_lift. apply IH.
Qed.

(** On dicts of scalars the frame on the heap is the frame of the page. *)
Lemma frame_of_dicts_lift rs :
  frame_of_dicts (map lift rs)
  = ObjFrame (columns (DataFrame_of_records rs))
             (map lift (rows (DataFrame_of_records rs))).
Proof.
  unfold frame_of_dicts, DataFrame_of_records, union_keys.
  cbn [columns rows]. rewrite union_lift.
  set (cols := fold_left _ rs []). f_equal.
  rewrite !map_map. apply map_ext. intros d.
  unfold lift at 2. rewrite map_map. apply map_ext. intros c.
  cbn [fst snd]. rewrite cell_get_lift. unfold field.
  now destruct (dict_get d c).
Qed.

Lemma read_reports_items (h : gmap loc object) ref rs :
  read_reports h ref = Some rs -> read_items h ref = Some (map lift rs).
Proof.
  unfold read_reports. destruct (read_items h ref) as [ds|]; [|discriminate].
  intros H. now rewrite (mapM_scalars_inv _ _ H).
Qed.

Lemma read_frame_inv (h : gmap loc object) l df :
  read_frame h l = Some df ->
  h !! l = Some (ObjFrame (columns df) (map lift (rows df))).
Proof.
  unfold read_frame. destruct (h !! l) as [[| |cols rs]|]; try discriminate.
  destruct (mapM scalars rs) as [rs0|] eqn:E; [|discriminate].
  intros [= <-]. cbn [columns rows]. now rewrite (mapM_scalars_inv _ _ E).
Qed.

Lemma read_frame_lift (h : gmap loc object) l cols rows :
  h !! l = Some (ObjFrame cols (map lift rows)) ->
  read_frame h l = Some {| columns := cols; rows := rows |}.
Proof.
  intros E. unfold read_frame. now rewrite E, mapM_scalars_lift.
Qed.

Lemma zip_cells_lift col rows : forall vs,
  zip_cells col (map lift rows) vs = map lift (zip_set col rows vs).
Proof.
  induction rows as [|r rows IH]; intros [|v vs]; try reflexivity.
  cbn [map zip_cells zip_set]. now rewrite cell_set_lift, IH.
Qed.

Lemma insert_lift rows : forall i r,
  <[i := lift r]> (map lift rows) = map lift (<[i := r]> rows).
Proof.
  induction rows as [|r0 rows IH]; intros [|i] r; try reflexivity.
  cbn. f_equal. apply IH.
Qed.

Lemma lookup_lift rows : forall i (r : celldict),
  map lift rows !! i = Some r -> exists r0, r = lift r0.
Proof.
  induction rows as [|r0 rows IH]; intros [|i] r; cbn; try discriminate.
  - intros [= <-]. eauto.
  - apply IH.
Qed.

Lemma filter_lift (p : string -> bool) d :
  List.filter (fun kc : string * cell => p (fst kc)) (lift d)
  = lift (List.filter (fun kv => p (fst kv)) d).
Proof.
  induction d as [|[k v] d IH]; [reflexivity|].
  cbn [lift map List.filter fst snd]. destruct (p k); cbn [map fst snd];
    [f_equal|]; exact IH.
Qed.

(** A statement through a frame of scalars changes that frame only, and
    leaves it a frame of scalars. *)
Lemma exec_scalar_frame (h h' : gmap loc object) l cols rows s :
  h !! l = Some (ObjFrame cols (map lift rows)) ->
  exec h l s = Some h' ->
  (exists cols' rows', h' !! l = Some (ObjFrame cols' (map lift rows')))
  /\ forall x, x <> l -> h' !! x = h !! x.
Proof.
  intros Hl. unfold exec. rewrite Hl. destruct s as [col vs|i col v|col|i col o].
  - intros [= <-]. split.
    + rewrite zip_cells_lift. eexists _, _. apply lookup_insert_eq.
    + intros x Hx. now apply lookup_insert_ne.
  - destruct (map lift rows !! i) as [r|] eqn:E; [|discriminate].
    destruct (lookup_lift _ _ _ E) as (r0 & ->).
    destruct (mem col cols); [|discriminate]. intros [= <-]. split.
    + rewrite cell_set_lift, insert_lift. eexists _, _.
      apply lookup_insert_eq.
    + intros x Hx. now apply lookup_insert_ne.
  - destruct (mem col cols); [|discriminate]. intros [= <-]. split.
    + rewrite map_map.
      rewrite (map_ext _ (fun r => lift (List.filter
                                    (fun kv => negb (String.eqb (fst kv) col))
                                    r)))
        by (intros r; apply (filter_lift (fun k => negb (String.eqb k col)))).
      rewrite <- (map_map _ lift). eexists _, _. apply lookup_insert_eq.
    + intros x Hx. now apply lookup_insert_ne.
  - destruct (map lift rows !! i) as [r|] eqn:E; [|discriminate].
    destruct (lookup_lift _ _ _ E) as (r0 & ->).
    rewrite cell_get_lift. now destruct (dict_get r0 col).
Qed.

Lemma run_scalar_frame stmts : forall (h : gmap loc object) l cols rows,
  h !! l = Some (ObjFrame cols (map lift rows)) ->
  (exists cols' rows',
     run h l stmts !! l = Some (ObjFrame cols' (map lift rows')))
  /\ forall x, x <> l -> run h l stmts !! x = h !! x.
Proof.
  induction stmts as [|s stmts IH]; intros h l cols rows Hl; cbn [run].
  - eauto.
  - destruct (exec h l s) as [h'|] eqn:E; [|eauto].
    destruct (exec_scalar_frame _ _ _ _ _ _ Hl E) as [(c' & r' & Hl') Hother].
    destruct (IH _ _ _ _ Hl') as [Hfr Hother']. split; [exact Hfr|].
    intros x Hx. now rewrite Hother', Hother.
Qed.

(** [data[col] = series] on the heap is [setitem] on the frame. *)
Lemma exec_SetColumn (h : gmap loc object) l df col vs :
  read_frame h l = Some df ->
  exists h', exec h l (SetColumn col vs) = Some h'
             /\ read_frame h' l = Some (setitem df col vs).
Proof.
  intros Hdf. apply read_frame_inv in Hdf. unfold exec. rewrite Hdf.
  eexists. split; [reflexivity|]. rewrite zip_cells_lift.
  apply read_frame_lift. apply lookup_insert_eq.
Qed.

Section ProjectionFacts.

Context {lib : Collaborators}.

(** The statements of the trends tab, run on the heap, leave in the frame
    object the frame that [trend_data] groups. *)
Lemma trends_statements_on_heap (h : gmap loc object) l data stmts :
  read_frame h l = Some data ->
  trends_statements data = Ok stmts ->
  exists ts,
    (do ts0 <- getitem data "timestamp"; to_datetime false ts0) = Ok ts
    /\ read_frame (run h l stmts) l
       = Some (setitem (setitem data "timestamp" ts) "week"
                       (map to_period_W_str ts)).
Proof.
  intros Hdf. unfold trends_statements.
  destruct (getitem data "timestamp") as [ts0|e]; [|discriminate].
  cbn [rbind]. destruct (to_datetime false ts0) as [ts|e]; [|discriminate].
  cbn [rbind]. intros [= <-]. exists ts. split; [reflexivity|].
  cbn [run].
  destruct (exec_SetColumn h l data "timestamp" ts Hdf) as (h1 & -> & Hdf1).
  destruct (exec_SetColumn h1 l _ "week" (map to_period_W_str ts) Hdf1)
    as (h2 & -> & Hdf2).
  exact Hdf2.
Qed.

End ProjectionFacts.

Lemma read_dicts_agree (h h' : gmap loc object) items rs :
  (forall x, is_Some (h !! x) -> h' !! x = h !! x) ->
  mapM (read_dict h) items = Some rs ->
  mapM (read_dict h') items = Some rs.
Proof.
  intros Hagree. rewrite !mapM_Some. intros HF.
  eapply Forall2_impl; [exact HF|]. intros c y Hxy.
  unfold read_dict in *. destruct c as [v|x]; [discriminate|].
  destruct (h !! x) as [o|] eqn:E; [|discriminate].
  rewrite (Hagree x) by (rewrite E; eauto). now rewrite E.
Qed.

Lemma read_items_agree (h h' : gmap loc object) ref ds :
  (forall x, is_Some (h !! x) -> h' !! x = h !! x) ->
  read_items h ref = Some ds -> read_items h' ref = Some ds.
Proof.
  intros Hagree. unfold read_items.
  destruct (h !! ref) as [o|] eqn:E; [|discriminate].
  rewrite (Hagree ref) by (rewrite E; eauto). rewrite E.
  destruct o; try discriminate. now apply read_dicts_agree.
Qed.

Lemma read_reports_agree (h h' : gmap loc object) ref rs :
  (forall x, is_Some (h !! x) -> h' !! x = h !! x) ->
  read_reports h ref = Some rs -> read_reports h' ref = Some rs.
Proof.
  intros Hagree. unfold read_reports.
  destruct (read_items h ref) as [ds|] eqn:E; [|discriminate].
  now rewrite (read_items_agree h h' ref ds Hagree E).
Qed.

Lemma store_dicts_spec records : forall (h : gmap loc object),
  (forall x, is_Some (h !! x) -> (store_dicts h records).1 !! x = h !! x)
  /\ mapM (read_dict (store_dicts h records).1) (store_dicts h records).2
     = Some (map lift records).
Proof.
  induction records as [|d rs IH]; intros h; cbn [store_dicts].
  - split; [reflexivity|]. reflexivity.
  - destruct (alloc_spec h (ObjDict (lift d))) as [Hfresh Hh1].
    destruct (alloc h (ObjDict (lift d))) as [h1 l] eqn:Ea.
    cbn [fst snd] in Hfresh, Hh1.
    destruct (IH h1) as [Hkeep Hread].
    destruct (store_dicts h1 rs) as [h2 items] eqn:Es.
    cbn [fst snd] in *. split.
    + intros x Hx. assert (x <> l)
        by (intros ->; rewrite Hfresh in Hx; now destruct Hx).
      rewrite Hkeep; rewrite Hh1, lookup_insert_ne by auto; auto.
    + apply mapM_Some. constructor; [|now apply mapM_Some].
      assert (Hl : h1 !! l = Some (ObjDict (lift d)))
        by (rewrite Hh1; apply lookup_insert_eq).
      unfold read_dict. rewrite Hkeep by (rewrite Hl; eauto).
      now rewrite Hl.
Qed.

(** The store of the page, put on the heap, reads as its records. *)
Lemma store_of_reads records :
  read_reports (store_of records).1 (store_of records).2 = Some records.
Proof.
  unfold store_of.
  destruct (store_dicts_spec records ∅) as [_ Hread].
  destruct (store_dicts ∅ records) as [h items]. cbn [fst snd] in Hread.
  destruct (alloc_spec h (ObjList items)) as [Hfresh Hh1].
  destruct (alloc h (ObjList items)) as [h1 l]. cbn [fst snd] in *.
  unfold read_reports, read_items. rewrite Hh1, lookup_insert_eq.
  rewrite (read_dicts_agree h _ items (map lift records)); [|..|exact Hread].
  - apply mapM_scalars_lift.
  - intros x Hx. apply lookup_insert_ne. intros ->.
    rewrite Hfresh in Hx. now destruct Hx.
Qed.

(** C9.  The store of every session state can be put on the heap, and
    wherever it is, [load_data()] puts the frame it builds in an object of
    its own, one that did not exist before, and that frame shows the
    stored reports: one row per report in their order, with the cells of
    the report.  Whatever is then done in place through the frame (setting
    a column as the projections do, setting a cell, dropping a column,
    calling an in-place method of an object in a cell), every other object
    is left as it was, so the store still reads as the same records, and the
    next [load_data()] returns, in yet another object, the frame of the
    original records. *)
Theorem load_data_snapshot_is_independent :
  forall st : session_state,
    (exists (h : gmap loc object) reports_ref,
       read_reports h reports_ref = Some (reports st))
    /\ forall (h : gmap loc object) (reports_ref : loc),
         read_reports h reports_ref = Some (reports st) ->
         exists h1 l,
           load_data h reports_ref = Some (h1, l)
           /\ h !! l = None
           /\ (forall x, x <> l -> h1 !! x = h !! x)
           /\ read_frame h1 l = Some (DataFrame_of_records (reports st))
           /\ snapshot_of (reports st) (DataFrame_of_records (reports st))
           /\ forall stmts : list statement,
                (forall x, x <> l -> run h1 l stmts !! x = h !! x)
                /\ read_reports (run h1 l stmts) reports_ref
                   = Some (reports st)
                /\ exists h3 l',
                     load_data (run h1 l stmts) reports_ref = Some (h3, l')
                     /\ l' <> l
                     /\ run h1 l stmts !! l' = None
                     /\ read_frame h3 l'
                        = Some (DataFrame_of_records (reports st)).
Proof.
  intros st. split.
  { exists (store_of (reports st)).1, (store_of (reports st)).2.
    apply store_of_reads. }
  intros h ref Hread. set (rs := reports st) in *.
  pose proof (read_reports_items _ _ _ Hread) as Hitems.
  destruct (alloc_spec h (frame_of_dicts (map lift rs))) as [Hfresh Hh1].
  set (l := (alloc h (frame_of_dicts (map lift rs))).2) in *.
  set (h1 := (alloc h (frame_of_dicts (map lift rs))).1) in *.
  assert (Hl1 : h1 !! l
                = Some (ObjFrame (columns (DataFrame_of_records rs))
                          (map lift (rows (DataFrame_of_records rs)))))
    by (rewrite Hh1, <- frame_of_dicts_lift; apply lookup_insert_eq).
  assert (Hother1 : forall x, x <> l -> h1 !! x = h !! x)
    by (intros x Hx; rewrite Hh1; now apply lookup_insert_ne).
  exists h1, l. split; [|split; [exact Hfresh | split; [exact Hother1|]]].
  { unfold load_data. rewrite Hitems. subst h1 l.
    now destruct (alloc h _). }
  split.
  { rewrite (read_frame_lift _ _ _ _ Hl1).
    now destruct (DataFrame_of_records rs). }
  split; [apply snapshot_of_records|].
  intros stmts.
  destruct (run_scalar_frame stmts h1 l _ _ Hl1)
    as [(cols' & rows' & Hl2) Hother].
  set (h2 := run h1 l stmts) in *.
  assert (Hkeep : forall x, x <> l -> h2 !! x = h !! x)
    by (intros x Hx; rewrite Hother, Hother1 by exact Hx; reflexivity).
  assert (Hread2 : read_reports h2 ref = Some rs).
  { apply (read_reports_agree h); [|exact Hread].
    intros x Hx. apply Hkeep. intros ->. rewrite Hfresh in Hx.
    now destruct Hx. }
  split; [exact Hkeep|]. split; [exact Hread2|].
  pose proof (read_reports_items _ _ _ Hread2) as Hitems2.
  destruct (alloc_spec h2 (frame_of_dicts (map lift rs))) as [Hfresh2 Hh3].
  exists (alloc h2 (frame_of_dicts (map lift rs))).1,
         (alloc h2 (frame_of_dicts (map lift rs))).2.
  split; [|split; [|split]].
  - unfold load_data. rewrite Hitems2. now destruct (alloc h2 _).
  - intros E. rewrite E, Hl2 in Hfresh2. discriminate.
  - exact Hfresh2.
  - rewrite frame_of_dicts_lift in Hh3 |- *.
    erewrite read_frame_lift;
      [|rewrite Hh3; apply lookup_insert_eq].
    now destruct (DataFrame_of_records rs).
Qed.

(** The scalars are what makes it so.  Had a report held a list object, the
    frame would hold the same object, and changing it in place through the
    frame would change what the store refers to. *)
Lemma shared_list_changes_with_the_frame :
  exists h1 l,
    load_data heap_with_shared_list 1%positive = Some (h1, l)
    /\ run h1 l [MutateObject 0 "concerns" (ObjList [])] !! 3%positive
       = Some (ObjList [])
    /\ heap_with_shared_list !! 3%positive
       = Some (ObjList [Scalar (VStr "Foam")]).
Proof.
  eexists _, _. split; [reflexivity|]. split; reflexivity.
Qed.

End HeapFacts.

(** ** Submissions *)

Lemma string_length_app (s t : string) :
  String.length (s +:+ t) = (String.length s + String.length t)%nat.
Proof.
  induction s as [|c s IH]; [now rewrite string_app_nil|].
  rewrite string_app_cons. simpl. now rewrite IH.
Qed.

Lemma zero_pad_length w : forall n, String.length (zero_pad w n) = w.
Proof.
  induction w as [|w IH]; intros n; [reflexivity|].
  cbn [zero_pad]. rewrite string_length_app, IH. simpl. lia.
Qed.

Lemma string_compare_Eq s t : String.compare s t = Eq -> s = t.
Proof. apply String.compare_eq_iff. Qed.

(** A zero-padded number at the head of a text determines the number and
    the rest of the text. *)
Lemma zero_pad_app_inj w a b s t :
  0 <= a < 10 ^ Z.of_nat w -> 0 <= b < 10 ^ Z.of_nat w ->
  zero_pad w a +:+ s = zero_pad w b +:+ t -> a = b /\ s = t.
Proof.
  intros Ha Hb E.
  pose proof (compare_zero_pad w a b s t Ha Hb) as Hc.
  rewrite E, string_compare_refl in Hc.
  destruct (a ?= b) eqn:Eab; try discriminate Hc.
  apply Z.compare_eq in Eab. split; [exact Eab|].
  symmetry in Hc. now apply string_compare_Eq.
Qed.

Lemma string_app_inv_head (p s t : string) : p +:+ s = p +:+ t -> s = t.
Proof.
  induction p as [|c p IH]; intros E.
  - now rewrite !string_app_nil in E.
  - rewrite !string_app_cons in E. injection E as E. now apply IH.
Qed.

Lemma strftime_minute_inj a b :
  valid_datetime a -> valid_datetime b ->
  strftime_minute a = strftime_minute b -> same_minute a b.
Proof.
  intros (Hy & Hm & Hd & Hh & Hmi & _) (Hy' & Hm' & Hd' & Hh' & Hmi' & _) E.
  unfold strftime_minute in E.
  apply zero_pad_app_inj in E; [|simpl; lia..]. destruct E as [Ey E].
  apply string_app_inv_head in E.
  apply zero_pad_app_inj in E; [|simpl; lia..]. destruct E as [Em E].
  apply string_app_inv_head in E.
  apply zero_pad_app_inj in E; [|simpl; lia..]. destruct E as [Ed E].
  apply string_app_inv_head in E.
  apply zero_pad_app_inj in E; [|simpl; lia..]. destruct E as [Eh E].
  apply string_app_inv_head in E.
  assert (E' : zero_pad 2 (minute a) +:+ "" = zero_pad 2 (minute b) +:+ "")
    by now rewrite E.
  apply zero_pad_app_inj in E'; [|simpl; lia..]. destruct E' as [Emi _].
  repeat split; assumption.
Qed.

Lemma strftime_minute_length now : String.length (strftime_minute now) = 16%nat.
Proof.
  unfold strftime_minute. rewrite !string_length_app, !zero_pad_length. reflexivity.
Qed.

Lemma strftime_compact_length now :
  String.length (strftime_compact now) = 15%nat.
Proof.
  unfold strftime_compact. rewrite !string_length_app, !zero_pad_length. reflexivity.
Qed.

Lemma strftime_compact_inj a b s t :
  valid_datetime a -> valid_datetime b ->
  strftime_compact a +:+ s = strftime_compact b +:+ t ->
  same_second a b /\ s = t.
Proof.
  intros (Hy & Hm & Hd & Hh & Hmi & Hs) (Hy' & Hm' & Hd' & Hh' & Hmi' & Hs') E.
  unfold strftime_compact in E. rewrite !string_app_assoc in E.
  apply zero_pad_app_inj in E; [|simpl; lia..]. destruct E as [Ey E].
  apply zero_pad_app_inj in E; [|simpl; lia..]. destruct E as [Em E].
  apply zero_pad_app_inj in E; [|simpl; lia..]. destruct E as [Ed E].
  apply string_app_inv_head in E.
  apply zero_pad_app_inj in E; [|simpl; lia..]. destruct E as [Eh E].
  apply zero_pad_app_inj in E; [|simpl; lia..]. destruct E as [Emi E].
  apply zero_pad_app_inj in E; [|simpl; lia..]. destruct E as [Es E].
  unfold same_second, same_minute. tauto.
Qed.

Lemma digit_not_slash n : digit n <> "/"%char.
Proof.
  intros E. apply (f_equal nat_of_ascii) in E. unfold digit in E.
  pose proof (Z.mod_pos_bound n 10 ltac:(lia)) as Hb.
  rewrite nat_ascii_embedding in E by lia.
  change (nat_of_ascii "/") with 47%nat in E. lia.
Qed.

Lemma path_join_relative dir c s :
  c <> "/"%char -> path_join dir (String c s) = dir +:+ "/" +:+ String c s.
Proof.
  intros Hc. unfold path_join.
  destruct c as [[] [] [] [] [] [] [] []]; try reflexivity.
  now destruct Hc.
Qed.

Lemma strftime_compact_head now :
  exists s, strftime_compact now = String (digit (year now / 10 / 10 / 10)) s.
Proof.
  unfold strftime_compact. cbn [zero_pad].
  rewrite !string_app_nil. unfold str1. rewrite !string_app_cons.
  eexists. reflexivity.
Qed.

Lemma submitted_report_eq f now_photo now st :
  submitted_report f now_photo now st
  = [("timestamp", VStr (strftime_minute now));
     ("address", VStr (address f));
     ("zipcode", VStr (zipcode f));
     ("description", VStr (description f));
     ("concerns", VStr (join ", " (concerns f)));
     ("type", VStr (source_type f));
     ("used", VStr (used f));
     ("symptoms", VStr (symptoms f));
     ("alert", VBool (alert_others f));
     ("photo_path",
      match snd (submission f now_photo now st) with
      | Some (path, _) => VStr path
      | None => VNone
      end)].
Proof.
  unfold submitted_report, submission. cbn [fst snd reports].
  now rewrite last_last.
Qed.

Lemma submitted_report_shows_form f now_photo now st :
  shows_form f now (submitted_report f now_photo now st).
Proof. rewrite submitted_report_eq. repeat split. Qed.

Lemma submission_reports f now_photo now st :
  reports (fst (submission f now_photo now st))
  = reports st ++ [submitted_report f now_photo now st].
Proof. rewrite submitted_report_eq. reflexivity. Qed.

(** The file of a photo is in the image folder, named by the second and
    the name of the upload. *)
Lemma photo_file_path f now_photo name bytes :
  photo f = Some (name, bytes) ->
  photo_file f now_photo
  = Some ("uploaded_images/" +:+ strftime_compact now_photo +:+ "_"
          +:+ name, bytes).
Proof.
  intros Hp. unfold photo_file. rewrite Hp. f_equal. f_equal.
  destruct (strftime_compact_head now_photo) as (s & Hs).
  rewrite Hs, string_app_cons.
  rewrite path_join_relative by apply digit_not_slash.
  reflexivity.
Qed.

Section SubmitFacts.

Context {os : Platform}.

(** The handler either raises, when the photo cannot be written, or
    leaves what [submission] describes. *)
Lemma report_tab_submit_cases f now_photo now st :
  (accepted (f, now_photo, now) = true
   /\ report_tab_submit f now_photo now st
      = Ok (submission f now_photo now st))
  \/ (accepted (f, now_photo, now) = false
      /\ exists photo_path bytes e,
           photo_file f now_photo = Some (photo_path, bytes)
           /\ write_file photo_path bytes = Raise e
           /\ report_tab_submit f now_photo now st = Raise e).
Proof.
  unfold report_tab_submit, accepted.
  destruct (photo_file f now_photo) as [[photo_path bytes]|];
    [|left; split; reflexivity].
  destruct (write_file photo_path bytes) as [[]|e] eqn:E.
  - left. split; reflexivity.
  - right. split; [reflexivity|]. now exists photo_path, bytes, e.
Qed.

Lemma submit_each_cons f np now subs st :
  submit_each ((f, np, now) :: subs) st
  = submit_each subs (match report_tab_submit f np now st with
                      | Ok (st', _) => st'
                      | Raise _ => st
                      end).
Proof. reflexivity. Qed.

Lemma submit_all_cons f np now subs st :
  submit_all ((f, np, now) :: subs) st
  = submit_all subs (fst (submission f np now st)).
Proof. reflexivity. Qed.

(** X1.  Submissions append to the store in the order they are made.  A
    submission whose photo cannot be written raises before anything is
    appended and leaves the store as it was; a submission without a photo
    always goes through.  After any number of submissions the store holds
    the reports it held, followed by one report for each submission that
    went through, each with the ten fields, the values of its form and the
    minute of its clock reading.  The uploader key is not touched. *)
Theorem submissions_append_in_call_order :
  forall (submissions : list (form * datetime * datetime))
         (st : session_state),
    uploader_key (submit_each submissions st) = uploader_key st
    /\ (exists new,
          reports (submit_each submissions st) = reports st ++ new
          /\ Forall2 (fun s r => shows_form (fst (fst s)) (snd s) r)
                     (List.filter accepted submissions) new)
    /\ (Forall (fun s => photo (fst (fst s)) = None) submissions ->
        List.filter accepted submissions = submissions
        /\ submit_each submissions st = submit_all submissions st).
Proof.
  intros subs st. split; [|split].
  - revert st. induction subs as [|[[f np] now] subs IH]; intros st;
      [reflexivity|].
    rewrite submit_each_cons.
    destruct (report_tab_submit_cases f np now st)
      as [[_ ->]|[_ (p & b & e & _ & _ & ->)]]; rewrite IH; reflexivity.
  - revert st. induction subs as [|[[f np] now] subs IH]; intros st.
    + exists []. rewrite app_nil_r. split; [reflexivity | constructor].
    + rewrite submit_each_cons. cbn [List.filter].
      destruct (report_tab_submit_cases f np now st)
        as [[-> ->]|[-> (p & b & e & _ & _ & ->)]]; [|apply IH].
      destruct (IH (fst (submission f np now st))) as (new & Hnew & Hall).
      exists (submitted_report f np now st :: new).
      rewrite submission_reports, <- app_assoc in Hnew.
      destruct (submission f np now st) as [st' w]. cbn [fst] in *.
      split; [exact Hnew|].
      constructor; [|exact Hall]. apply submitted_report_shows_form.
  - revert st. induction subs as [|[[f np] now] subs IH]; intros st Hall;
      [split; reflexivity|].
    inversion Hall as [|? ? Hp Hrest]; subst. cbn [fst] in Hp.
    assert (Hacc : accepted (f, np, now) = true)
      by (unfold accepted, photo_file; now rewrite Hp).
    rewrite submit_each_cons, submit_all_cons. cbn [List.filter].
    rewrite Hacc.
    destruct (report_tab_submit_cases f np now st)
      as [[_ ->]|[Hno _]]; [|congruence].
    destruct (submission f np now st) as [st' w] eqn:E. cbn [fst].
    destruct (IH st' Hrest) as [-> ->]. split; reflexivity.
Qed.

End SubmitFacts.

(** X2.  The time stamp of a submitted report is a text of 16 characters,
    the clock reading cut to the minute: two submissions get the same time
    stamp exactly when their clock readings agree up to the minute. *)
Theorem submitted_timestamp_is_the_minute :
  forall (f1 f2 : form) (photo1 photo2 now1 now2 : datetime)
         (st1 st2 : session_state),
    valid_datetime now1 -> valid_datetime now2 ->
    (exists s, field "timestamp" (submitted_report f1 photo1 now1 st1) = VStr s
               /\ String.length s = 16%nat)
    /\ (field "timestamp" (submitted_report f1 photo1 now1 st1)
        = field "timestamp" (submitted_report f2 photo2 now2 st2)
        <-> same_minute now1 now2).
Proof.
  intros f1 f2 p1 p2 now1 now2 st1 st2 H1 H2.
  rewrite !submitted_report_eq. cbn [field dict_get String.eqb Ascii.eqb
    Bool.eqb default from_option id].
  split.
  - eexists. split; [reflexivity | apply strftime_minute_length].
  - split.
    + intros E. apply strftime_minute_inj; [assumption..|]. congruence.
    + intros (Ey & Em & Ed & Eh & Emi). unfold strftime_minute.
      now rewrite Ey, Em, Ed, Eh, Emi.
Qed.

Section PhotoFacts.

Context {os : Platform}.

(** X3.  Without a photo the handler writes nothing, cannot raise, and
    records [None] as the photo path.  With a photo the bytes go to
    [uploaded_images/<YYYYMMDD_HHMMSS>_<name>]: when the write succeeds the
    handler appends the report, which records that path; when it raises,
    the handler raises the same exception and appends nothing.  Two photos
    go to the same path exactly when they have the same name and are
    submitted within the same second. *)
Theorem photo_path_is_stamped_to_the_second :
  (forall (f : form) (now_photo now : datetime) (st : session_state),
     photo f = None ->
     report_tab_submit f now_photo now st
     = Ok ({| reports := reports st ++ [submitted_report f now_photo now st];
              uploader_key := uploader_key st |}, None)
     /\ field "photo_path" (submitted_report f now_photo now st) = VNone)
  /\ (forall (f : form) (now_photo now : datetime) (st : session_state)
             (name bytes : string),
        photo f = Some (name, bytes) ->
        (write_file ("uploaded_images/" +:+ strftime_compact now_photo
                     +:+ "_" +:+ name) bytes = Ok tt ->
         report_tab_submit f now_photo now st
         = Ok ({| reports :=
                    reports st ++ [submitted_report f now_photo now st];
                  uploader_key := uploader_key st |},
               Some ("uploaded_images/" +:+ strftime_compact now_photo
                     +:+ "_" +:+ name, bytes))
         /\ field "photo_path" (submitted_report f now_photo now st)
            = VStr ("uploaded_images/" +:+ strftime_compact now_photo
                    +:+ "_" +:+ name))
        /\ forall e,
             write_file ("uploaded_images/" +:+ strftime_compact now_photo
                         +:+ "_" +:+ name) bytes = Raise e ->
             report_tab_submit f now_photo now st = Raise e)
  /\ forall (f1 f2 : form) (photo1 photo2 : datetime)
            (name1 bytes1 name2 bytes2 : string),
       valid_datetime photo1 -> valid_datetime photo2 ->
       photo f1 = Some (name1, bytes1) -> photo f2 = Some (name2, bytes2) ->
       (option_map fst (photo_file f1 photo1)
        = option_map fst (photo_file f2 photo2)
        <-> same_second photo1 photo2 /\ name1 = name2).
Proof.
  assert (Hstate : forall f np now st,
            submission f np now st
            = ({| reports := reports st ++ [submitted_report f np now st];
                  uploader_key := uploader_key st |},
               photo_file f np)).
  { intros f np now st. rewrite submitted_report_eq. reflexivity. }
  split; [|split].
  - intros f np now st Hp. split.
    + unfold report_tab_submit. rewrite Hstate. unfold photo_file.
      now rewrite Hp.
    + rewrite submitted_report_eq. unfold submission, photo_file.
      now rewrite Hp.
  - intros f np now st name bytes Hp.
    pose proof (photo_file_path f np name bytes Hp) as Hfile. split.
    + intros Hw. unfold report_tab_submit. rewrite Hstate, Hfile, Hw.
      split; [reflexivity|]. rewrite submitted_report_eq.
      unfold submission. rewrite Hfile. reflexivity.
    + intros e Hw. unfold report_tab_submit. now rewrite Hfile, Hw.
  - intros f1 f2 p1 p2 n1 b1 n2 b2 H1 H2 Hp1 Hp2.
    rewrite (photo_file_path f1 p1 n1 b1 Hp1),
            (photo_file_path f2 p2 n2 b2 Hp2).
    cbn [option_map fst]. split.
    + intros E.
      assert (E' : "uploaded_images/" +:+ strftime_compact p1 +:+ "_" +:+ n1
                   = "uploaded_images/" +:+ strftime_compact p2 +:+ "_"
                     +:+ n2) by congruence.
      clear E. rename E' into E. apply string_app_inv_head in E.
      apply strftime_compact_inj in E; [|assumption..].
      destruct E as [Hs E]. split; [exact Hs|].
      now apply string_app_inv_head in E.
    + intros [((Ey & Em & Ed & Eh & Emi) & Es) ->]. unfold strftime_compact.
      now rewrite Ey, Em, Ed, Eh, Emi, Es.
Qed.

End PhotoFacts.

(** ** Uploads and runs *)

Section UploadFacts.

Context {lib : Collaborators}.

Lemma required_present_iff cols :
  List.filter (fun col => negb (mem col cols)) required_columns = []
  <-> forall c, In c required_columns -> In c cols.
Proof.
  split.
  - intros E c Hc. destruct (mem c cols) eqn:Hm; [now apply mem_In|].
    assert (Hin : In c (List.filter (fun col => negb (mem col cols))
                                    required_columns))
      by (apply filter_In; split; [assumption | now rewrite Hm]).
    rewrite E in Hin. destruct Hin.
  - intros Hall.
    destruct (List.filter _ required_columns) as [|c l] eqn:E; [reflexivity|].
    assert (Hc : In c (c :: l)) by now left.
    rewrite <- E in Hc. apply missing_columns_spec in Hc.
    destruct Hc as [Hreq Hnot]. now destruct Hnot; apply Hall.
Qed.

(** The three ways an upload ends. *)
Lemma report_tab_upload_outcome uploaded_file st :
  (exists e, read_csv uploaded_file = Raise e
             /\ report_tab_upload uploaded_file st = (ProcessingError e, st))
  \/ (exists df c l,
        read_csv uploaded_file = Ok df
        /\ List.filter (fun col => negb (mem col (columns df)))
                       required_columns = c :: l
        /\ report_tab_upload uploaded_file st = (MissingColumns (c :: l), st))
  \/ (exists df,
        read_csv uploaded_file = Ok df
        /\ (forall c, In c required_columns -> In c (columns df))
        /\ report_tab_upload uploaded_file st
           = (Merged,
              {| reports := reports st ++ map imported_row (rows df);
                 uploader_key := S (uploader_key st) |})).
Proof.
  unfold report_tab_upload, upload_body.
  destruct (read_csv uploaded_file) as [df|e] eqn:Hread; cbn [rbind].
  - right.
    destruct (List.filter _ required_columns) as [|c l] eqn:E.
    + right. exists df. split; [reflexivity|].
      pose proof (proj1 (required_present_iff (columns df)) E) as Hall.
      split; [exact Hall|].
      rewrite (getitem_Ok df "timestamp") by (apply Hall; simpl; tauto).
      cbn [rbind]. rewrite to_datetime_coerce. cbn [rbind].
      unfold setitem, to_dict_records, update_key. cbn [rows reports
        uploader_key].
      rewrite map_map, zip_set_map. reflexivity.
    + left. exists df, c, l. auto.
  - left. exists e. auto.
Qed.

(** X4.  An upload ends in one of three ways, and only a merge changes the
    session state.  The handler shows a processing error exactly when the
    reader raises, and then shows the reader's exception; nothing else in
    the handler raises.  Whenever the outcome is not a merge the session
    state is what it was; on a merge the uploader key goes up by one and
    the rows of the frame are appended. *)
Theorem upload_changes_state_only_on_merge :
  forall (uploaded_file : string) (st : session_state),
    (forall e, fst (report_tab_upload uploaded_file st) = ProcessingError e
               <-> read_csv uploaded_file = Raise e)
    /\ (fst (report_tab_upload uploaded_file st) <> Merged ->
        snd (report_tab_upload uploaded_file st) = st)
    /\ (fst (report_tab_upload uploaded_file st) = Merged ->
        uploader_key (snd (report_tab_upload uploaded_file st))
        = S (uploader_key st)
        /\ exists df,
             read_csv uploaded_file = Ok df
             /\ reports (snd (report_tab_upload uploaded_file st))
                = reports st ++ map imported_row (rows df)).
Proof.
  intros file st.
  destruct (report_tab_upload_outcome file st)
    as [(e & Hread & ->)|[(df & c & l & Hread & _ & ->)|(df & Hread & _ & ->)]];
    cbn [fst snd reports uploader_key].
  - split; [|split].
    + intros e'. rewrite Hread. split; congruence.
    + reflexivity.
    + discriminate.
  - split; [|split].
    + intros e'. rewrite Hread. split; discriminate.
    + reflexivity.
    + discriminate.
  - split; [|split].
    + intros e'. rewrite Hread. split; discriminate.
    + intros H. now destruct H.
    + intros _. split; [reflexivity|]. now exists df.
Qed.

Lemma imported_row_keys df r :
  wf_frame df -> In "timestamp" (columns df) -> In r (rows df) ->
  keys (imported_row r) = columns df.
Proof.
  intros [_ Hrows] Hts Hr. rewrite List.Forall_forall in Hrows.
  pose proof (Hrows r Hr) as Hk. unfold imported_row.
  rewrite keys_dict_set; [exact Hk | now rewrite Hk].
Qed.

Lemma coerce_timestamp_cases v :
  coerce_timestamp v = VNaT \/ exists ns, coerce_timestamp v = VTimestamp ns.
Proof.
  unfold coerce_timestamp. destruct (isna v); [now left|].
  destruct (parse_datetime v) as [ns|]; [right; now exists ns | now left].
Qed.

(** X5.  A merged upload stores every column of the file, not only the ten
    required ones: each appended report has the labels of the frame, in the
    order of the file, and its time stamp cell is a time stamp or [NaT]. *)
Theorem upload_keeps_every_column :
  forall (uploaded_file : string) (df : DataFrame) (st : session_state),
    read_csv uploaded_file = Ok df ->
    (forall c, In c required_columns -> In c (columns df)) ->
    exists new,
      reports (snd (report_tab_upload uploaded_file st)) = reports st ++ new
      /\ length new = length (rows df)
      /\ Forall2 (fun r d =>
                    keys d = columns df
                    /\ (forall c, c <> "timestamp" -> field c d = field c r)
                    /\ (field "timestamp" d = VNaT
                        \/ exists ns, field "timestamp" d = VTimestamp ns))
                 (rows df) new.
Proof.
  intros file df st Hread Hall.
  destruct (report_tab_upload_outcome file st)
    as [(e & Hread' & _)|[(df' & c & l & Hread' & E & _)
                          |(df' & Hread' & _ & Hrun)]].
  - congruence.
  - assert (df' = df) by congruence. subst df'.
    apply required_present_iff in Hall. congruence.
  - assert (df' = df) by congruence. subst df'.
    rewrite Hrun. cbn [snd reports].
    exists (map imported_row (rows df)).
    split; [reflexivity|]. split; [apply length_map|].
    pose proof (read_csv_wf _ _ Hread) as Hwf.
    assert (Hts : In "timestamp" (columns df)) by (apply Hall; simpl; tauto).
    assert (Hrows : forall r, In r (rows df) -> In r (rows df)) by auto.
    revert Hrows. generalize (rows df) at 1 3 4. intros rs.
    induction rs as [|r rs IH]; intros Hin; [constructor|].
    cbn [map]. constructor.
    + split; [|split].
      * apply (imported_row_keys df); auto. apply Hin. now left.
      * intros c Hc. unfold imported_row. now apply field_set_ne.
      * unfold imported_row. rewrite field_set_eq.
        apply coerce_timestamp_cases.
    + apply IH. intros r' Hr'. apply Hin. now right.
Qed.

(** X6.  Every report in a store the page can hold has the ten required
    fields, and its time stamp cell is the text of a clock reading, a time
    stamp or [NaT]; so it is missing or parses. *)
Theorem stored_reports_are_well_formed :
  forall st : session_state,
    reachable st ->
    Forall (fun d => has_required d = true
                     /\ stamped (field "timestamp" d)
                     /\ timestamp_ok d)
           (reports st).
Proof.
  induction 1 as [|file st Hst IH|f now_photo now st Hnow Hst IH].
  - constructor.
  - destruct (report_tab_upload_outcome file st)
      as [(e & _ & ->)|[(df & c & l & _ & _ & ->)|(df & Hread & Hall & ->)]];
      cbn [snd reports]; try assumption.
    apply Forall_app. split; [assumption|].
    apply Forall_map. apply List.Forall_forall. intros r Hr.
    split; [|split].
    + apply (imported_row_required df); auto.
      now apply read_csv_wf in Hread.
    + unfold imported_row. rewrite field_set_eq. unfold stamped.
      destruct (coerce_timestamp_cases (field "timestamp" r))
        as [->|(ns & ->)]; [now right; right | right; left; now exists ns].
    + apply imported_row_timestamp_ok.
  - unfold submission. cbn [fst reports].
    apply Forall_app. split; [assumption|].
    constructor; [|constructor]. split; [reflexivity|]. split.
    + left. now exists now.
    + right. cbn. now apply parse_datetime_own_format.
Qed.

End UploadFacts.

Section RunFacts.

Context {lib : Collaborators} {os : Platform}.

Lemma render_views_upload c up i st view :
  render_views c up i st = Ok view -> upload_view view = up.
Proof.
  unfold render_views.
  destruct (gallery_tab_render _ _ _ st) as [g|e]; [|discriminate].
  cbn [rbind]. destruct (trends_tab _ st) as [tr|e]; [|discriminate].
  cbn [rbind]. destruct (trends_top_zips st) as [top|e]; [|discriminate].
  cbn [rbind]. destruct (ai_analysis_tab c _ _ st) as [ai|e];
    [|discriminate].
  cbn [rbind]. now intros [= <-].
Qed.

(** X7.  A run of the page only appends to the store, whether it renders
    or ends with an exception: the reports the store held stay where they
    were, the rows of a merged upload come next, and the submitted report,
    if any, comes last.  The uploader key goes up by one on a merged upload
    and stays otherwise.  When the run renders, the upload message tells
    whether the upload was merged, and a submitted form has its report in
    the store. *)
Theorem run_appends_upload_then_submission :
  forall (environ_key : option string) (i : interaction)
         (st : session_state),
    exists imported new,
      reports (fst (run_page environ_key i st))
      = reports st ++ imported ++ new
      /\ (uploader_key (fst (run_page environ_key i st)) = uploader_key st
          /\ imported = []
          \/ uploader_key (fst (run_page environ_key i st))
             = S (uploader_key st)
             /\ exists file df,
                  uploaded_file i = Some file
                  /\ read_csv file = Ok df
                  /\ imported = map imported_row (rows df))
      /\ (new = []
          \/ exists f now_photo now r,
               submitted i = Some (f, now_photo, now)
               /\ new = [r] /\ shows_form f now r)
      /\ forall view,
           snd (run_page environ_key i st) = Ok view ->
           (upload_view view = Some Merged
            <-> uploader_key (fst (run_page environ_key i st))
                = S (uploader_key st))
           /\ forall f now_photo now,
                submitted i = Some (f, now_photo, now) ->
                exists r, new = [r] /\ shows_form f now r.
Proof.
  intros key i st. unfold run_page.
  assert (Hstop : forall e : exn,
    exists imported new,
      reports (fst (st, @Raise page_view e)) = reports st ++ imported ++ new
      /\ (uploader_key (fst (st, @Raise page_view e)) = uploader_key st
          /\ imported = []
          \/ uploader_key (fst (st, @Raise page_view e))
             = S (uploader_key st)
             /\ exists file df,
                  uploaded_file i = Some file
                  /\ read_csv file = Ok df
                  /\ imported = map imported_row (rows df))
      /\ (new = []
          \/ exists f now_photo now r,
               submitted i = Some (f, now_photo, now)
               /\ new = [r] /\ shows_form f now r)
      /\ forall view,
           snd (st, @Raise page_view e) = Ok view ->
           (upload_view view = Some Merged
            <-> uploader_key (fst (st, @Raise page_view e))
                = S (uploader_key st))
           /\ forall f now_photo now,
                submitted i = Some (f, now_photo, now) ->
                exists r, new = [r] /\ shows_form f now r).
  { intros e. exists [], []. cbn [fst snd]. rewrite !app_nil_r.
    split; [reflexivity|]. split; [left; split; reflexivity|].
    split; [now left | discriminate]. }
  destruct (OpenAI key key) as [c|e]; [|apply Hstop].
  destruct (makedirs IMAGE_DIR) as [[]|e]; [|apply Hstop]. clear Hstop.
  set (up := match uploaded_file i with
             | Some file =>
                 let '(m, st0) := report_tab_upload file st in (Some m, st0)
             | None => (None, st)
             end).
  assert (Hup : exists imported,
            reports (snd up) = reports st ++ imported
            /\ (fst up <> Some Merged
                /\ uploader_key (snd up) = uploader_key st /\ imported = []
                \/ fst up = Some Merged
                   /\ uploader_key (snd up) = S (uploader_key st)
                   /\ exists file df,
                        uploaded_file i = Some file
                        /\ read_csv file = Ok df
                        /\ imported = map imported_row (rows df))).
  { subst up. destruct (uploaded_file i) as [file|].
    - destruct (report_tab_upload_outcome file st)
        as [(e & _ & ->)|[(df & c0 & l & _ & _ & ->)|(df & Hread & _ & ->)]];
        cbn [fst snd reports uploader_key].
      + exists []. rewrite app_nil_r. split; [reflexivity|]. left.
        repeat split; congruence.
      + exists []. rewrite app_nil_r. split; [reflexivity|]. left.
        repeat split; congruence.
      + eexists. split; [reflexivity|]. right.
        split; [reflexivity|]. split; [reflexivity|]. now exists file, df.
    - exists []. cbn [fst snd]. rewrite app_nil_r. split; [reflexivity|].
      left. repeat split; congruence. }
  destruct up as [m st1]. cbn [fst snd] in Hup.
  destruct Hup as (imported & Himp & Hcase).
  assert (Hkeys : forall st2 : session_state,
            uploader_key st2 = uploader_key st1 ->
            (uploader_key st2 = uploader_key st /\ imported = []
             \/ uploader_key st2 = S (uploader_key st)
                /\ exists file df,
                     uploaded_file i = Some file
                     /\ read_csv file = Ok df
                     /\ imported = map imported_row (rows df))
            /\ (m = Some Merged <-> uploader_key st2 = S (uploader_key st))).
  { intros st2 ->.
    destruct Hcase as [(Hm & Hk & ->)|(Hm & Hk & Hfile)]; rewrite Hk.
    - split; [now left|]. split; [congruence | lia].
    - split; [right; split; [reflexivity | exact Hfile]|]. now split. }
  destruct (submitted i) as [[[f np] now]|] eqn:Es.
  - destruct (report_tab_submit_cases f np now st1)
      as [[_ ->]|[_ (p & b & e & _ & _ & ->)]].
    + pose proof (submission_reports f np now st1) as Hrep.
      assert (Hk : uploader_key (fst (submission f np now st1))
                   = uploader_key st1) by reflexivity.
      destruct (submission f np now st1) as [st2 w]. cbn [fst snd] in *.
      destruct (Hkeys st2 Hk) as [Hkey Hmerged].
      exists imported, [submitted_report f np now st1].
      rewrite Hrep, Himp, <- app_assoc.
      split; [reflexivity|]. split; [exact Hkey|]. split.
      * right. exists f, np, now, (submitted_report f np now st1).
        split; [reflexivity|]. split; [reflexivity|].
        apply submitted_report_shows_form.
      * intros view Hview. apply render_views_upload in Hview.
        rewrite Hview. split; [exact Hmerged|].
        intros f' np' now' [= <- <- <-]. eexists. split; [reflexivity|].
        apply submitted_report_shows_form.
    + cbn [fst snd]. destruct (Hkeys st1 eq_refl) as [Hkey _].
      exists imported, []. rewrite app_nil_r.
      split; [exact Himp|]. split; [exact Hkey|].
      split; [now left | discriminate].
  - cbn [fst snd]. destruct (Hkeys st1 eq_refl) as [Hkey Hmerged].
    exists imported, []. rewrite app_nil_r.
    split; [exact Himp|]. split; [exact Hkey|]. split; [now left|].
    intros view Hview. apply render_views_upload in Hview.
    rewrite Hview. split; [exact Hmerged | discriminate].
Qed.

End RunFacts.

(** ** The gallery's choices and grid *)

Lemma unique_In v vs : In v (unique vs) <-> In v vs.
Proof.
  induction vs as [|x vs IH]; [reflexivity|]. cbn [unique]. split.
  - intros [->|H]; [now left|]. apply filter_In in H. right. now apply IH.
  - intros [->|H]; [now left|].
    destruct (decide (v = x)) as [->|Hne]; [now left|].
    right. apply filter_In. split; [now apply IH|].
    now rewrite bool_decide_false.
Qed.

Lemma NoDup_filter_list {A} (p : A -> bool) (l : list A) :
  List.NoDup l -> List.NoDup (List.filter p l).
Proof.
  induction 1 as [|x l Hx Hl IH]; [constructor|]. cbn [List.filter].
  destruct (p x); [|exact IH]. constructor; [|exact IH].
  intros H. apply filter_In in H. now destruct H.
Qed.

Lemma unique_NoDup vs : List.NoDup (unique vs).
Proof.
  induction vs as [|x vs IH]; [constructor|]. cbn [unique]. constructor.
  - intros H. apply filter_In in H. destruct H as [_ H].
    now rewrite bool_decide_true in H.
  - now apply NoDup_filter_list.
Qed.

Lemma insert_sorted_perm s l : Permutation (insert_sorted s l) (s :: l).
Proof.
  induction l as [|t l IH]; [reflexivity|]. cbn [insert_sorted].
  destruct (String.leb s t); [reflexivity|].
  rewrite IH. apply perm_swap.
Qed.

Lemma sorted_perm l : Permutation (sorted l) l.
Proof.
  induction l as [|s l IH]; [reflexivity|]. cbn [sorted fold_right].
  fold (sorted l). rewrite insert_sorted_perm. now constructor.
Qed.

Lemma string_leb_cases s t :
  String.leb s t = true <-> String.compare s t = Lt \/ s = t.
Proof.
  unfold String.leb. destruct (String.compare s t) eqn:E.
  - apply string_compare_Eq in E. tauto.
  - tauto.
  - split; [discriminate|]. intros [H| ->]; [discriminate|].
    now rewrite string_compare_refl in E.
Qed.

Lemma string_leb_false s t :
  String.leb s t = false -> String.compare t s = Lt.
Proof.
  unfold String.leb. rewrite (String.compare_antisym t s).
  destruct (String.compare s t); try discriminate. reflexivity.
Qed.

Lemma string_leb_trans s t u :
  String.leb s t = true -> String.leb t u = true -> String.leb s u = true.
Proof.
  rewrite !string_leb_cases. intros [H1| ->] [H2| ->]; auto.
  left. now apply (string_compare_trans s t u).
Qed.

Lemma insert_sorted_sorted s l :
  StronglySorted (fun a b => String.leb a b = true) l ->
  StronglySorted (fun a b => String.leb a b = true) (insert_sorted s l).
Proof.
  induction 1 as [|t l Hl IH Ht]; [repeat constructor|].
  cbn [insert_sorted]. destruct (String.leb s t) eqn:E.
  - constructor; [now constructor|]. constructor; [exact E|].
    eapply List.Forall_impl; [|exact Ht]. intros u Hu.
    now apply (string_leb_trans s t u).
  - constructor; [exact IH|].
    apply (Permutation_Forall (Permutation_sym (insert_sorted_perm s l))).
    constructor; [|exact Ht].
    apply string_leb_cases. left. now apply string_leb_false.
Qed.

Lemma sorted_sorted l :
  StronglySorted (fun a b => String.leb a b = true) (sorted l).
Proof.
  induction l as [|s l IH]; [constructor|]. cbn [sorted fold_right].
  now apply insert_sorted_sorted.
Qed.

(** Distinct texts come out of [sorted] in strictly ascending order. *)
Lemma sorted_strict l :
  List.NoDup l ->
  StronglySorted (fun a b => String.compare a b = Lt) (sorted l).
Proof.
  intros Hnd.
  assert (Hnd' : List.NoDup (sorted l))
    by (apply (Permutation_NoDup (Permutation_sym (sorted_perm l))), Hnd).
  pose proof (sorted_sorted l) as Hs. revert Hnd'.
  induction Hs as [|t l' Hl IH Ht]; intros Hnd'; [constructor|].
  inversion Hnd' as [|? ? Hnot Hrest]; subst.
  constructor; [now apply IH|].
  apply List.Forall_forall. intros u Hu.
  rewrite List.Forall_forall in Ht. specialize (Ht u Hu).
  apply string_leb_cases in Ht. destruct Ht as [Ht| ->]; [exact Ht|].
  now destruct Hnot.
Qed.

Lemma NoDup_map_inj {A B} (f : A -> B) l :
  (forall a b, In a l -> In b l -> f a = f b -> a = b) ->
  List.NoDup l -> List.NoDup (map f l).
Proof.
  intros Hinj. induction 1 as [|x l Hx Hl IH]; [constructor|].
  cbn [map]. constructor.
  - intros H. apply in_map_iff in H. destruct H as (y & E & Hy).
    assert (y = x) by (apply Hinj; [now right | now left | exact E]).
    now subst y.
  - apply IH. intros a b Ha Hb. apply Hinj; now right.
Qed.

Lemma dropna_texts {A} (g : A -> string) l :
  dropna (map (fun d => VStr (g d)) l) = map (fun d => VStr (g d)) l.
Proof.
  unfold dropna. induction l as [|d l IH]; [reflexivity|].
  cbn [map List.filter isna negb]. now rewrite IH.
Qed.

Lemma py_eq_texts a b : py_eq (VStr a) (VStr b) = String.eqb a b.
Proof.
  unfold py_eq. cbn [isna negb andb].
  destruct (String.eqb_spec a b) as [->|Hne].
  - now rewrite bool_decide_true.
  - rewrite bool_decide_false; [reflexivity | congruence].
Qed.

Section GalleryChoices.

Context {lib : Collaborators}.

Lemma gallery_zip_options_rows st :
  Forall (fun d => has_required d = true) (reports st) ->
  reports st <> [] ->
  gallery_zip_options st
  = Ok (Some ("All" :: sorted (map py_str (unique (dropna
          (map (fun d => VStr (py_str (field "zipcode" d)))
               (reports st))))))).
Proof.
  intros Hall Hne. unfold gallery_zip_options.
  rewrite (empty_store_frame _ Hall Hne).
  assert (Hz : In "zipcode" (union_keys (reports st)))
    by (apply store_columns; simpl; tauto).
  assert (Ht : In "timestamp" (union_keys (reports st)))
    by (apply store_columns; simpl; tauto).
  rewrite getitem_Ok by exact Hz. cbn [rbind].
  rewrite map_map.
  rewrite (setitem_present _ "zipcode"
             (fun r => VStr (py_str (field "zipcode" r)))) by exact Hz.
  rewrite getitem_Ok by exact Ht. cbn [rbind].
  rewrite to_datetime_coerce. cbn [rbind]. rewrite map_map.
  rewrite (setitem_present _ "timestamp"
             (fun r => coerce_timestamp (field "timestamp" r))) by exact Ht.
  rewrite getitem_Ok by exact Hz.
  cbn [rbind rows columns DataFrame_of_records]. rewrite !map_map.
  do 7 f_equal. apply map_ext. intros d.
  rewrite field_set_ne by discriminate. rewrite field_set_eq.
  now rewrite field_cells by assumption.
Qed.

Lemma gallery_row_zip_field cols d :
  field "zipcode" (gallery_row cols d) = VStr (py_str (field "zipcode" d)).
Proof. unfold field at 1. now rewrite gallery_row_zipcode. Qed.

Lemma gallery_rows_selected z st d :
  In d (reports st) -> py_str (field "zipcode" d) = z ->
  In (gallery_row (union_keys (reports st)) d) (gallery_rows z st).
Proof.
  intros Hd Hz. unfold gallery_rows.
  destruct (String.eqb z "All"); [now apply in_map|].
  apply filter_In. split; [now apply in_map|].
  rewrite gallery_row_zip_field, py_eq_texts. now apply String.eqb_eq.
Qed.

(** X8.  On a store that is not empty, and in which integer and missing
    zip codes do not occur together, the gallery offers "All" followed by
    the zip codes of the stored reports, written as text, each once and in
    ascending order; a missing zip code is offered as its text [nan].
    Every choice offered shows at least one report. *)
Theorem gallery_choices_are_the_stored_zip_codes :
  forall st : session_state,
    reachable st ->
    reports st <> [] ->
    zip_codes_print_as_stored st ->
    exists zs,
      gallery_zip_options st = Ok (Some ("All" :: zs))
      /\ StronglySorted (fun a b => String.compare a b = Lt) zs
      /\ (forall z, In z zs <->
                    exists d, In d (reports st)
                              /\ py_str (field "zipcode" d) = z)
      /\ (forall d, In d (reports st) -> isna (field "zipcode" d) = true ->
            field "zipcode" d <> VNaT -> field "zipcode" d <> VNone ->
            In "nan" zs)
      /\ (forall z o, In z zs ->
            exists rs, gallery_tab z o st = Ok (Some rs) /\ rs <> []).
Proof.
  intros st Hreach Hne _.
  pose proof (reachable_required st Hreach) as Hall.
  eexists. split; [now apply gallery_zip_options_rows|].
  rewrite dropna_texts.
  assert (Hin : forall z,
            In z (sorted (map py_str (unique
                    (map (fun d => VStr (py_str (field "zipcode" d)))
                         (reports st)))))
            <-> exists d, In d (reports st)
                          /\ py_str (field "zipcode" d) = z).
  { intros z. split.
    - intros H. apply (Permutation_in z (sorted_perm _)) in H.
      apply in_map_iff in H. destruct H as (v & <- & Hv).
      apply (proj1 (unique_In _ _)) in Hv. apply in_map_iff in Hv.
      destruct Hv as (d & <- & Hd). now exists d.
    - intros (d & Hd & <-).
      apply (Permutation_in _ (Permutation_sym (sorted_perm _))).
      apply in_map_iff. exists (VStr (py_str (field "zipcode" d))).
      split; [reflexivity|]. apply (proj2 (unique_In _ _)).
      apply in_map_iff. now exists d. }
  split; [|split; [exact Hin|split]].
  - apply sorted_strict. apply NoDup_map_inj; [|apply unique_NoDup].
    intros a b Ha Hb E. apply (proj1 (unique_In _ _)) in Ha, Hb.
    apply in_map_iff in Ha, Hb.
    destruct Ha as (da & <- & _), Hb as (db & <- & _).
    cbn [py_str] in E. now rewrite E.
  - intros d Hd Hna Hnat Hnone. apply Hin. exists d. split; [exact Hd|].
    destruct (field "zipcode" d); try discriminate Hna; try reflexivity;
      congruence.
  - intros z o Hz. apply Hin in Hz. destruct Hz as (d & Hd & Hzd).
    eexists. split; [now apply gallery_tab_rows|].
    intros E.
    pose proof (gallery_rows_selected z st d Hd Hzd) as Hrow.
    pose proof (gather_perm [] _ _ (gallery_positions_perm z o st)) as Hp.
    rewrite E in Hp. apply Permutation_nil in Hp.
    rewrite Hp in Hrow. destruct Hrow.
Qed.

End GalleryChoices.

(** *** The grid *)

Lemma list_ind3 {A} (P : list A -> Prop) :
  P [] -> (forall a, P [a]) -> (forall a b, P [a; b]) ->
  (forall a b c l, P l -> P (a :: b :: c :: l)) ->
  forall l, P l.
Proof.
  intros H0 H1 H2 H3. fix IH 1.
  intros [|a [|b [|c l]]];
    [exact H0 | apply H1 | apply H2 | apply H3; apply IH].
Qed.

Lemma range_step_three n :
  range_step (S (S (S n))) 3
  = 0%nat :: map (fun i => (i + 3)%nat) (range_step n 3).
Proof.
  unfold range_step.
  replace (S (S (S n)) + 3 - 1)%nat with ((n + 3 - 1) + 1 * 3)%nat by lia.
  rewrite Nat.div_add by lia.
  rewrite Nat.add_1_r. cbn [seq map]. f_equal.
  rewrite <- seq_shift, !map_map. apply map_ext. intros k. lia.
Qed.

Lemma grid_rows_three (a b c : pydict) l :
  grid_rows (a :: b :: c :: l) = [a; b; c] :: grid_rows l.
Proof.
  unfold grid_rows. cbn [length]. rewrite range_step_three.
  cbn [map]. f_equal. rewrite map_map. apply map_ext. intros i.
  unfold slice. replace (i + 3 + 3 - (i + 3))%nat with (i + 3 - i)%nat by lia.
  f_equal. replace (i + 3)%nat with (S (S (S i))) by lia. reflexivity.
Qed.

(** X9.  The grid view cuts the reports into rows without losing or
    reordering any: the rows put end to end are the reports, every row holds
    between one and three reports (so no row asks for zero columns), every
    row but the last holds three, and there are [ceil(n / 3)] rows. *)
Theorem grid_rows_partition :
  forall reports : list pydict,
    concat (grid_rows reports) = reports
    /\ Forall (fun row => (1 <= length row <= 3)%nat) (grid_rows reports)
    /\ Forall (fun row => length row = 3%nat) (removelast (grid_rows reports))
    /\ length (grid_rows reports) = ((length reports + 2) / 3)%nat.
Proof.
  intros reports. induction reports as [|a|a b|a b c l IH] using list_ind3.
  - repeat split; constructor.
  - repeat split; repeat constructor.
  - repeat split; repeat constructor.
  - destruct IH as (Hcat & Hlen & Hfull & Hn).
    rewrite grid_rows_three. split; [|split; [|split]].
    + cbn [concat app]. now rewrite Hcat.
    + constructor; [simpl; lia | exact Hlen].
    + destruct (grid_rows l) as [|row rest] eqn:E; [constructor|].
      change (removelast ([a; b; c] :: row :: rest))
        with ([a; b; c] :: removelast (row :: rest)).
      constructor; [reflexivity | exact Hfull].
    + cbn [length]. rewrite Hn.
      replace (S (S (S (length l))) + 2)%nat
        with ((length l + 2) + 1 * 3)%nat by lia.
      rewrite Nat.div_add by lia. lia.
Qed.

(** ** The table *)

Lemma add_key_NoDup seen k : List.NoDup seen -> List.NoDup (add_key seen k).
Proof.
  intros Hnd. unfold add_key. destruct (mem k seen) eqn:E; [exact Hnd|].
  apply mem_false in E. apply List.NoDup_app; [exact Hnd | | ].
  - repeat constructor. intros [].
  - intros x Hx [<-|[]]. now destruct E.
Qed.

Lemma fold_add_key_NoDup ks : forall seen,
  List.NoDup seen -> List.NoDup (fold_left add_key ks seen).
Proof.
  induction ks as [|k ks IH]; intros seen Hnd; [exact Hnd|].
  cbn [fold_left]. apply IH. now apply add_key_NoDup.
Qed.

Lemma union_keys_NoDup ds : List.NoDup (union_keys ds).
Proof.
  unfold union_keys.
  assert (H : forall seen, List.NoDup seen ->
            List.NoDup (fold_left
                          (fun seen d => fold_left add_key (keys d) seen)
                          ds seen)).
  { induction ds as [|d ds IH]; intros seen Hnd; [exact Hnd|].
    cbn [fold_left]. apply IH. now apply fold_add_key_NoDup. }
  apply H. constructor.
Qed.

Lemma NoDup_of_list {A} (l : list A) : List.NoDup l -> NoDup l.
Proof.
  induction 1 as [|x l Hx Hl IH]; constructor; [|exact IH].
  now rewrite list_elem_of_In.
Qed.

Lemma keys_filter_cells (g : string -> value) (p : string -> bool) cols :
  keys (List.filter (fun kv => p (fst kv)) (map (fun c => (c, g c)) cols))
  = List.filter p cols.
Proof.
  unfold keys. induction cols as [|c cols IH]; [reflexivity|].
  cbn [map List.filter fst]. destruct (p c); cbn [map fst]; now rewrite IH.
Qed.

Lemma table_tab_rows_length st :
  length (rows (fst (table_tab st))) = length (reports st).
Proof.
  unfold table_tab, drop_columns, DataFrame_of_records.
  cbn [fst rows]. now rewrite !length_map.
Qed.

(** X10.  The table shows one row per stored report and every field that
    some report has, except the photo path, which it never shows; leaving
    the photo path out does not fail when no report has one.  Each row has
    one cell per column. *)
Theorem table_drops_only_the_photo_path :
  forall st : session_state,
    wf_frame (fst (table_tab st))
    /\ length (rows (fst (table_tab st))) = length (reports st)
    /\ forall c, In c (columns (fst (table_tab st)))
                 <-> c <> "photo_path"
                     /\ exists d, In d (reports st) /\ In c (keys d).
Proof.
  intros st. unfold table_tab, drop_columns, DataFrame_of_records.
  cbn [fst columns rows]. split; [|split].
  - split; cbn [columns rows].
    + apply NoDup_of_list, NoDup_filter_list, union_keys_NoDup.
    + rewrite map_map. apply Forall_map. apply List.Forall_forall.
      intros d _.
      apply (keys_filter_cells (fun c => field c d)
               (fun c => negb (mem c ["photo_path"]))).
  - apply (table_tab_rows_length st).
  - intros c. rewrite filter_In, union_keys_In, negb_true_iff, mem_false.
    cbn [In]. split.
    + intros [H Hne]. split; [|exact H]. intros ->. apply Hne. now left.
    + intros [Hne H]. split; [exact H|]. intros [E|[]]. now apply Hne.
Qed.

(** ** Totals per zip code *)

Lemma total_in_above z t :
  Forall (fun b => value_compare z (fst b) = Lt) t -> total_in z t = 0.
Proof.
  induction 1 as [|[k n] t Hk Ht IH]; cbn [total_in]; [reflexivity|].
  case_bool_decide as E; [|exact IH].
  subst k. cbn [fst] in Hk.
  now rewrite (proj2 (value_compare_eq z z) eq_refl) in Hk.
Qed.

Lemma add_total_Forall (P : value -> Prop) k n t :
  P k -> Forall (fun b => P (fst b)) t ->
  Forall (fun b => P (fst b)) (add_total k n t).
Proof.
  intros HP. induction 1 as [|[k' m] t Hk Ht IH]; cbn [add_total].
  - now repeat constructor.
  - destruct (value_compare k k'); repeat constructor; assumption.
Qed.

Lemma add_total_sorted k n t :
  totals_sorted t -> totals_sorted (add_total k n t).
Proof.
  unfold totals_sorted.
  induction 1 as [|[k' m] t Ht IH Hk]; cbn [add_total].
  - constructor; constructor.
  - destruct (value_compare k k') eqn:E.
    + apply value_compare_eq in E. subst k'. now constructor.
    + constructor; [now constructor|]. constructor; [exact E|].
      eapply List.Forall_impl; [|exact Hk]. cbn [fst]. intros b Hb.
      now apply (value_compare_trans k k').
    + constructor; [assumption|].
      apply (add_total_Forall (fun x => value_compare k' x = Lt));
        [|exact Hk].
      rewrite value_compare_antisym, E. reflexivity.
Qed.

Lemma total_in_add_total k n z t :
  totals_sorted t ->
  total_in z (add_total k n t)
  = (if bool_decide (k = z) then n else 0) + total_in z t.
Proof.
  unfold totals_sorted.
  induction 1 as [|[k0 n0] t Ht IH Hk]; cbn [add_total total_in].
  - lia.
  - destruct (value_compare k k0) eqn:E.
    + apply value_compare_eq in E. subst k0. cbn [total_in].
      case_bool_decide; lia.
    + cbn [total_in]. case_bool_decide as E1; [|lia].
      subst z. case_bool_decide as E2.
      * subst k0. now rewrite (proj2 (value_compare_eq k k) eq_refl) in E.
      * rewrite total_in_above; [lia|].
        eapply List.Forall_impl; [|exact Hk]. cbn [fst]. intros b Hb.
        now apply (value_compare_trans k k0).
    + cbn [total_in]. destruct (bool_decide (k0 = z)) eqn:E2; [|exact IH].
      apply bool_decide_eq_true in E2. subst k0.
      rewrite bool_decide_eq_false_2; [lia|]. intros ->.
      now rewrite (proj2 (value_compare_eq z z) eq_refl) in E.
Qed.

Lemma add_total_positive k n t :
  0 < n -> Forall (fun b => 0 < snd b) t ->
  Forall (fun b => 0 < snd b) (add_total k n t).
Proof.
  intros Hn. induction 1 as [|[k' m] t Hm Ht IH]; cbn [add_total].
  - now repeat constructor.
  - cbn [snd] in Hm.
    destruct (value_compare k k'); repeat constructor; cbn [snd];
      try lia; assumption.
Qed.

Lemma totals_sorted_fold pairs :
  totals_sorted
    (fold_right (fun kv => add_total (fst kv) (snd kv)) [] pairs).
Proof.
  induction pairs as [|[k n] pairs IH]; cbn [fold_right];
    [constructor | now apply add_total_sorted].
Qed.

Lemma totals_positive_fold pairs :
  Forall (fun b => 0 < snd b) pairs ->
  Forall (fun b => 0 < snd b)
    (fold_right (fun kv => add_total (fst kv) (snd kv)) [] pairs).
Proof.
  induction 1 as [|[k n] pairs Hn Hp IH]; cbn [fold_right];
    [constructor | now apply add_total_positive].
Qed.

Lemma total_in_fold z pairs :
  total_in z (fold_right (fun kv => add_total (fst kv) (snd kv)) [] pairs)
  = sum_for z pairs.
Proof.
  induction pairs as [|[k n] pairs IH]; cbn [fold_right sum_for];
    [reflexivity|].
  cbn [fst snd]. rewrite total_in_add_total by apply totals_sorted_fold.
  now rewrite IH.
Qed.

Lemma total_in_In z n t :
  totals_sorted t -> In (z, n) t -> total_in z t = n.
Proof.
  unfold totals_sorted.
  induction 1 as [|[k0 n0] t Ht IH Hk]; cbn [total_in In]; [tauto|].
  intros [[= -> ->]|Hin].
  - now rewrite bool_decide_eq_true_2.
  - case_bool_decide as E; [|now apply IH].
    subst k0. rewrite List.Forall_forall in Hk. specialize (Hk _ Hin).
    cbn [fst] in Hk.
    now rewrite (proj2 (value_compare_eq z z) eq_refl) in Hk.
Qed.

Lemma In_total_in z t :
  0 < total_in z t -> In (z, total_in z t) t.
Proof.
  induction t as [|[k0 n0] t IH]; cbn [total_in]; [lia|].
  case_bool_decide as E; [subst; now left|]. intros Hpos. right. now apply IH.
Qed.

(** A label has a total exactly when the numbers paired with it sum to
    something positive, and the total is that sum. *)
Lemma totals_In z n pairs :
  Forall (fun b => 0 < snd b) pairs ->
  (In (z, n) (fold_right (fun kv => add_total (fst kv) (snd kv)) [] pairs)
   <-> n = sum_for z pairs /\ 0 < n).
Proof.
  intros Hpos. split.
  - intros Hin. split.
    + rewrite <- total_in_fold. symmetry.
      apply total_in_In; [apply totals_sorted_fold | assumption].
    + pose proof (totals_positive_fold pairs Hpos) as Hall.
      rewrite List.Forall_forall in Hall. exact (Hall _ Hin).
  - intros [-> Hn]. rewrite <- total_in_fold in *. now apply In_total_in.
Qed.

Lemma sum_for_filter (p : value * Z -> bool) z pairs :
  (forall n, p (z, n) = true) ->
  sum_for z (List.filter p pairs) = sum_for z pairs.
Proof.
  intros Hp. induction pairs as [|[k n] pairs IH]; [reflexivity|].
  cbn [List.filter sum_for]. destruct (p (k, n)) eqn:E.
  - cbn [sum_for]. now rewrite IH.
  - rewrite IH. case_bool_decide as Ek; [|lia].
    subst k. now rewrite Hp in E.
Qed.

(** The sizes tallied under the labels that start with [z] add up to the
    number of labels that start with [z]. *)
Lemma sum_for_tally z k g :
  sum_for z (map (fun b => (List.hd VNaN (fst b), Z.of_nat (snd b)))
                 (tally k g))
  = (if bool_decide (List.hd VNaN k = z) then 1 else 0)
    + sum_for z (map (fun b => (List.hd VNaN (fst b), Z.of_nat (snd b))) g).
Proof.
  induction g as [|[k' n] g IH]; cbn [tally map sum_for fst snd].
  - case_bool_decide; lia.
  - destruct (key_compare k k') eqn:E; cbn [map sum_for fst snd].
    + apply key_compare_eq in E. subst k'.
      case_bool_decide; lia.
    + case_bool_decide; case_bool_decide; lia.
    + rewrite IH. case_bool_decide; case_bool_decide; lia.
Qed.

Lemma sum_for_tallies z ks :
  sum_for z (map (fun b => (List.hd VNaN (fst b), Z.of_nat (snd b)))
                 (fold_right tally [] ks))
  = Z.of_nat (length (List.filter
                        (fun k => bool_decide (List.hd VNaN k = z)) ks)).
Proof.
  induction ks as [|k ks IH]; [reflexivity|].
  cbn [fold_right List.filter]. rewrite sum_for_tally, IH.
  case_bool_decide; cbn [length]; lia.
Qed.

Lemma combine_map {A B C} (f : A -> B) (g : A -> C) l :
  combine (map f l) (map g l) = map (fun x => (f x, g x)) l.
Proof. induction l as [|x l IH]; [reflexivity|]. cbn. now rewrite IH. Qed.

Lemma unique_strict (l : list value) :
  StronglySorted (fun a b => value_compare a b = Lt \/ a = b) l ->
  StronglySorted (fun a b => value_compare a b = Lt) (unique l).
Proof.
  induction 1 as [|x l Hl IH Hx]; [constructor|]. cbn [unique].
  constructor; [now apply StronglySorted_filter|].
  apply List.Forall_forall. intros y Hy. apply filter_In in Hy.
  destruct Hy as [Hy Hne]. apply negb_true_iff, bool_decide_eq_false in Hne.
  apply (proj1 (unique_In _ _)) in Hy.
  rewrite List.Forall_forall in Hx. destruct (Hx y Hy) as [Hlt| ->];
    [exact Hlt | now destruct Hne].
Qed.

Section TopZips.

Context {lib : Collaborators}.

Lemma trend_pairs st :
  map (fun r => (field "zipcode" r, int_cell (field "report_count" r)))
      (map (group_row ["zipcode"; "week"] "report_count") (trend_groups st))
  = map (fun b => (List.hd VNaN (fst b), Z.of_nat (snd b))) (trend_groups st).
Proof.
  rewrite map_map. apply map_ext_in. intros [k n] Hin.
  apply trend_groups_length in Hin.
  destruct k as [|z [|w [|c k]]]; try discriminate Hin. reflexivity.
Qed.

Lemma trend_zip_column st :
  map (field "zipcode")
      (map (group_row ["zipcode"; "week"] "report_count") (trend_groups st))
  = map (fun b => List.hd VNaN (fst b)) (trend_groups st).
Proof.
  rewrite map_map. apply map_ext_in. intros [k n] Hin.
  apply trend_groups_length in Hin.
  destruct k as [|z [|w [|c k]]]; try discriminate Hin. reflexivity.
Qed.

Lemma groupby_sum_trend st :
  groupby_sum
    {| columns := ["zipcode"; "week"; "report_count"];
       rows := map (group_row ["zipcode"; "week"] "report_count")
                   (trend_groups st) |}
    "zipcode" "report_count"
  = Ok (fold_right (fun kv => add_total (fst kv) (snd kv)) []
          (List.filter (fun kv => negb (isna (fst kv)))
             (map (fun b => (List.hd VNaN (fst b), Z.of_nat (snd b)))
                  (trend_groups st)))).
Proof.
  unfold groupby_sum.
  rewrite !getitem_Ok by (cbn [columns In]; tauto).
  cbn [rbind rows]. rewrite (map_map (field "report_count") int_cell).
  now rewrite combine_map, trend_pairs.
Qed.

Lemma trend_keys_with_zip z st :
  isna z = false ->
  length (List.filter (fun k => bool_decide (List.hd VNaN k = z))
            (List.filter (fun k => negb (existsb isna k))
                         (map trend_key (reports st))))
  = reports_with_zip z st.
Proof.
  intros Hz. unfold reports_with_zip.
  induction (reports st) as [|d l IH]; [reflexivity|].
  cbn [map List.filter]. unfold trend_key at 1. cbn [existsb].
  destruct (report_week_text d) as (w & Hw). rewrite Hw.
  cbn [isna]. rewrite !orb_false_r.
  destruct (isna (field "zipcode" d)) eqn:E; cbn [negb].
  - rewrite IH. case_bool_decide as Ez; [|reflexivity].
    rewrite Ez in E. congruence.
  - cbn [List.filter].
    change (List.hd VNaN (trend_key d)) with (field "zipcode" d).
    case_bool_decide; cbn [length]; now rewrite IH.
Qed.

Lemma trend_totals_In z n st :
  In (z, n)
     (fold_right (fun kv => add_total (fst kv) (snd kv)) []
        (List.filter (fun kv => negb (isna (fst kv)))
           (map (fun b => (List.hd VNaN (fst b), Z.of_nat (snd b)))
                (trend_groups st))))
  <-> isna z = false /\ n = Z.of_nat (reports_with_zip z st) /\ 0 < n.
Proof.
  assert (Hpos : Forall (fun b : value * Z => 0 < snd b)
            (List.filter (fun kv => negb (isna (fst kv)))
               (map (fun b => (List.hd VNaN (fst b), Z.of_nat (snd b)))
                    (trend_groups st)))).
  { apply List.Forall_forall. intros [k m] Hin. apply filter_In in Hin.
    destruct Hin as [Hin _]. apply in_map_iff in Hin.
    destruct Hin as ([k' n'] & [= <- <-] & Hin). cbn [snd].
    pose proof (tallies_positive
                  (List.filter (fun k => negb (existsb isna k))
                               (map trend_key (reports st)))) as Hp.
    rewrite List.Forall_forall in Hp. specialize (Hp _ Hin).
    cbn [snd] in Hp. lia. }
  rewrite (totals_In z n _ Hpos).
  destruct (isna z) eqn:Hz.
  - split; [|intros [H _]; discriminate H].
    intros [-> Hn]. exfalso.
    assert (Hs : forall pairs,
              sum_for z (List.filter (fun kv : value * Z =>
                                        negb (isna (fst kv))) pairs) = 0).
    { induction pairs as [|[k m] pairs IHp]; [reflexivity|].
      cbn [List.filter fst]. destruct (isna k) eqn:Ek; cbn [negb];
        [exact IHp|].
      cbn [sum_for]. rewrite IHp. case_bool_decide as E; [|lia].
      subst k. congruence. }
    rewrite Hs in Hn. lia.
  - rewrite sum_for_filter by (intros m; cbn [fst]; now rewrite Hz).
    unfold trend_groups. rewrite sum_for_tallies.
    rewrite (trend_keys_with_zip z st Hz). tauto.
Qed.

(** X11.  The zip code selectors of the trends tab and of the analysis tab
    offer the zip codes of the stored reports that are not missing, each
    once and in ascending order. *)
Theorem trend_choices_are_the_present_zip_codes :
  forall st : session_state,
    reachable st ->
    reports st <> [] ->
    exists zs,
      trend_zip_options st = Ok (Some zs)
      /\ StronglySorted (fun a b => value_compare a b = Lt) zs
      /\ forall z, In z zs <->
                   isna z = false
                   /\ exists d, In d (reports st) /\ field "zipcode" d = z.
Proof.
  intros st Hreach Hne.
  pose proof (reachable_required st Hreach) as Hall.
  pose proof (reachable_timestamp_ok st Hreach) as Hok.
  unfold trend_zip_options.
  rewrite (trend_data_rows st Hall Hok Hne). cbn [rbind].
  rewrite getitem_Ok by (cbn [columns In]; tauto). cbn [rbind rows].
  eexists. split; [reflexivity|]. split.
  - apply unique_strict. apply StronglySorted_map.
    apply (StronglySorted_impl_in
             (fun a b => key_lt (row_key ["zipcode"; "week"] a)
                                (row_key ["zipcode"; "week"] b)));
      [|apply trend_rows_sorted].
    intros a b _ _. unfold key_lt, row_key. cbn [map key_compare].
    destruct (value_compare (field "zipcode" a) (field "zipcode" b)) eqn:E;
      try discriminate; [|now left].
    intros _. right. now apply value_compare_eq.
  - intros z. rewrite unique_In, trend_zip_column. split.
    + intros Hin. apply in_map_iff in Hin.
      destruct Hin as ([k n] & <- & Hin). cbn [fst].
      pose proof (trend_groups_length st k n Hin) as Hlen.
      destruct k as [|z [|w [|c k]]]; try discriminate Hlen.
      cbn [List.hd]. apply tallies_In in Hin. destruct Hin as [-> Hpos].
      unfold occurrences in Hpos.
      destruct (List.filter _ _) as [|k' l] eqn:E; [cbn in Hpos; lia|].
      assert (Hk : In k' (k' :: l)) by now left.
      rewrite <- E in Hk. apply filter_In in Hk. destruct Hk as [Hk Heq].
      apply bool_decide_eq_true in Heq. subst k'.
      apply filter_In in Hk. destruct Hk as [Hk Hnn].
      apply in_map_iff in Hk. destruct Hk as (d & [= <- Hw] & Hd).
      cbn [existsb] in Hnn. apply negb_true_iff, orb_false_iff in Hnn.
      split; [tauto | now exists d].
    + intros [Hz (d & Hd & <-)].
      destruct (report_week_text d) as (w & Hw).
      apply in_map_iff. exists ([field "zipcode" d; VStr w],
                                count_reports (field "zipcode" d) w st).
      split; [reflexivity|].
      pose proof (proj2 (trend_groups_spec (field "zipcode" d) w
                           (count_reports (field "zipcode" d) w st) st)) as H.
      assert (Hpos : (0 < count_reports (field "zipcode" d) w st)%nat).
      { unfold count_reports.
        assert (Hin : In d (List.filter
                  (fun d0 => bool_decide (field "zipcode" d0
                                          = field "zipcode" d
                                          /\ report_week d0 = VStr w))
                  (reports st))).
        { apply filter_In. split; [exact Hd|].
          now apply bool_decide_eq_true. }
        destruct (List.filter _ _); [destruct Hin | cbn; lia]. }
      specialize (H (conj Hz (conj eq_refl Hpos))).
      apply in_map_iff in H. destruct H as ([k n] & Hrow & Hin).
      pose proof (trend_groups_length st k n Hin) as Hlen.
      apply trend_key_bucket in Hrow; [|exact Hlen].
      destruct Hrow as [-> ->]. exact Hin.
Qed.

(** X12.  The bar chart of the trends tab shows at most five zip codes:
    the first five of the zip codes that are not missing, ranked by their
    number of stored reports, largest first.  Each zip code appears once
    with its number of reports, and no zip code left out has more reports
    than one that is shown. *)
Theorem top_zips_are_the_five_largest :
  forall st : session_state,
    reachable st ->
    reports st <> [] ->
    exists top ranked,
      trends_top_zips st = Ok (Some top)
      /\ top = firstn 5 ranked
      /\ (length top <= 5)%nat
      /\ StronglySorted (fun a b => snd b <= snd a) ranked
      /\ NoDup (map fst ranked)
      /\ (forall z n, In (z, n) ranked <->
                      isna z = false
                      /\ n = Z.of_nat (reports_with_zip z st) /\ 0 < n)
      /\ (forall a b, In a top -> In b ranked -> ~ In b top ->
                      snd b <= snd a).
Proof.
  intros st Hreach Hne.
  pose proof (reachable_required st Hreach) as Hall.
  pose proof (reachable_timestamp_ok st Hreach) as Hok.
  unfold trends_top_zips.
  rewrite (trend_data_rows st Hall Hok Hne). cbn [rbind].
  unfold top_zips. rewrite groupby_sum_trend. cbn [rbind]. unfold head.
  set (totals := fold_right _ _ _).
  assert (Hperm : Permutation (series_sort_values argsort totals false)
                              totals).
  { unfold series_sort_values. apply gather_perm.
    rewrite <- (length_map (fun kv : value * Z => Some (snd kv)) totals).
    apply nargsort_perm; apply argsort_perm. }
  assert (Hsorted : StronglySorted (fun a b : value * Z => snd b <= snd a)
                      (series_sort_values argsort totals false)).
  { apply (StronglySorted_impl_in
             (fun a b => key_ge (Some (snd a)) (Some (snd b))));
      [intros a b _ _ H; exact H|].
    apply (StronglySorted_unmap key_ge (fun kv : value * Z => Some (snd kv))).
    unfold series_sort_values. rewrite gather_map.
    rewrite (gather_default _ None)
      by (apply perm_seq_bound, nargsort_perm, argsort_perm).
    apply nargsort_newest_first; [apply argsort_perm | apply argsort_sorted]. }
  exists (firstn 5 (series_sort_values argsort totals false)),
         (series_sort_values argsort totals false).
  split; [reflexivity|]. split; [reflexivity|].
  split; [apply length_firstn_le || (rewrite length_firstn; lia)|].
  split; [exact Hsorted|]. split; [|split].
  - rewrite Hperm. apply (StronglySorted_irrefl_NoDup
                            (fun a b => value_compare a b = Lt)).
    + intros a. now rewrite (proj2 (value_compare_eq a a) eq_refl).
    + apply StronglySorted_map. subst totals. apply totals_sorted_fold.
  - intros z n. split.
    + intros Hin. apply (Permutation_in _ Hperm) in Hin.
      now apply trend_totals_In.
    + intros H. apply (Permutation_in _ (Permutation_sym Hperm)).
      now apply trend_totals_In.
  - intros a b Ha Hb Hnot.
    rewrite <- (firstn_skipn 5 (series_sort_values argsort totals false))
      in Hsorted, Hb.
    apply in_app_or in Hb. destruct Hb as [Hb|Hb]; [now destruct Hnot|].
    exact (StronglySorted_app_inv _ _ _ Hsorted a b Ha Hb).
Qed.

End TopZips.

(** ** The tabs on empty and non-empty stores *)

Section Tabs.

Context {lib : Collaborators}.

Lemma trend_data_empty st : reports st = [] -> trend_data st = Ok None.
Proof. intros E. unfold trend_data, load_data. now rewrite E. Qed.

(** X13.  The tabs show their placeholder exactly when the store is empty,
    and never fail on an empty store: the gallery and its choices, the
    trends tab with its bar chart and the analysis tab (whether the button
    is pressed or not) then have nothing to show, and the table has no row
    and no column. *)
Theorem placeholders_exactly_on_empty_store :
  forall (c : client) (selected_zip : string) (o : sort_option)
         (z : value) (analyze : bool) (st : session_state),
    reachable st ->
    (reports st = [] <-> gallery_tab selected_zip o st = Ok None)
    /\ (reports st = [] <-> gallery_zip_options st = Ok None)
    /\ (reports st = [] <-> trends_tab z st = Ok None)
    /\ (reports st = [] <-> trends_top_zips st = Ok None)
    /\ (reports st = [] <-> ai_analysis_tab c z analyze st = Ok NoData)
    /\ (reports st = [] <->
        fst (table_tab st) = {| columns := []; rows := [] |}).
Proof.
  intros c sz o z b st Hreach.
  pose proof (reachable_required st Hreach) as Hall.
  pose proof (reachable_timestamp_ok st Hreach) as Hok.
  destruct (reports st) as [|d0 rs0] eqn:Est.
  - assert (Hg : gallery_tab sz o st = Ok None)
      by now apply gallery_tab_empty.
    assert (Ht : trend_data st = Ok None) by now apply trend_data_empty.
    assert (Hc : gallery_zip_options st = Ok None)
      by (unfold gallery_zip_options; now rewrite Est).
    unfold trends_tab, trends_top_zips, ai_analysis_tab, table_tab.
    rewrite Hg, Hc, Ht, Est. cbn [rbind]. repeat split; reflexivity.
  - assert (Hne : reports st <> []) by (rewrite Est; discriminate).
    rewrite <- Est in Hall, Hok.
    assert (Hrows : length (rows (fst (table_tab st))) = length (reports st))
      by apply table_tab_rows_length.
    unfold trends_tab, trends_top_zips, ai_analysis_tab.
    rewrite (gallery_tab_rows sz o st Hall Hne).
    rewrite (gallery_zip_options_rows st Hall Hne).
    rewrite (trend_data_rows st Hall Hok Hne). cbn [rbind].
    unfold top_zips. rewrite groupby_sum_trend. cbn [rbind].
    unfold select_zip.
    rewrite getitem_Ok by (cbn [columns In]; tauto). cbn [rbind].
    repeat split; try discriminate.
    + destruct b; [|discriminate].
      destruct (chat_completions_create c _); discriminate.
    + intros E. rewrite E, Est in Hrows. discriminate Hrows.
Qed.

(** X14.  On a store that is not empty the analysis tab sends nothing
    until the button is pressed.  When it is pressed one request goes out,
    for the model "gpt-4" with at most 300 tokens and temperature 0.5; the
    text the collaborator returns is shown as it is, and an exception of
    the collaborator is caught and shown: the tab itself never fails. *)
Theorem analysis_passes_the_answer_or_the_failure :
  forall (c : client) (z : value) (st : session_state),
    reachable st ->
    reports st <> [] ->
    ai_analysis_tab c z false st = Ok Idle
    /\ exists weekly_summary request,
         model request = "gpt-4"
         /\ max_tokens request = 300
         /\ temperature request = (1, 2)
         /\ system_content request = system_prompt z
         /\ (forall content,
               chat_completions_create c request = Ok content ->
               ai_analysis_tab c z true st
               = Ok (Answer weekly_summary request content))
         /\ (forall e,
               chat_completions_create c request = Raise e ->
               ai_analysis_tab c z true st
               = Ok (Failed weekly_summary request e)).
Proof.
  intros c z st Hreach Hne.
  pose proof (reachable_required st Hreach) as Hall.
  pose proof (reachable_timestamp_ok st Hreach) as Hok.
  split.
  - unfold ai_analysis_tab. now rewrite (trend_data_rows st Hall Hok Hne).
  - pose proof (ai_analysis_tab_request c z st Hall Hok Hne) as Hrun.
    cbv zeta in Hrun. eexists. eexists.
    split; [|split; [|split; [|split; [|split]]]];
      [| | | |intros content Hc; rewrite Hrun, Hc; reflexivity
             |intros e He; rewrite Hrun, He; reflexivity];
      reflexivity.
Qed.

End Tabs.

(** ** The store and the frames, once more *)

Lemma cells_of_own_keys (d : pydict) :
  List.NoDup (keys d) -> map (fun c => (c, field c d)) (keys d) = d.
Proof.
  induction d as [|[k v] d IH]; [reflexivity|].
  cbn [keys map fst]. intros Hnd. inversion Hnd as [|? ? Hk Hd]; subst.
  f_equal.
  - unfold field. cbn [dict_get]. now rewrite String.eqb_refl.
  - rewrite <- (IH Hd) at 2. apply map_ext_in. intros c Hc.
    unfold field. cbn [dict_get].
    destruct (String.eqb_spec c k) as [->|Hne]; [now destruct Hk|].
    reflexivity.
Qed.

Lemma required_columns_NoDup_list : List.NoDup required_columns.
Proof. repeat constructor; cbn [In]; intuition discriminate. Qed.

Lemma submit_all_keys subs : forall st,
  Forall (fun d => keys d = required_columns) (reports st) ->
  Forall (fun d => keys d = required_columns) (reports (submit_all subs st)).
Proof.
  induction subs as [|[[f np] now] subs IH]; intros st Hall; [exact Hall|].
  cbn [submit_all fold_left]. apply IH.
  unfold submission. cbn [fst reports].
  apply Forall_app. split; [exact Hall|]. now repeat constructor.
Qed.

Lemma submit_all_length subs : forall st,
  length (reports (submit_all subs st))
  = (length (reports st) + length subs)%nat.
Proof.
  induction subs as [|[[f np] now] subs IH]; intros st;
    [cbn; lia|].
  cbn [submit_all fold_left].
  fold (submit_all subs (fst (submission f np now st))).
  rewrite IH. unfold submission. cbn [fst reports length].
  rewrite length_app. cbn [length]. lia.
Qed.

(** X15.  A store filled by submissions alone goes through a frame and back
    unchanged: the frame the projections build has the ten fields as its
    columns, and its records are the stored reports, cell for cell. *)
Theorem submitted_reports_survive_the_frame :
  forall submissions : list (form * datetime * datetime),
    to_dict_records (load_data (submit_all submissions initial_state))
    = reports (submit_all submissions initial_state)
    /\ (submissions <> [] ->
        columns (load_data (submit_all submissions initial_state))
        = required_columns).
Proof.
  intros subs.
  pose proof (submit_all_keys subs initial_state (List.Forall_nil _)) as Hall.
  unfold load_data, to_dict_records, DataFrame_of_records. cbn [rows columns].
  destruct (reports (submit_all subs initial_state)) as [|d rs] eqn:E.
  - split; [reflexivity|]. intros Hne. exfalso.
    pose proof (submit_all_length subs initial_state) as Hl.
    rewrite E in Hl. cbn [length reports initial_state] in Hl.
    destruct subs; [now apply Hne | discriminate Hl].
  - rewrite <- E in *.
    assert (Hne : reports (submit_all subs initial_state) <> [])
      by (rewrite E; discriminate).
    rewrite (union_keys_same required_columns _ required_columns_NoDup
               Hne Hall).
    split; [|reflexivity].
    rewrite <- (map_id (reports (submit_all subs initial_state))) at 2.
    apply map_ext_in. intros r Hr.
    rewrite List.Forall_forall in Hall. specialize (Hall r Hr).
    rewrite <- Hall at 1. apply cells_of_own_keys.
    rewrite Hall. apply required_columns_NoDup_list.
Qed.

(** ** How the handlers and the tabs compose *)

Section Compose.

Context {lib : Collaborators}.

Lemma gallery_row_other cols d c :
  c <> "zipcode" -> c <> "timestamp" -> In c cols ->
  field c (gallery_row cols d) = field c d.
Proof.
  intros Hz Ht Hc. unfold gallery_row.
  rewrite !field_set_ne by assumption. now apply field_cells.
Qed.

Lemma gallery_row_time cols d :
  field "timestamp" (gallery_row cols d)
  = coerce_timestamp (field "timestamp" d).
Proof. unfold gallery_row. apply field_set_eq. Qed.

(** X19.  The store keeps no report apart from another: uploading the same
    file twice appends its rows twice, and moves the uploader key on by
    two. *)
Theorem upload_twice_appends_twice :
  forall (uploaded_file : string) (df : DataFrame) (st : session_state),
    read_csv uploaded_file = Ok df ->
    (forall c, In c required_columns -> In c (columns df)) ->
    reports (snd (report_tab_upload uploaded_file
                    (snd (report_tab_upload uploaded_file st))))
    = reports st ++ map imported_row (rows df) ++ map imported_row (rows df)
    /\ uploader_key (snd (report_tab_upload uploaded_file
                            (snd (report_tab_upload uploaded_file st))))
       = S (S (uploader_key st)).
Proof.
  intros file df st Hread Hall.
  assert (Hrun : forall s,
            report_tab_upload file s
            = (Merged,
               {| reports := reports s ++ map imported_row (rows df);
                  uploader_key := S (uploader_key s) |})).
  { intros s.
    destruct (report_tab_upload_outcome file s)
      as [(e & Hread' & _)|[(df' & c & l & Hread' & E & _)
                            |(df' & Hread' & _ & Hrun)]].
    - congruence.
    - assert (df' = df) by congruence. subst df'.
      apply required_present_iff in Hall. congruence.
    - assert (df' = df) by congruence. now subst df'. }
  rewrite !Hrun. cbn [snd reports uploader_key].
  now rewrite <- app_assoc.
Qed.

(** X20.  On a store that is not empty the trends tab plots the weekly
    counts of the selected zip code and of no other, in ascending order of
    the week labels, one point per week in which that zip code has a
    report; a zip code that no report has gives an empty plot, not a
    failure. *)
Theorem trends_tab_plots_the_selected_zip :
  forall (z : value) (st : session_state),
    reachable st ->
    reports st <> [] ->
    exists selected,
      trends_tab z st = Ok (Some selected)
      /\ columns selected = ["zipcode"; "week"; "report_count"]
      /\ (forall r, In r (rows selected) ->
            field "zipcode" r = z
            /\ exists w n, r = bucket z w n
                           /\ n = count_reports z w st /\ (0 < n)%nat)
      /\ (forall w, isna z = false -> (0 < count_reports z w st)%nat ->
            In (bucket z w (count_reports z w st)) (rows selected))
      /\ StronglySorted week_before (rows selected)
      /\ ((forall d, In d (reports st) -> field "zipcode" d <> z) ->
          rows selected = []).
Proof.
  intros z st Hreach Hne.
  pose proof (reachable_required st Hreach) as Hall.
  pose proof (reachable_timestamp_ok st Hreach) as Hok.
  assert (Hrun : trends_tab z st
                 = Ok (Some {| columns := ["zipcode"; "week"; "report_count"];
                               rows := zip_buckets z st |})).
  { unfold trends_tab. rewrite (trend_data_rows st Hall Hok Hne).
    cbn [rbind]. unfold select_zip.
    rewrite getitem_Ok by (cbn [columns In]; tauto). cbn [rbind].
    unfold boolean_index. cbn [rows columns].
    rewrite (map_map (field "zipcode") (fun v => py_eq v z)).
    now rewrite (select_map_filter (fun r => py_eq (field "zipcode" r) z)). }
  assert (Hrows : forall r, In r (zip_buckets z st) ->
            field "zipcode" r = z
            /\ exists w n, r = bucket z w n
                           /\ n = count_reports z w st /\ (0 < n)%nat).
  { intros r Hr. pose proof (zip_buckets_zip z st r Hr) as Hz.
    split; [exact Hz|].
    assert (Hr' := Hr). unfold zip_buckets in Hr'. apply filter_In in Hr'.
    destruct Hr' as [Hr' _]. apply trend_rows_buckets in Hr'.
    destruct Hr' as (z' & w & n & ->).
    assert (z' = z) by exact Hz. subst z'.
    exists w, n. split; [reflexivity|].
    apply zip_buckets_spec in Hr. tauto. }
  eexists. split; [exact Hrun|]. cbn [columns rows].
  split; [reflexivity|]. split; [exact Hrows|]. split; [|split].
  - intros w Hz Hpos. apply zip_buckets_spec. auto.
  - apply zip_buckets_sorted.
  - intros Hnone. destruct (zip_buckets z st) as [|r l] eqn:E; [reflexivity|].
    exfalso. destruct (Hrows r (or_introl eq_refl))
      as (_ & w & n & _ & -> & Hpos).
    apply count_reports_witness in Hpos.
    destruct Hpos as (d & Hd & Hz & _). now apply (Hnone d).
Qed.

End Compose.

(** ** Rendering the gallery *)

Lemma rmap_app {A B} (f : A -> result B) l1 l2 :
  rmap f (l1 ++ l2)
  = do ys1 <- rmap f l1; do ys2 <- rmap f l2; Ok (ys1 ++ ys2).
Proof.
  induction l1 as [|x l1 IH]; cbn [app rmap rbind].
  - now destruct (rmap f l2).
  - destruct (f x) as [y|e]; [|reflexivity]. cbn [rbind]. rewrite IH.
    destruct (rmap f l1) as [ys1|e]; [|reflexivity]. cbn [rbind].
    now destruct (rmap f l2).
Qed.

Lemma rmap_concat {A B} (f : A -> result B) ls :
  (do rs <- rmap (rmap f) ls; Ok (concat rs)) = rmap f (concat ls).
Proof.
  induction ls as [|l ls IH]; [reflexivity|].
  cbn [concat rmap rbind]. rewrite rmap_app, <- IH.
  destruct (rmap f l) as [ys|e]; [|reflexivity]. cbn [rbind].
  now destruct (rmap (rmap f) ls).
Qed.

Lemma rmap_Forall2 {A B} (f : A -> result B) l ys :
  rmap f l = Ok ys <-> Forall2 (fun x y => f x = Ok y) l ys.
Proof.
  revert ys. induction l as [|x l IH]; intros ys; cbn [rmap].
  - split; [intros [= <-]; constructor | now inversion 1].
  - split.
    + destruct (f x) as [y|e] eqn:E; [|discriminate]. cbn [rbind].
      destruct (rmap f l) as [ys'|e]; [|discriminate]. cbn [rbind].
      intros [= <-]. constructor; [exact E | now apply IH].
    + inversion 1 as [|? y ? ys' Hx Hrest]; subst. rewrite Hx.
      cbn [rbind]. apply IH in Hrest. now rewrite Hrest.
Qed.

Lemma rmap_total {A B} (f : A -> result B) l :
  (forall x, In x l -> exists y, f x = Ok y) -> exists ys, rmap f l = Ok ys.
Proof.
  induction l as [|x l IH]; intros Hall; [now exists []|].
  destruct (Hall x (or_introl eq_refl)) as (y & Hy).
  destruct IH as (ys & Hys); [intros; apply Hall; now right|].
  exists (y :: ys). cbn [rmap]. now rewrite Hy, Hys.
Qed.

Lemma rmap_raises {A B} (f : A -> result B) l x :
  In x l -> (exists e, f x = Raise e) -> exists e, rmap f l = Raise e.
Proof.
  induction l as [|x' l IH]; intros Hin Hx; [destruct Hin|].
  cbn [rmap]. destruct (f x') as [y|e] eqn:E; [|now exists e].
  cbn [rbind]. destruct Hin as [->|Hin].
  - destruct Hx as (e & He). congruence.
  - destruct (IH Hin Hx) as (e & ->). now exists e.
Qed.

Lemma grid_rows_concat (records : list pydict) :
  concat (grid_rows records) = records.
Proof.
  induction records as [|a|a b|a b c l IH] using list_ind3;
    try reflexivity.
  rewrite grid_rows_three. cbn [concat app]. now rewrite IH.
Qed.

Lemma dict_getitem_field d k v :
  dict_getitem d k = Ok v -> field k d = v.
Proof.
  unfold dict_getitem, field. destruct (dict_get d k); [|discriminate].
  now intros [= <-].
Qed.

Lemma dict_getitem_present d k :
  In k (keys d) -> dict_getitem d k = Ok (field k d).
Proof.
  unfold dict_getitem, field, keys.
  induction d as [|[k' v] d IH]; cbn [map fst In dict_get]; [tauto|].
  destruct (String.eqb_spec k k') as [->|Hne]; [reflexivity|].
  intros [E|Hin]; [congruence | now apply IH].
Qed.

Section RenderFacts.

Context {lib : Collaborators} {os : Platform}.

(** The gallery draws one card per report, in the order of the reports,
    whatever the view; the first card that raises ends it. *)
Lemma gallery_render_cards view records :
  (do page <- gallery_render view records; Ok (cards page))
  = rmap (card_of view) records.
Proof.
  unfold gallery_render. destruct view; cbn [card_of].
  - rewrite <- (grid_rows_concat records) at 2. rewrite <- rmap_concat.
    now destruct (rmap (rmap grid_card) (grid_rows records)).
  - now destruct (rmap detailed_card records).
Qed.

(** What a card shows comes from the report it is drawn for. *)
Lemma card_of_fields view r c :
  card_of view r = Ok c ->
  card_address c = py_str (field "address" r)
  /\ card_timestamp c = py_str (field "timestamp" r)
  /\ card_type c = py_str (field "type" r)
  /\ card_used c = py_str (field "used" r).
Proof.
  destruct view; cbn [card_of]; unfold grid_card, detailed_card.
  - destruct (dict_getitem r "address") as [a|e] eqn:Ea; [|discriminate].
    destruct (dict_getitem r "timestamp") as [t|e] eqn:Et; [|discriminate].
    cbn [rbind]. destruct (show_photo r) as [p|e]; [|discriminate].
    destruct (dict_getitem r "type") as [ty|e] eqn:Ety; [|discriminate].
    destruct (dict_getitem r "used") as [u|e] eqn:Eu; [|discriminate].
    destruct (dict_getitem r "symptoms") as [s|e]; [|discriminate].
    cbn [rbind]. intros [= <-].
    cbn [card_address card_timestamp card_type card_used].
    apply dict_getitem_field in Ea, Et, Ety, Eu. now subst.
  - destruct (dict_getitem r "address") as [a|e] eqn:Ea; [|discriminate].
    destruct (dict_getitem r "timestamp") as [t|e] eqn:Et; [|discriminate].
    destruct (dict_getitem r "type") as [ty|e] eqn:Ety; [|discriminate].
    destruct (dict_getitem r "used") as [u|e] eqn:Eu; [|discriminate].
    destruct (dict_getitem r "concerns") as [cs|e]; [|discriminate].
    destruct (dict_getitem r "symptoms") as [s|e]; [|discriminate].
    destruct (dict_getitem r "description") as [ds|e]; [|discriminate].
    cbn [rbind]. destruct (show_photo r) as [p|e]; [|discriminate].
    cbn [rbind]. intros [= <-].
    cbn [card_address card_timestamp card_type card_used].
    apply dict_getitem_field in Ea, Et, Ety, Eu. now subst.
Qed.

(** The photo check on a photo path that is [None] or text, and on one
    that is [nan]. *)
Lemma show_photo_plain r :
  (forall p, st_image (VStr p) = Ok tt) ->
  dict_get r "photo_path" = Some VNone
  \/ (exists p, dict_get r "photo_path" = Some (VStr p)) ->
  exists shown, show_photo r = Ok shown.
Proof.
  intros Himg [E|(p & E)]; unfold show_photo; rewrite E; cbn [truthy].
  - now exists None.
  - destruct (negb (String.eqb p "")); [|now exists None].
    destruct (path_exists_text p) as (b & ->). cbn [rbind].
    destruct b; [|now exists None]. rewrite Himg. cbn [rbind]. eauto.
Qed.

Lemma show_photo_nan r :
  dict_get r "photo_path" = Some VNaN ->
  exists msg, show_photo r = Raise (TypeError msg).
Proof.
  intros E. unfold show_photo. rewrite E. cbn [truthy].
  destruct path_exists_nan as (msg & ->). now exists msg.
Qed.

Lemma card_of_plain view r :
  (forall p, st_image (VStr p) = Ok tt) ->
  (forall c, In c required_columns -> In c (keys r)) ->
  dict_get r "photo_path" = Some VNone
  \/ (exists p, dict_get r "photo_path" = Some (VStr p)) ->
  exists c, card_of view r = Ok c.
Proof.
  intros Himg Hkeys Hphoto.
  destruct (show_photo_plain r Himg Hphoto) as (shown & Hshown).
  destruct view; cbn [card_of]; unfold grid_card, detailed_card;
    rewrite !dict_getitem_present by (apply Hkeys; cbn; tauto);
    cbn [rbind]; rewrite Hshown; cbn [rbind]; eauto.
Qed.

Lemma card_of_nan view r :
  (forall c, In c required_columns -> In c (keys r)) ->
  dict_get r "photo_path" = Some VNaN ->
  exists msg, card_of view r = Raise (TypeError msg).
Proof.
  intros Hkeys Hphoto.
  destruct (show_photo_nan r Hphoto) as (msg & Hshown). exists msg.
  destruct view; cbn [card_of]; unfold grid_card, detailed_card;
    rewrite !dict_getitem_present by (apply Hkeys; cbn; tauto);
    cbn [rbind]; rewrite Hshown; reflexivity.
Qed.

End RenderFacts.

Lemma dict_get_in_keys d k v : dict_get d k = Some v -> In k (keys d).
Proof.
  unfold keys. induction d as [|[k' v'] d IH]; cbn [dict_get map fst In];
    [discriminate|].
  destruct (String.eqb_spec k k') as [->|Hne]; [now left|].
  intros H. right. now apply IH.
Qed.

Lemma Forall2_In_left {A B} (P : A -> B -> Prop) l ys x :
  Forall2 P l ys -> In x l -> exists y, In y ys /\ P x y.
Proof.
  induction 1 as [|a b l ys Hab _ IH]; intros Hin; [destruct Hin|].
  destruct Hin as [->|Hin].
  - exists b. split; [now left | exact Hab].
  - destruct (IH Hin) as (y & Hy & Hxy). exists y. split; [now right|].
    exact Hxy.
Qed.

Section GalleryShown.

Context {lib : Collaborators} {os : Platform}.

Lemma gallery_row_keys cols d c :
  In c cols -> In c (keys (gallery_row cols d)).
Proof.
  intros Hc. destruct (String.eqb_spec c "timestamp") as [->|Ht].
  { eapply dict_get_in_keys. apply gallery_row_timestamp. }
  destruct (String.eqb_spec c "zipcode") as [->|Hz].
  { eapply dict_get_in_keys. apply gallery_row_zipcode. }
  apply (dict_get_in_keys _ _ (field c d)). unfold gallery_row.
  rewrite !dict_get_set_ne by assumption. now apply dict_get_cells.
Qed.

Lemma gallery_row_photo cols d :
  In "photo_path" cols ->
  dict_get (gallery_row cols d) "photo_path" = Some (field "photo_path" d).
Proof.
  intros Hc. unfold gallery_row.
  rewrite !dict_get_set_ne by discriminate. now apply dict_get_cells.
Qed.

(** The records the gallery renders on a store that is not empty. *)
Lemma gallery_tab_render_rows z o view st :
  reachable st -> reports st <> [] ->
  exists rs,
    Permutation rs (gallery_rows z st)
    /\ gallery_tab z o st = Ok (Some rs)
    /\ gallery_tab_render z o view st
       = do page <- gallery_render view
                      (photo_paths_as_held (reports st) rs);
         Ok (Some page).
Proof.
  intros Hreach Hne. pose proof (reachable_required st Hreach) as Hall.
  pose proof (gallery_tab_rows z o st Hall Hne) as Hrun.
  eexists. split; [|split; [exact Hrun|]].
  - apply gather_perm. apply gallery_positions_perm.
  - unfold gallery_tab_render. rewrite Hrun. reflexivity.
Qed.

(** A rendered page holds the cards of the records it was rendered
    from. *)
Lemma gallery_render_Ok view records page :
  gallery_render view records = Ok page ->
  Forall2 (fun r c => card_of view r = Ok c) records (cards page).
Proof.
  intros H. apply rmap_Forall2. rewrite <- gallery_render_cards.
  now rewrite H.
Qed.

Lemma gallery_render_total view records :
  (forall r, In r records -> exists c, card_of view r = Ok c) ->
  exists page, gallery_render view records = Ok page.
Proof.
  intros Hall. destruct (rmap_total _ _ Hall) as (cs & Hcs).
  rewrite <- gallery_render_cards in Hcs.
  destruct (gallery_render view records) as [page|e]; [eauto|discriminate].
Qed.

Lemma gallery_render_raises view records r :
  In r records -> (exists e, card_of view r = Raise e) ->
  exists e, gallery_render view records = Raise e.
Proof.
  intros Hin Hr. destruct (rmap_raises _ _ _ Hin Hr) as (e & He).
  rewrite <- gallery_render_cards in He.
  destruct (gallery_render view records) as [page|e']; [discriminate|eauto].
Qed.

(** The photo paths as held: each record is left as it is or has its photo
    path changed from [None] to [nan]; the other cells stay. *)
Lemma photo_paths_as_held_In store records r :
  In r records ->
  exists r',
    In r' (photo_paths_as_held store records)
    /\ keys r' = keys r
    /\ (forall c, c <> "photo_path" -> field c r' = field c r)
    /\ (dict_get r "photo_path" <> Some VNone -> r' = r).
Proof.
  intros Hin. unfold photo_paths_as_held.
  destruct (float_column _); [|exists r; now repeat split].
  destruct (dict_get r "photo_path") as [v|] eqn:E.
  - destruct (bool_decide (v = VNone)) eqn:Ev.
    + apply bool_decide_eq_true in Ev. subst v.
      exists (dict_set r "photo_path" VNaN). split; [|split; [|split]].
      * apply in_map_iff. exists r. now rewrite E.
      * apply keys_dict_set. now apply (dict_get_in_keys _ _ VNone).
      * intros c Hc. now apply field_set_ne.
      * congruence.
    + apply bool_decide_eq_false in Ev. exists r. split; [|now repeat split].
      apply in_map_iff. exists r. rewrite E. split; [|exact Hin].
      destruct v; congruence.
  - exists r. split; [|now repeat split].
    apply in_map_iff. exists r. now rewrite E.
Qed.

Lemma photo_paths_as_held_plain st records :
  photo_paths_plain st ->
  photo_paths_as_held (reports st) records = records.
Proof.
  intros Hplain. unfold photo_paths_as_held.
  replace (float_column (map (field "photo_path") (reports st)))
    with false; [reflexivity|].
  symmetry. unfold float_column. apply andb_false_iff. right.
  unfold photo_paths_plain in Hplain.
  induction Hplain as [|d ds Hd _ IH]; [reflexivity|].
  cbn [map existsb]. rewrite IH, orb_false_r. unfold field.
  destruct Hd as [->|(p & ->)]; reflexivity.
Qed.

(** X17.  A submitted report is shown at once.  When the handler returns,
    the gallery filtered by the zip code of the form selects the report,
    with its address and with the time stamp its text parses to, and the
    trend projection counts it under its zip code and the week of that
    time stamp; this holds for any zip code typed in, the empty text
    included.  Whenever the gallery then renders, in either view, one of
    its cards shows that address and that time stamp; and it does render
    when every stored photo path is [None] or text and the image widget
    does not raise. *)
Theorem submitted_report_is_shown :
  forall (f : form) (now_photo now : datetime) (o : sort_option)
         (view : view_option) (st st' : session_state)
         (written : option (string * string)),
    reachable st ->
    valid_datetime now ->
    report_tab_submit f now_photo now st = Ok (st', written) ->
    exists rs r ns trend n,
      gallery_tab (zipcode f) o st' = Ok (Some rs)
      /\ In r rs
      /\ field "address" r = VStr (address f)
      /\ field "zipcode" r = VStr (zipcode f)
      /\ parse_datetime (VStr (strftime_minute now)) = Some ns
      /\ field "timestamp" r = VTimestamp ns
      /\ trend_data st' = Ok (Some trend)
      /\ In (bucket (VStr (zipcode f)) (week_label ns) n) (rows trend)
      /\ (0 < n)%nat
      /\ (forall page,
            gallery_tab_render (zipcode f) o view st' = Ok (Some page) ->
            exists c, In c (cards page)
                      /\ card_address c = address f
                      /\ card_timestamp c = format_timestamp ns)
      /\ (photo_paths_plain st' ->
          (forall p, st_image (VStr p) = Ok tt) ->
          exists page,
            gallery_tab_render (zipcode f) o view st' = Ok (Some page)).
Proof.
  intros f np now o view st st0 written Hreach Hnow Hsub.
  set (st' := fst (submission f np now st)).
  assert (Est : st0 = st').
  { destruct (report_tab_submit_cases f np now st)
      as [[_ E]|[_ (p & b & e & _ & _ & E)]]; rewrite E in Hsub;
      [|discriminate Hsub].
    assert (E2 : submission f np now st = (st0, written)) by congruence.
    subst st'. now rewrite E2. }
  subst st0. clear Hsub.
  assert (Hreach' : reachable st') by now apply reachable_submit.
  pose proof (reachable_required st' Hreach') as Hall.
  pose proof (reachable_timestamp_ok st' Hreach') as Hok.
  set (d := submitted_report f np now st).
  assert (Hrep : reports st' = reports st ++ [d]).
  { subst st' d. rewrite submitted_report_eq. reflexivity. }
  assert (Hne : reports st' <> []).
  { rewrite Hrep. intros E. apply app_eq_nil in E. destruct E as [_ E].
    discriminate E. }
  assert (Hd : In d (reports st'))
    by (rewrite Hrep; apply in_or_app; right; now left).
  destruct (submitted_report_shows_form f np now st)
    as (_ & Hts & Haddr & Hzip & _).
  fold d in Hts, Haddr, Hzip.
  destruct (parse_datetime_own_format now Hnow) as (ns & Hparse).
  assert (Hco : coerce_timestamp (field "timestamp" d) = VTimestamp ns).
  { rewrite Hts. unfold coerce_timestamp. cbn [isna]. now rewrite Hparse. }
  destruct (gallery_tab_render_rows (zipcode f) o view st' Hreach' Hne)
    as (rs & Hperm & Hrun & Hrender).
  set (cols := union_keys (reports st')) in *.
  assert (Hcols : forall c, In c required_columns -> In c cols)
    by (intros c Hc; now apply store_columns).
  set (r := gallery_row cols d).
  assert (Hr : In r rs).
  { apply (Permutation_in _ (Permutation_sym Hperm)).
    apply gallery_rows_selected; [exact Hd|]. now rewrite Hzip. }
  assert (Hraddr : field "address" r = VStr (address f)).
  { subst r. rewrite gallery_row_other; try discriminate; [exact Haddr|].
    apply Hcols. simpl. tauto. }
  assert (Hrts : field "timestamp" r = VTimestamp ns)
    by (subst r; rewrite gallery_row_time; exact Hco).
  exists rs, r, ns,
         {| columns := ["zipcode"; "week"; "report_count"];
            rows := map (group_row ["zipcode"; "week"] "report_count")
                        (trend_groups st') |},
         (count_reports (VStr (zipcode f)) (week_label ns) st').
  split; [exact Hrun|]. split; [exact Hr|]. split; [exact Hraddr|].
  split; [subst r; rewrite gallery_row_zip_field; now rewrite Hzip|].
  split; [exact Hparse|]. split; [exact Hrts|].
  split; [now apply trend_data_rows|].
  assert (Hpos : (0 < count_reports (VStr (zipcode f)) (week_label ns) st')%nat).
  { unfold count_reports.
    assert (Hin : In d (List.filter
              (fun d0 => bool_decide (field "zipcode" d0 = VStr (zipcode f)
                                      /\ report_week d0
                                         = VStr (week_label ns)))
              (reports st'))).
    { apply filter_In. split; [exact Hd|]. apply bool_decide_eq_true.
      split; [exact Hzip|]. unfold report_week. now rewrite Hco. }
    destruct (List.filter _ _); [destruct Hin | cbn; lia]. }
  split; [cbn [rows]; apply trend_groups_spec; repeat split; assumption|].
  split; [exact Hpos|]. split.
  - intros page Hpage. rewrite Hrender in Hpage.
    destruct (gallery_render view _) as [page'|e] eqn:E;
      [|discriminate Hpage].
    cbn [rbind] in Hpage. injection Hpage as <-.
    apply gallery_render_Ok in E.
    destruct (photo_paths_as_held_In (reports st') rs r Hr)
      as (r' & Hr' & _ & Hsame & _).
    destruct (Forall2_In_left _ _ _ _ E Hr') as (c & Hc & Hcard).
    apply card_of_fields in Hcard. destruct Hcard as (Ha & Ht & _).
    exists c. split; [exact Hc|].
    rewrite Ha, Ht, !Hsame by discriminate. rewrite Hraddr, Hrts.
    split; reflexivity.
  - intros Hplain Himg. rewrite Hrender.
    rewrite photo_paths_as_held_plain by exact Hplain.
    destruct (gallery_render_total view rs) as (page & ->); [|eauto].
    intros r0 Hr0. apply (Permutation_in _ Hperm) in Hr0.
    apply gallery_rows_In in Hr0. destruct Hr0 as (d0 & Hd0 & -> & _).
    apply card_of_plain; [exact Himg| |].
    + intros c Hc. apply gallery_row_keys. now apply Hcols.
    + fold cols. rewrite gallery_row_photo by (apply Hcols; simpl; tauto).
      unfold photo_paths_plain in Hplain.
      rewrite List.Forall_forall in Hplain. specialize (Hplain d0 Hd0).
      unfold field. destruct Hplain as [->|(p & ->)]; [now left|].
      right. now exists p.
Qed.

(** X21.  A stored report whose photo path is [nan], as a row imported
    with a blank cell is, stops the gallery: whenever the selection
    includes it, by "All" or by its zip code, the photo check asks the file
    system about [nan], the card of that report raises [TypeError], and the
    gallery ends with an exception instead of a page, in either view and
    either order. *)
Theorem gallery_raises_on_missing_photo_path :
  forall (z : string) (o : sort_option) (view : view_option)
         (st : session_state) (d : pydict),
    reachable st ->
    In d (reports st) ->
    field "photo_path" d = VNaN ->
    z = "All"
    \/ (zip_codes_print_as_stored st /\ py_str (field "zipcode" d) = z) ->
    (exists msg,
       card_of view (gallery_row (union_keys (reports st)) d)
       = Raise (TypeError msg))
    /\ exists e, gallery_tab_render z o view st = Raise e.
Proof.
  intros z o view st d Hreach Hd Hnan Hz.
  pose proof (reachable_required st Hreach) as Hall.
  assert (Hne : reports st <> []) by (intros E; rewrite E in Hd; destruct Hd).
  destruct (gallery_tab_render_rows z o view st Hreach Hne)
    as (rs & Hperm & _ & Hrender).
  set (cols := union_keys (reports st)) in *.
  assert (Hcols : forall c, In c required_columns -> In c cols)
    by (intros c Hc; now apply store_columns).
  set (r := gallery_row cols d).
  assert (Hphoto : dict_get r "photo_path" = Some VNaN).
  { subst r. rewrite gallery_row_photo by (apply Hcols; simpl; tauto).
    now rewrite Hnan. }
  assert (Hcard : exists msg, card_of view r = Raise (TypeError msg)).
  { apply card_of_nan; [|exact Hphoto].
    intros c Hc. apply gallery_row_keys. now apply Hcols. }
  split; [exact Hcard|].
  assert (Hr : In r rs).
  { apply (Permutation_in _ (Permutation_sym Hperm)).
    destruct Hz as [->|[_ Hz]]; [|now apply gallery_rows_selected].
    unfold gallery_rows. cbn. now apply in_map. }
  destruct (photo_paths_as_held_In (reports st) rs r Hr)
    as (r' & Hr' & _ & _ & Hsame).
  rewrite Hsame in Hr' by congruence.
  destruct Hcard as (msg & Hcard).
  destruct (gallery_render_raises view _ r Hr') as (e & He); [eauto|].
  exists e. rewrite Hrender, He. reflexivity.
Qed.

End GalleryShown.

(** ** Instances *)

(** The reference collaborators with a stable sort routine. *)
#[local] Instance reference : Collaborators := {|
  read_csv := simple_read_csv;
  read_csv_wf := simple_read_csv_wf;
  read_csv_header := simple_read_csv_header;
  parse_datetime := simple_parse_datetime;
  parse_datetime_timestamp := fun ns => eq_refl;
  parse_datetime_own_format := parse_minute_strftime;
  argsort := stable_argsort;
  argsort_perm := insertion_argsort_perm Z.leb;
  argsort_sorted :=
    insertion_argsort_sorted Z.leb
      (fun a b E => proj1 (Z.leb_le a b) E)
      (fun a b E => Z.lt_le_incl _ _ (proj1 (Z.leb_gt a b) E));
  chat_completions_create := echo_chat
|}.

(** The same with the quicksort as sort routine. *)
#[local] Instance with_quicksort : Collaborators := {|
  read_csv := simple_read_csv;
  read_csv_wf := simple_read_csv_wf;
  read_csv_header := simple_read_csv_header;
  parse_datetime := simple_parse_datetime;
  parse_datetime_timestamp := fun ns => eq_refl;
  parse_datetime_own_format := parse_minute_strftime;
  argsort := quicksort_argsort;
  argsort_perm := quicksort_argsort_perm;
  argsort_sorted := quicksort_argsort_sorted;
  chat_completions_create := echo_chat
|}.

(** [os.path.exists] where no file exists: text and integers are looked up
    and not found, anything else is no path. *)
Definition exists_nowhere (v : value) : result bool :=
  match v with
  | VStr _ | VInt _ | VBool _ => Ok false
  | _ =>
      Raise (TypeError "stat: path should be string, bytes, os.PathLike or integer")
  end.

(** A platform where every write succeeds and no file is found. *)
#[local] Instance empty_disk : Platform := {|
  makedirs := fun _ => Ok tt;
  write_file := fun _ _ => Ok tt;
  path_exists := exists_nowhere;
  path_exists_text := fun p => ex_intro _ false eq_refl;
  path_exists_nan := ex_intro _ _ eq_refl;
  st_image := fun _ => Ok tt
|}.

(** A platform whose image folder cannot be written to. *)
#[local] Instance read_only_disk : Platform := {|
  makedirs := fun _ => Ok tt;
  write_file := fun _ _ => Raise (OSError "Read-only file system");
  path_exists := exists_nowhere;
  path_exists_text := fun p => ex_intro _ false eq_refl;
  path_exists_nan := ex_intro _ _ eq_refl;
  st_image := fun _ => Ok tt
|}.

(** Stores obtained by importing the sample files with the reference
    collaborators. *)
Definition imported_with_bad_timestamp : session_state :=
  snd (report_tab_upload (lib := reference) csv_with_bad_timestamp
         five_reports).

Definition imported_without_zip : session_state :=
  snd (report_tab_upload (lib := reference) csv_without_zip_value
         initial_state).

Definition imported_without_zip_and_time : session_state :=
  snd (report_tab_upload (lib := reference) csv_without_zip_and_time
         initial_state).

(** ** The properties on concrete inputs *)

Lemma five_reports_reachable : reachable (lib := reference) five_reports.
Proof.
  unfold five_reports, submit_sample.
  repeat (apply reachable_submit; [unfold valid_datetime; simpl; lia|]).
  apply reachable_initial.
Defined.

Lemma two_tied_reports_reachable :
  reachable (lib := reference) two_tied_reports.
Proof.
  unfold two_tied_reports, submit_sample.
  repeat (apply reachable_submit; [unfold valid_datetime; simpl; lia|]).
  apply reachable_initial.
Defined.

Lemma imported_with_bad_timestamp_reachable :
  reachable (lib := reference) imported_with_bad_timestamp.
Proof. apply reachable_upload. exact five_reports_reachable. Defined.

Lemma five_reports_parse :
  forall d, In d (reports five_reports) ->
    isna (field "timestamp" d) = false
    /\ exists ns, parse_datetime (Collaborators := reference) (field "timestamp" d)
                  = Some ns.
Proof.
  intros d Hd. simpl in Hd.
  repeat (destruct Hd as [<-|Hd]; [split; [reflexivity | eexists; reflexivity]|]).
  destruct Hd.
Defined.

Lemma upload_missing_column_rejected_witness :
  read_csv (Collaborators := reference) csv_without_zipcode
  = Ok {| columns := ["timestamp"; "address"];
          rows := [[("timestamp", VStr "2024-01-03 09:00");
                    ("address", VStr "1 Mill Rd")]] |}
  /\ exists missing,
       report_tab_upload (lib := reference) csv_without_zipcode five_reports
       = (MissingColumns missing, five_reports).
Proof.
  split; [reflexivity|].
  destruct (upload_missing_column_rejected (lib := reference)
              csv_without_zipcode _ five_reports eq_refl) as (m & Hm & _).
  - exists "zipcode". split; [simpl; tauto|]. simpl. intuition discriminate.
  - exists m. exact Hm.
Defined.

Lemma upload_appends_every_row_witness :
  exists df,
    read_csv (Collaborators := reference) csv_with_bad_timestamp = Ok df
    /\ (forall c, In c required_columns -> In c (columns df))
    /\ length (rows df) = 2%nat
    /\ fst (report_tab_upload (lib := reference) csv_with_bad_timestamp
              five_reports) = Merged
    /\ length (reports (snd (report_tab_upload (lib := reference)
                               csv_with_bad_timestamp five_reports)))
       = 7%nat
    /\ field "timestamp"
         (nth 6 (reports (snd (report_tab_upload (lib := reference)
                                 csv_with_bad_timestamp five_reports))) [])
       = VNaT.
Proof.
  eexists. split; [reflexivity|].
  assert (Hcols : forall c, In c required_columns ->
            In c ["timestamp"; "address"; "zipcode"; "description";
                  "concerns"; "type"; "used"; "symptoms"; "alert";
                  "photo_path"]) by (intros c Hc; exact Hc).
  split; [exact Hcols|]. split; [reflexivity|].
  destruct (upload_appends_every_row (lib := reference)
              csv_with_bad_timestamp _ five_reports eq_refl Hcols)
    as (Hmsg & Hrows & Hlen & _).
  split; [exact Hmsg|]. split; [exact Hlen|]. reflexivity.
Defined.

Lemma gallery_filters_zip_and_sorts_oldest_first_witness :
  reachable (lib := reference) five_reports
  /\ exists rs,
       gallery_tab (lib := reference) "10001" OldestFirst five_reports
       = Ok (Some rs)
       /\ map (field "address") rs
          = [VStr "1 Mill Rd"; VStr "2 Mill Rd"; VStr "3 Mill Rd";
             VStr "4 Mill Rd"; VStr "5 Mill Rd"]
       /\ StronglySorted oldest_first (map (field "timestamp") rs).
Proof.
  split; [exact five_reports_reachable|].
  destruct (gallery_filters_zip_and_sorts_oldest_first (lib := reference)
              "10001" OldestFirst five_reports five_reports_reachable)
    as (out & Hrun & Hout).
  assert (Hrs : gallery_tab (lib := reference) "10001" OldestFirst
                  five_reports
                = Ok (Some (match out with Some rs => rs | None => [] end))).
  { rewrite Hrun. vm_compute in Hrun. now injection Hrun as <-. }
  eexists. split; [exact Hrs|]. vm_compute in Hrun. injection Hrun as <-.
  split; [reflexivity|]. now apply (Hout _ eq_refl).
Defined.

Lemma trend_counts_observed_pairs_witness :
  reachable (lib := reference) five_reports
  /\ (forall d, In d (reports five_reports) ->
        isna (field "timestamp" d) = false
        /\ exists ns, parse_datetime (Collaborators := reference)
                        (field "timestamp" d) = Some ns)
  /\ trend_data (lib := reference) five_reports
     = Ok (Some {| columns := ["zipcode"; "week"; "report_count"];
                   rows := [bucket (VStr "10001") "2024-01-01/2024-01-07" 3;
                            bucket (VStr "10001") "2024-01-08/2024-01-14" 2]
                |})
  /\ exists out,
       trend_data (lib := reference) five_reports = Ok out
       /\ forall trend, out = Some trend ->
            forall z w n,
              In (bucket z w n) (rows trend)
              <-> isna z = false
                  /\ n = count_reports (lib := reference) z w five_reports
                  /\ (0 < n)%nat.
Proof.
  split; [exact five_reports_reachable|].
  split; [exact five_reports_parse|]. split; [reflexivity|].
  destruct (trend_counts_observed_pairs (lib := reference) five_reports
              five_reports_reachable five_reports_parse)
    as (out & Hrun & _ & Hout).
  exists out. split; [exact Hrun|]. intros trend Htrend.
  now destruct (Hout trend Htrend) as (_ & _ & _ & Hspec & _).
Defined.

Lemma analysis_sends_last_twelve_buckets_witness :
  reachable (lib := reference) five_reports
  /\ reports five_reports <> []
  /\ exists view weekly_summary request,
       ai_analysis_tab (lib := reference) (mkClient "key") (VStr "10001")
         true five_reports = Ok view
       /\ request_sent view = Some (weekly_summary, request)
       /\ weekly_summary
          = [bucket (VStr "10001") "2024-01-01/2024-01-07" 3;
             bucket (VStr "10001") "2024-01-08/2024-01-14" 2]
       /\ user_content request
          = "Report data: [{'zipcode': '10001', 'week': '2024-01-01/2024-01-07', 'report_count': 3}, {'zipcode': '10001', 'week': '2024-01-08/2024-01-14', 'report_count': 2}]".
Proof.
  split; [exact five_reports_reachable|].
  assert (Hne : reports five_reports <> []) by discriminate.
  split; [exact Hne|].
  destruct (analysis_sends_last_twelve_buckets (lib := reference)
              (mkClient "key") (VStr "10001") five_reports
              five_reports_reachable Hne)
    as (view & ws & rq & Hrun & Hsent & Hcontent & Hws & _).
  exists view, ws, rq. split; [exact Hrun|]. split; [exact Hsent|].
  assert (Hval : ws = [bucket (VStr "10001") "2024-01-01/2024-01-07" 3;
                       bucket (VStr "10001") "2024-01-08/2024-01-14" 2])
    by (rewrite Hws; reflexivity).
  split; [exact Hval|]. rewrite Hcontent, Hval. reflexivity.
Defined.

Lemma export_is_rejected_by_import_witness :
  Forall (fun d => keys d = required_columns) (reports five_reports)
  /\ reports five_reports <> []
  /\ report_tab_upload (lib := reference)
       (snd (table_tab five_reports)) initial_state
     = (MissingColumns ["photo_path"], initial_state).
Proof.
  assert (Hkeys : Forall (fun d => keys d = required_columns)
                         (reports five_reports)) by repeat constructor.
  assert (Hne : reports five_reports <> []) by discriminate.
  split; [exact Hkeys|]. split; [exact Hne|].
  destruct (export_is_rejected_by_import (lib := reference) five_reports
              initial_state Hkeys Hne) as (_ & _ & _ & Hframe).
  destruct (read_csv (Collaborators := reference)
              (snd (table_tab five_reports))) as [df|e] eqn:Hread.
  - exact (Hframe df eq_refl).
  - vm_compute in Hread. discriminate Hread.
Defined.


Lemma load_data_snapshot_is_independent_witness :
  Heap.read_reports sample_heap.1 sample_heap.2
  = Some (reports two_tied_reports)
  /\ exists h1 l,
       Heap.load_data sample_heap.1 sample_heap.2 = Some (h1, l)
       /\ sample_heap.1 !! l = None
       /\ Heap.read_frame h1 l
          = Some (DataFrame_of_records (reports two_tied_reports))
       /\ forall stmts,
            Heap.read_reports (Heap.run h1 l stmts) sample_heap.2
            = Some (reports two_tied_reports).
Proof.
  assert (Hread : Heap.read_reports sample_heap.1 sample_heap.2
                  = Some (reports two_tied_reports))
    by apply HeapFacts.store_of_reads.
  split; [exact Hread|].
  destruct (proj2 (HeapFacts.load_data_snapshot_is_independent
                     two_tied_reports) _ _ Hread)
    as (h1 & l & Hload & Hfresh & _ & Hframe & _ & Hrun).
  exists h1, l. split; [exact Hload|]. split; [exact Hfresh|].
  split; [exact Hframe|].
  intros stmts. exact (proj1 (proj2 (Hrun stmts))).
Defined.

Lemma null_timestamp_bucketed_under_NaT_witness :
  reachable (lib := reference) imported_with_bad_timestamp
  /\ In (nth 6 (reports imported_with_bad_timestamp) [])
        (reports imported_with_bad_timestamp)
  /\ isna (field "timestamp"
             (nth 6 (reports imported_with_bad_timestamp) [])) = true
  /\ isna (field "zipcode"
             (nth 6 (reports imported_with_bad_timestamp) [])) = false
  /\ counted_under_NaT (lib := reference) imported_with_bad_timestamp
       (nth 6 (reports imported_with_bad_timestamp) [])
  /\ trend_data (lib := reference) imported_with_bad_timestamp
     = Ok (Some {| columns := ["zipcode"; "week"; "report_count"];
                   rows := [bucket (VInt 10001) "2024-01-01/2024-01-07" 1;
                            bucket (VInt 10001) "NaT" 1;
                            bucket (VStr "10001") "2024-01-01/2024-01-07" 3;
                            bucket (VStr "10001") "2024-01-08/2024-01-14" 2]
                |}).
Proof.
  set (st := imported_with_bad_timestamp).
  set (d := nth 6 (reports st) []).
  assert (Hreq := imported_with_bad_timestamp_reachable).
  assert (Hin : In d (reports st)) by (simpl; tauto).
  split; [exact Hreq|]. split; [exact Hin|].
  split; [reflexivity|]. split; [reflexivity|]. split; [|reflexivity].
  exact (proj1 (proj2 (null_timestamp_bucketed_under_NaT (lib := reference)
                         st d Hreq Hin eq_refl eq_refl))).
Defined.

Lemma missing_credential_stops_page_at_load_witness :
  reachable (lib := reference) five_reports
  /\ exists msg,
       run_page (lib := reference) (os := empty_disk) None
         sample_interaction five_reports
       = (five_reports, Raise (OpenAIError msg)).
Proof.
  split; [exact five_reports_reachable|].
  destruct (missing_credential_stops_page_at_load (lib := reference)
              (os := empty_disk) sample_interaction five_reports)
    as [(msg & _ & Hrun) _].
  exists msg. exact Hrun.
Defined.

Lemma imported_without_zip_reachable :
  reachable (lib := reference) imported_without_zip.
Proof. apply reachable_upload. apply reachable_initial. Defined.

Lemma imported_without_zip_and_time_reachable :
  reachable (lib := reference) imported_without_zip_and_time.
Proof. apply reachable_upload. apply reachable_initial. Defined.

Lemma seventeen_tied_reports_reachable :
  reachable (lib := with_quicksort) seventeen_tied_reports.
Proof.
  unfold seventeen_tied_reports, tied_reports, submit_sample.
  cbn [fold_left].
  repeat (apply reachable_submit; [unfold valid_datetime; simpl; lia|]).
  apply reachable_initial.
Defined.

(** *** Where the claims as stated fail *)

(** C1: the export of five submitted reports, imported again, is
    rejected, so nothing comes back. *)
Lemma export_reimport_counterexample :
  Forall (fun d => keys d = required_columns) (reports five_reports)
  /\ report_tab_upload (lib := reference) (snd (table_tab five_reports))
       initial_state
     = (MissingColumns ["photo_path"], initial_state)
  /\ ~ round_trips (lib := reference) five_reports.
Proof.
  split; [repeat constructor|]. split; [vm_compute; reflexivity|].
  intros (st' & Hrun & _). vm_compute in Hrun. discriminate Hrun.
Qed.

(** C3: a row imported without a zip code has a time stamp that parses, yet
    its (zip code, week) pair does not appear. *)
Lemma null_zipcode_pair_counterexample :
  reachable (lib := reference) imported_without_zip
  /\ In (nth 0 (reports imported_without_zip) []) (reports imported_without_zip)
  /\ has_required (nth 0 (reports imported_without_zip) []) = true
  /\ field "zipcode" (nth 0 (reports imported_without_zip) []) = VNaN
  /\ field "timestamp" (nth 0 (reports imported_without_zip) [])
     = VTimestamp (19725 * ns_per_day + 32400 * ns_per_second)
  /\ ~ pair_appears (lib := reference) imported_without_zip
         (nth 0 (reports imported_without_zip) []).
Proof.
  split; [exact imported_without_zip_reachable|].
  split; [simpl; tauto|]. split; [reflexivity|].
  split; [reflexivity|]. split; [reflexivity|].
  intros (trend & w & n & Hrun & _ & Hin).
  vm_compute in Hrun. injection Hrun as <-. destruct Hin.
Qed.


(** C7: on the empty store the analysis tab shows that there is no data
    and sends nothing. *)
Lemma empty_store_counterexample :
  reachable (lib := reference) initial_state
  /\ ai_analysis_tab (lib := reference) (mkClient "key") (VStr "10001") true
    initial_state = Ok NoData
  /\ ~ exists view weekly_summary request,
         ai_analysis_tab (lib := reference) (mkClient "key") (VStr "10001")
           true initial_state = Ok view
         /\ request_sent view = Some (weekly_summary, request).
Proof.
  split; [apply reachable_initial|]. split; [reflexivity|].
  intros (view & ws & rq & Hrun & Hsent).
  vm_compute in Hrun. injection Hrun as <-. discriminate Hsent.
Qed.

(** C8: without a credential a run that only opens the page on a store of
    five reports renders nothing: the run ends with the client's error. *)
Lemma missing_credential_counterexample :
  reachable (lib := reference) five_reports
  /\ (exists msg,
        snd (run_page (lib := reference) (os := empty_disk) None
               sample_interaction five_reports)
        = Raise (OpenAIError msg))
  /\ ~ usable_without_credential (lib := reference) (os := empty_disk)
        sample_interaction five_reports.
Proof.
  split; [exact five_reports_reachable|].
  split; [eexists; reflexivity|].
  intros (view & Hrun). cbn in Hrun. discriminate Hrun.
Qed.

(** C10: a row imported with neither a zip code nor a time stamp that
    parses is in the store with a missing time stamp, and the trend
    projection has no row for it. *)
Lemma null_zipcode_dropped_counterexample :
  reachable (lib := reference) imported_without_zip_and_time
  /\ In (nth 0 (reports imported_without_zip_and_time) [])
     (reports imported_without_zip_and_time)
  /\ field "timestamp" (nth 0 (reports imported_without_zip_and_time) [])
     = VNaT
  /\ field "zipcode" (nth 0 (reports imported_without_zip_and_time) [])
     = VNaN
  /\ trend_data (lib := reference) imported_without_zip_and_time
     = Ok (Some {| columns := ["zipcode"; "week"; "report_count"];
                   rows := [] |})
  /\ ~ counted_under_NaT (lib := reference) imported_without_zip_and_time
         (nth 0 (reports imported_without_zip_and_time) []).
Proof.
  split; [exact imported_without_zip_and_time_reachable|].
  split; [simpl; tauto|]. split; [reflexivity|].
  split; [reflexivity|]. split; [reflexivity|].
  intros (trend & n & Hrun & Hin & _).
  vm_compute in Hrun. injection Hrun as <-. destruct Hin.
Qed.

(** ** The further properties on concrete inputs *)

Lemma submitted_timestamp_is_the_minute_witness :
  valid_datetime (third_of_january 5)
  /\ valid_datetime (third_of_january 40)
  /\ field "timestamp"
       (submitted_report (sample_form "1 Mill Rd" "10001")
          (third_of_january 5) (third_of_january 5) initial_state)
     = VStr "2024-01-03 09:00"
  /\ field "timestamp"
       (submitted_report (sample_form "1 Mill Rd" "10001")
          (third_of_january 5) (third_of_january 5) initial_state)
     = field "timestamp"
         (submitted_report (sample_form "2 Mill Rd" "10002")
            (third_of_january 40) (third_of_january 40) five_reports).
Proof.
  assert (H1 : valid_datetime (third_of_january 5))
    by (unfold valid_datetime; simpl; lia).
  assert (H2 : valid_datetime (third_of_january 40))
    by (unfold valid_datetime; simpl; lia).
  split; [exact H1|]. split; [exact H2|]. split; [reflexivity|].
  apply (submitted_timestamp_is_the_minute
           (sample_form "1 Mill Rd" "10001") (sample_form "2 Mill Rd" "10002")
           (third_of_january 5) (third_of_january 40)
           (third_of_january 5) (third_of_january 40)
           initial_state five_reports H1 H2).
  repeat split.
Defined.

Lemma photo_path_is_stamped_to_the_second_witness :
  report_tab_submit (os := empty_disk) (photo_form "tap.png")
    (third_of_january 5) (third_of_january 5) initial_state
  = Ok ({| reports :=
             [submitted_report (photo_form "tap.png") (third_of_january 5)
                (third_of_january 5) initial_state];
           uploader_key := 0 |},
        Some ("uploaded_images/20240103_090005_tap.png",
              "bytes of the photo"))
  /\ report_tab_submit (os := read_only_disk) (photo_form "tap.png")
       (third_of_january 5) (third_of_january 5) initial_state
     = Raise (OSError "Read-only file system")
  /\ option_map fst (photo_file (photo_form "tap.png") (third_of_january 5))
     <> option_map fst
          (photo_file (photo_form "tap.png") (third_of_january 40)).
Proof.
  assert (H1 : valid_datetime (third_of_january 5))
    by (unfold valid_datetime; simpl; lia).
  assert (H2 : valid_datetime (third_of_january 40))
    by (unfold valid_datetime; simpl; lia).
  destruct (photo_path_is_stamped_to_the_second (os := empty_disk))
    as (_ & Hwrite & Hiff).
  destruct (photo_path_is_stamped_to_the_second (os := read_only_disk))
    as (_ & Hfail & _).
  split; [|split].
  - exact (proj1 (proj1 (Hwrite (photo_form "tap.png") (third_of_january 5)
                           (third_of_january 5) initial_state
                           "tap.png" "bytes of the photo" eq_refl)
                    eq_refl)).
  - exact (proj2 (Hfail (photo_form "tap.png") (third_of_january 5)
                    (third_of_january 5) initial_state
                    "tap.png" "bytes of the photo" eq_refl)
             _ eq_refl).
  - intros E.
    apply (Hiff (photo_form "tap.png") (photo_form "tap.png")
             (third_of_january 5) (third_of_january 40)
             "tap.png" "bytes of the photo" "tap.png" "bytes of the photo"
             H1 H2 eq_refl eq_refl) in E.
    destruct E as [[_ Hs] _]. discriminate Hs.
Defined.

Lemma upload_keeps_every_column_witness :
  exists df,
    read_csv (Collaborators := reference) csv_with_extra_column = Ok df
    /\ (forall c, In c required_columns -> In c (columns df))
    /\ exists new,
         reports (snd (report_tab_upload (lib := reference)
                         csv_with_extra_column five_reports))
         = reports five_reports ++ new
         /\ map keys new = [required_columns ++ ["note"]].
Proof.
  eexists. split; [reflexivity|].
  assert (Hcols : forall c, In c required_columns ->
            In c (required_columns ++ ["note"]))
    by (intros c Hc; apply in_or_app; now left).
  split; [exact Hcols|].
  destruct (upload_keeps_every_column (lib := reference)
              csv_with_extra_column _ five_reports eq_refl Hcols)
    as (new & Hnew & _ & Hall).
  exists new. split; [exact Hnew|].
  inversion Hall as [|r d rs ds (Hk & _) Hrest]; subst.
  inversion Hrest; subst. cbn [map]. now rewrite Hk.
Defined.

Lemma stored_reports_are_well_formed_witness :
  reachable (lib := reference) imported_with_bad_timestamp
  /\ length (reports imported_with_bad_timestamp) = 7%nat
  /\ Forall (fun d => has_required d = true
                      /\ stamped (field "timestamp" d)
                      /\ timestamp_ok (lib := reference) d)
            (reports imported_with_bad_timestamp).
Proof.
  split; [exact imported_with_bad_timestamp_reachable|].
  split; [reflexivity|].
  exact (stored_reports_are_well_formed (lib := reference) _
           imported_with_bad_timestamp_reachable).
Defined.

Lemma run_appends_upload_then_submission_witness :
  length (reports (fst (run_page (lib := reference) (os := empty_disk)
                          (Some "key") busy_interaction five_reports)))
  = 8%nat
  /\ (exists msg,
        snd (run_page (lib := reference) (os := empty_disk) (Some "key")
               busy_interaction five_reports)
        = Raise (TypeError msg))
  /\ exists imported new,
       reports (fst (run_page (lib := reference) (os := empty_disk)
                       (Some "key") busy_interaction five_reports))
       = reports five_reports ++ imported ++ new
       /\ length imported = 2%nat /\ length new = 1%nat.
Proof.
  split; [vm_compute; reflexivity|]. split.
  { exists "stat: path should be string, bytes, os.PathLike or integer".
    vm_compute. reflexivity. }
  destruct (run_appends_upload_then_submission (lib := reference)
              (os := empty_disk) (Some "key") busy_interaction five_reports)
    as (imported & new & Hrep & Hup & Hnew & _).
  exists imported, new. split; [exact Hrep|].
  destruct Hup as [[Hkey _]|(_ & file & df & Hfile & Hread & ->)];
    [vm_compute in Hkey; discriminate Hkey|].
  injection Hfile as <-. vm_compute in Hread. injection Hread as <-.
  split; [reflexivity|].
  destruct Hnew as [->|(f & np & now & r & _ & -> & _)]; [|reflexivity].
  apply (f_equal (@length _)) in Hrep. vm_compute in Hrep.
  discriminate Hrep.
Defined.

Lemma gallery_choices_are_the_stored_zip_codes_witness :
  reachable (lib := reference) two_tied_reports
  /\ reports two_tied_reports <> []
  /\ zip_codes_print_as_stored two_tied_reports
  /\ gallery_zip_options (lib := reference) two_tied_reports
     = Ok (Some ["All"; "10001"; "10002"])
  /\ exists zs,
       gallery_zip_options (lib := reference) two_tied_reports
       = Ok (Some ("All" :: zs))
       /\ StronglySorted (fun a b => String.compare a b = Lt) zs.
Proof.
  split; [exact two_tied_reports_reachable|].
  assert (Hne : reports two_tied_reports <> []) by discriminate.
  assert (Hzip : zip_codes_print_as_stored two_tied_reports).
  { left. intros d Hd. cbn in Hd.
    destruct Hd as [<-|[<-|[]]]; reflexivity. }
  split; [exact Hne|]. split; [exact Hzip|]. split; [reflexivity|].
  destruct (gallery_choices_are_the_stored_zip_codes (lib := reference)
              two_tied_reports two_tied_reports_reachable Hne Hzip)
    as (zs & Hrun & Hsorted & _).
  exists zs. split; [exact Hrun | exact Hsorted].
Defined.

Lemma trend_choices_are_the_present_zip_codes_witness :
  reachable (lib := reference) two_tied_reports
  /\ reports two_tied_reports <> []
  /\ trend_zip_options (lib := reference) two_tied_reports
     = Ok (Some [VStr "10001"; VStr "10002"])
  /\ exists zs,
       trend_zip_options (lib := reference) two_tied_reports = Ok (Some zs)
       /\ StronglySorted (fun a b => value_compare a b = Lt) zs.
Proof.
  split; [exact two_tied_reports_reachable|].
  assert (Hne : reports two_tied_reports <> []) by discriminate.
  split; [exact Hne|]. split; [reflexivity|].
  destruct (trend_choices_are_the_present_zip_codes (lib := reference)
              two_tied_reports two_tied_reports_reachable Hne)
    as (zs & Hrun & Hsorted & _).
  exists zs. split; [exact Hrun | exact Hsorted].
Defined.

Lemma top_zips_are_the_five_largest_witness :
  reachable (lib := reference) five_reports
  /\ reports five_reports <> []
  /\ trends_top_zips (lib := reference) five_reports
     = Ok (Some [(VStr "10001", 5)])
  /\ exists top ranked,
       trends_top_zips (lib := reference) five_reports = Ok (Some top)
       /\ top = firstn 5 ranked
       /\ StronglySorted (fun a b => snd b <= snd a) ranked.
Proof.
  split; [exact five_reports_reachable|].
  assert (Hne : reports five_reports <> []) by discriminate.
  split; [exact Hne|]. split; [reflexivity|].
  destruct (top_zips_are_the_five_largest (lib := reference)
              five_reports five_reports_reachable Hne)
    as (top & ranked & Hrun & Htop & _ & Hsorted & _).
  exists top, ranked. auto.
Defined.

Lemma placeholders_exactly_on_empty_store_witness :
  reachable (lib := reference) initial_state
  /\ gallery_tab (lib := reference) "All" NewestFirst initial_state = Ok None
  /\ trends_tab (lib := reference) (VStr "10001") initial_state = Ok None
  /\ ai_analysis_tab (lib := reference) (mkClient "key") (VStr "10001") true
       initial_state = Ok NoData.
Proof.
  split; [apply reachable_initial|].
  destruct (placeholders_exactly_on_empty_store (lib := reference)
              (mkClient "key") "All" NewestFirst (VStr "10001") true
              initial_state (reachable_initial (lib := reference)))
    as (Hg & _ & Ht & _ & Ha & _).
  split; [now apply Hg|]. split; [now apply Ht | now apply Ha].
Defined.

Lemma analysis_passes_the_answer_or_the_failure_witness :
  reachable (lib := reference) five_reports
  /\ reports five_reports <> []
  /\ ai_analysis_tab (lib := reference) (mkClient "key") (VStr "10001") false
       five_reports = Ok Idle
  /\ exists weekly_summary request content,
       ai_analysis_tab (lib := reference) (mkClient "key") (VStr "10001") true
         five_reports = Ok (Answer weekly_summary request content).
Proof.
  split; [exact five_reports_reachable|].
  assert (Hne : reports five_reports <> []) by discriminate.
  split; [exact Hne|].
  destruct (analysis_passes_the_answer_or_the_failure (lib := reference)
              (mkClient "key") (VStr "10001") five_reports
              five_reports_reachable Hne)
    as (Hidle & ws & rq & _ & _ & _ & _ & Hok & _).
  split; [exact Hidle|].
  exists ws, rq, (user_content rq). apply Hok. reflexivity.
Defined.

Lemma submitted_report_is_shown_witness :
  reachable (lib := reference) five_reports
  /\ valid_datetime (january 12 9)
  /\ exists st',
       report_tab_submit (os := empty_disk) (sample_form "6 Mill Rd" "10002")
         (january 12 9) (january 12 9) five_reports = Ok (st', None)
       /\ (exists rs r,
             gallery_tab (lib := reference) "10002" NewestFirst st'
             = Ok (Some rs)
             /\ In r rs
             /\ field "address" r = VStr "6 Mill Rd")
       /\ exists page c,
            gallery_tab_render (lib := reference) (os := empty_disk) "10002"
              NewestFirst GridView st' = Ok (Some page)
            /\ In c (cards page)
            /\ card_address c = "6 Mill Rd"
            /\ card_timestamp c = "2024-01-12 09:00:00".
Proof.
  assert (Hnow : valid_datetime (january 12 9))
    by (unfold valid_datetime; simpl; lia).
  split; [exact five_reports_reachable|]. split; [exact Hnow|].
  eexists. split; [reflexivity|].
  destruct (submitted_report_is_shown (lib := reference) (os := empty_disk)
              (sample_form "6 Mill Rd" "10002") (january 12 9) (january 12 9)
              NewestFirst GridView five_reports _ None
              five_reports_reachable Hnow eq_refl)
    as (rs & r & ns & _ & _ & Hrun & Hin & Haddr & _ & Hparse & _ & _ & _
        & _ & Hcard & Hrender).
  split; [exists rs, r; split; [exact Hrun|]; split; [exact Hin|exact Haddr]|].
  destruct Hrender as (page & Hpage);
    [repeat constructor | reflexivity|].
  destruct (Hcard page Hpage) as (c & Hc & Ha & Ht).
  exists page, c. split; [exact Hpage|]. split; [exact Hc|].
  split; [exact Ha|]. rewrite Ht.
  vm_compute in Hparse. injection Hparse as <-. reflexivity.
Defined.

Lemma gallery_raises_on_missing_photo_path_witness :
  reachable (lib := reference) imported_with_bad_timestamp
  /\ In (nth 5 (reports imported_with_bad_timestamp) [])
        (reports imported_with_bad_timestamp)
  /\ field "photo_path" (nth 5 (reports imported_with_bad_timestamp) [])
     = VNaN
  /\ exists e,
       gallery_tab_render (lib := reference) (os := empty_disk) "All"
         NewestFirst GridView imported_with_bad_timestamp = Raise e.
Proof.
  assert (Hin : In (nth 5 (reports imported_with_bad_timestamp) [])
                   (reports imported_with_bad_timestamp))
    by (simpl; tauto).
  split; [exact imported_with_bad_timestamp_reachable|].
  split; [exact Hin|]. split; [reflexivity|].
  exact (proj2 (gallery_raises_on_missing_photo_path (lib := reference)
                  (os := empty_disk) "All" NewestFirst GridView
                  imported_with_bad_timestamp _
                  imported_with_bad_timestamp_reachable Hin eq_refl
                  (or_introl eq_refl))).
Defined.

Lemma upload_twice_appends_twice_witness :
  exists df,
    read_csv (Collaborators := reference) csv_with_bad_timestamp = Ok df
    /\ (forall c, In c required_columns -> In c (columns df))
    /\ length (reports (snd (report_tab_upload (lib := reference)
                               csv_with_bad_timestamp
                               (snd (report_tab_upload (lib := reference)
                                       csv_with_bad_timestamp
                                       initial_state)))))
       = 4%nat
    /\ uploader_key (snd (report_tab_upload (lib := reference)
                            csv_with_bad_timestamp
                            (snd (report_tab_upload (lib := reference)
                                    csv_with_bad_timestamp initial_state))))
       = 2%nat.
Proof.
  eexists. split; [reflexivity|].
  assert (Hcols : forall c, In c required_columns ->
            In c ["timestamp"; "address"; "zipcode"; "description";
                  "concerns"; "type"; "used"; "symptoms"; "alert";
                  "photo_path"]) by (intros c Hc; exact Hc).
  split; [exact Hcols|].
  destruct (upload_twice_appends_twice (lib := reference)
              csv_with_bad_timestamp _ initial_state eq_refl Hcols)
    as (Hrep & Hkey).
  split; [|exact Hkey].
  rewrite Hrep. reflexivity.
Defined.

Lemma trends_tab_plots_the_selected_zip_witness :
  reachable (lib := reference) five_reports
  /\ reports five_reports <> []
  /\ trends_tab (lib := reference) (VStr "10001") five_reports
     = Ok (Some {| columns := ["zipcode"; "week"; "report_count"];
                   rows := [bucket (VStr "10001") "2024-01-01/2024-01-07" 3;
                            bucket (VStr "10001") "2024-01-08/2024-01-14" 2]
                |})
  /\ exists selected,
       trends_tab (lib := reference) (VStr "10001") five_reports
       = Ok (Some selected)
       /\ StronglySorted week_before (rows selected).
Proof.
  split; [exact five_reports_reachable|].
  assert (Hne : reports five_reports <> []) by discriminate.
  split; [exact Hne|]. split; [reflexivity|].
  destruct (trends_tab_plots_the_selected_zip (lib := reference)
              (VStr "10001") five_reports five_reports_reachable Hne)
    as (selected & Hrun & _ & _ & _ & Hsorted & _).
  exists selected. split; [exact Hrun | exact Hsorted].
Defined.
